(** * L5 type checker: a shallow embedding of [L5-typecheck.ts]

    The development follows the layout of the TypeScript module: type
    expressions and their structural equality, the [Result] type, type
    environments, the AST, the unifier, and finally the typing rules. *)

From Stdlib Require Import ZArith String Ascii List Bool Lia.
From stdpp Require Import base option list strings pretty gmap.

Set Warnings "-register-all".
Local Open Scope string_scope.

(** ** Type expressions *)

(** Modelled from the spec: the type-expression model of [TExp.ts], which
    the checker imports ([makeNumTExp], [makePairTExp], [makeProcTExp],
    [isTVar], ...).  A type variable is a name, nothing else. *)
Inductive TExp : Type :=
| NumTExp
| BoolTExp
| StrTExp
| VoidTExp
| LiteralTExp
| PairTExp (first second : TExp)
| ProcTExp (paramTEs : list TExp) (returnTE : TExp)
| TVar (var : string).

Definition isTVar (te : TExp) : bool :=
  match te with TVar _ => true | _ => false end.

Definition isPairTExp (te : TExp) : bool :=
  match te with PairTExp _ _ => true | _ => false end.

Definition isProcTExp (te : TExp) : bool :=
  match te with ProcTExp _ _ => true | _ => false end.

Definition isAtomicTExp (te : TExp) : bool :=
  match te with
  | NumTExp | BoolTExp | StrTExp | VoidTExp | LiteralTExp => true
  | _ => false
  end.

(** Ramda's [equals] on two type expressions: deep structural comparison. *)
Fixpoint equals (te1 te2 : TExp) {struct te1} : bool :=
  match te1, te2 with
  | NumTExp, NumTExp => true
  | BoolTExp, BoolTExp => true
  | StrTExp, StrTExp => true
  | VoidTExp, VoidTExp => true
  | LiteralTExp, LiteralTExp => true
  | PairTExp a1 b1, PairTExp a2 b2 => equals a1 a2 && equals b1 b2
  | ProcTExp ps1 r1, ProcTExp ps2 r2 =>
      (fix equalsList (l1 l2 : list TExp) {struct l1} : bool :=
         match l1, l2 with
         | [], [] => true
         | x :: l1', y :: l2' => equals x y && equalsList l1' l2'
         | _, _ => false
         end) ps1 ps2
      && equals r1 r2
  | TVar v1, TVar v2 => bool_decide (v1 = v2)
  | _, _ => false
  end.

(** ** Results *)

(** Modelled from the spec: [shared/result.ts].  A rule produces a value or a
    failure carrying a message; [bind] short-circuits on the first failure. *)
Inductive Result (A : Type) : Type :=
| Ok (value : A)
| Failure (message : string).
Arguments Ok {A} value.
Arguments Failure {A} message.

Definition isOk {A} (r : Result A) : bool :=
  match r with Ok _ => true | Failure _ => false end.

Definition bind {A B} (r : Result A) (f : A -> Result B) : Result B :=
  match r with
  | Ok v => f v
  | Failure m => Failure m
  end.

(** Modelled from the spec: [zipWithResult] of [shared/result.ts] applies [f]
    pairwise, left to right, up to the shorter list, and stops at the first
    failure. *)
Fixpoint zipWithResult {A B C} (f : A -> B -> Result C)
    (xs : list A) (ys : list B) : Result (list C) :=
  match xs, ys with
  | x :: xs', y :: ys' =>
      bind (f x y) (fun fxy =>
        bind (zipWithResult f xs' ys') (fun fxys => Ok (fxy :: fxys)))
  | _, _ => Ok []
  end.

(** Ramda's [zipWith]: truncates to the shorter argument. *)
Fixpoint zipWith {A B C} (f : A -> B -> C) (xs : list A) (ys : list B) : list C :=
  match xs, ys with
  | x :: xs', y :: ys' => f x y :: zipWith f xs' ys'
  | _, _ => []
  end.

(** ** The AST *)

(** Quoted data, as [parseSExp] builds it: numbers, booleans, strings,
    symbols, the empty list and compound (pair) values.  The numeric payload
    is never inspected by the checker. *)
Inductive SExpValue : Type :=
| SNumber (n : Z)
| SBoolean (b : bool)
| SString (s : string)
| SymbolSExp (val : string)
| EmptySExp
| CompoundSExp (val1 val2 : SExpValue).

Definition isCompoundSExp (v : SExpValue) : bool :=
  match v with CompoundSExp _ _ => true | _ => false end.

Definition isSymbolSExp (v : SExpValue) : bool :=
  match v with SymbolSExp _ => true | _ => false end.

(** A declared variable: in L5 every [VarDecl] carries its type annotation. *)
Record VarDecl : Type := makeVarDecl { var : string; texp : TExp }.

Record Binding (E : Type) : Type := makeBinding { bvar : VarDecl; bval : E }.
Arguments makeBinding {E} bvar bval.
Arguments bvar {E} b.
Arguments bval {E} b.

(** [Parsed = Exp | Program]: the tagged union [typeofExp] dispatches on.
    The variants are those of the L4 AST, with the L5 annotations the checker
    reads ([VarDecl.texp], [ProcExp.returnTE]). *)
Inductive Exp : Type :=
| Program (exps : list Exp)
| DefineExp (v : VarDecl) (val : Exp)
| NumExp (val : Z)
| BoolExp (val : bool)
| StrExp (val : string)
| PrimOp (op : string)
| VarRef (v : string)
| AppExp (rator : Exp) (rands : list Exp)
| IfExp (test then_ alt : Exp)
| ProcExp (args : list VarDecl) (body : list Exp) (returnTE : TExp)
| LetExp (bindings : list (Binding Exp)) (body : list Exp)
| LitExp (val : SExpValue)
| LetrecExp (bindings : list (Binding Exp)) (body : list Exp)
| SetExp (v : string) (val : Exp).

Definition isDefineExp (x : Exp) : bool :=
  match x with DefineExp _ _ => true | _ => false end.

Definition isProcExp (x : Exp) : bool :=
  match x with ProcExp _ _ _ => true | _ => false end.

(** Field reads on a value the caller has already tested with [isProcExp]. *)
Definition procArgs (p : Exp) : list VarDecl :=
  match p with ProcExp args _ _ => args | _ => [] end.

Definition procBody (p : Exp) : list Exp :=
  match p with ProcExp _ body _ => body | _ => [] end.

Definition procReturnTE (p : Exp) : TExp :=
  match p with ProcExp _ _ returnTE => returnTE | _ => VoidTExp end.

(** [allT] of [shared/list.ts]. *)
Definition allT {A} (isT : A -> bool) (xs : list A) : bool := forallb isT xs.

(** ** External collaborators *)

(** The parser of type expressions, the two pretty-printers, [format] and
    the text of the unbound-variable message live outside the checker; the
    rules are stated for any implementation of them. *)
Class Collaborators : Type := {
  parseTE : string -> Result TExp;
  unparseTExp : TExp -> Result string;
  unparse : Exp -> Result string;
  format : Exp -> string;
  unboundMessage : string -> string
}.

(** JavaScript's string conversion of a plain object, which is what [+]
    applies when a [Result] object is concatenated to a string. *)
Definition objectToString {A} (o : Result A) : string := "[object Object]".

(** ** Type environments *)

(** Modelled from the spec: [TEnv.ts], a chain of frames; a frame pairs the
    names bound together with their types, position by position. *)
Inductive TEnv : Type :=
| EmptyTEnv
| ExtendTEnv (vars : list string) (texps : list TExp) (tenv : TEnv).

Definition makeEmptyTEnv : TEnv := EmptyTEnv.
Definition makeExtendTEnv (vars : list string) (texps : list TExp) (tenv : TEnv) : TEnv :=
  ExtendTEnv vars texps tenv.

Section Environment.
Context `{Collaborators}.

(** Lookup in one frame; [outer] is the answer of the enclosing chain. *)
Fixpoint applyFrame (vars : list string) (texps : list TExp)
    (outer : Result TExp) (v : string) : Result TExp :=
  match vars, texps with
  | x :: vars', t :: texps' =>
      if String.eqb x v then Ok t else applyFrame vars' texps' outer v
  | _, _ => outer
  end.

(** Modelled from the spec: lookup walks the chain from the innermost frame
    outwards and returns the first match, or fails as unbound. *)
Fixpoint applyTEnv (tenv : TEnv) (v : string) : Result TExp :=
  match tenv with
  | EmptyTEnv => Failure (unboundMessage v)
  | ExtendTEnv vars texps tenv' => applyFrame vars texps (applyTEnv tenv' v) v
  end.
End Environment.

(** ** Unification and substitution *)

(** [unifyTypes] mutates the [Map] it receives; the updated map is returned
    next to the boolean.  A lookup result is truthy whenever it is present,
    since every type expression is an object. *)
Fixpoint unifyTypes (expected actual : TExp) (substitution : gmap string TExp)
    {struct expected} : bool * gmap string TExp :=
  match expected with
  | TVar v =>
      match substitution !! v with
      | Some existing => (equals existing actual, substitution)
      | None => (true, <[v := actual]> substitution)
      end
  | _ =>
      if isAtomicTExp expected && isAtomicTExp actual
      then (equals expected actual, substitution)
      else
        match expected, actual with
        | PairTExp efirst esecond, PairTExp afirst asecond =>
            let (ok, substitution') := unifyTypes efirst afirst substitution in
            if ok then unifyTypes esecond asecond substitution'
            else (false, substitution')
        | _, _ => (equals expected actual, substitution)
        end
  end.

Fixpoint substituteTypeVars (type : TExp) (substitution : gmap string TExp) : TExp :=
  match type with
  | TVar v => default type (substitution !! v)
  | PairTExp tfirst tsecond =>
      PairTExp (substituteTypeVars tfirst substitution)
               (substituteTypeVars tsecond substitution)
  | ProcTExp paramTEs returnTE =>
      ProcTExp (map (fun p => substituteTypeVars p substitution) paramTEs)
               (substituteTypeVars returnTE substitution)
  | _ => type
  end.

(** ** The typing rules *)

(** The rules recurse through [typeofExp] on lists of subexpressions, so they
    are first written against an arbitrary [typeofExp]; the recursion is
    closed by the [Fixpoint] that follows the module. *)
Module Rules.
Section Rules.
Context `{Collaborators}.
Variable typeofExp : Exp -> TEnv -> Result TExp.

Definition checkEqualType (te1 te2 : TExp) (exp : Exp) : Result bool :=
  if equals te1 te2 then Ok true
  else
    bind (unparseTExp te1) (fun s1 =>
      bind (unparseTExp te2) (fun s2 =>
        bind (unparse exp) (fun e =>
          Failure ("Incompatible types: " ++ s1 ++ " and " ++ s2 ++ " in " ++ e)))).

Fixpoint typeofExps (exps : list Exp) (tenv : TEnv) : Result TExp :=
  match exps with
  | [] => Failure "Unexpected empty list of expressions"
  | first :: rest =>
      match rest with
      | [] => typeofExp first tenv
      | _ :: _ => bind (typeofExp first tenv) (fun _ => typeofExps rest tenv)
      end
  end.

Definition typeofCompoundSExp (val : SExpValue) : Result TExp :=
  match val with
  | CompoundSExp val1 val2 =>
      let leftType :=
        match val1 with
        | SNumber _ => NumTExp
        | SBoolean _ => BoolTExp
        | SString _ => StrTExp
        | SymbolSExp _ => LiteralTExp
        | _ => LiteralTExp
        end in
      let rightType :=
        match val2 with
        | SNumber _ => NumTExp
        | SBoolean _ => BoolTExp
        | SString _ => StrTExp
        | SymbolSExp _ => LiteralTExp
        | _ => LiteralTExp
        end in
      Ok (PairTExp leftType rightType)
  | _ => Ok LiteralTExp
  end.

Definition typeofLit (val : SExpValue) : Result TExp :=
  if isCompoundSExp val then typeofCompoundSExp val
  else Ok LiteralTExp.

Definition numOpTExp : Result TExp := parseTE "(number * number -> number)".
Definition numCompTExp : Result TExp := parseTE "(number * number -> boolean)".
Definition boolOpTExp : Result TExp := parseTE "(boolean * boolean -> boolean)".

Definition typeofPrim (op : string) : Result TExp :=
  if String.eqb op "+" then numOpTExp else
  if String.eqb op "-" then numOpTExp else
  if String.eqb op "*" then numOpTExp else
  if String.eqb op "/" then numOpTExp else
  if String.eqb op "and" then boolOpTExp else
  if String.eqb op "or" then boolOpTExp else
  if String.eqb op ">" then numCompTExp else
  if String.eqb op "<" then numCompTExp else
  if String.eqb op "=" then numCompTExp else
  if String.eqb op "number?" then parseTE "(T -> boolean)" else
  if String.eqb op "boolean?" then parseTE "(T -> boolean)" else
  if String.eqb op "string?" then parseTE "(T -> boolean)" else
  if String.eqb op "list?" then parseTE "(T -> boolean)" else
  if String.eqb op "pair?" then parseTE "(T -> boolean)" else
  if String.eqb op "symbol?" then parseTE "(T -> boolean)" else
  if String.eqb op "not" then parseTE "(boolean -> boolean)" else
  if String.eqb op "eq?" then parseTE "(T1 * T2 -> boolean)" else
  if String.eqb op "string=?" then parseTE "(T1 * T2 -> boolean)" else
  if String.eqb op "display" then parseTE "(T -> void)" else
  if String.eqb op "newline" then parseTE "(Empty -> void)" else
  if String.eqb op "cons" then parseTE "(T1 * T2 -> (Pair T1 T2))" else
  if String.eqb op "car" then parseTE "((Pair T1 T2) -> T1)" else
  if String.eqb op "cdr" then parseTE "((Pair T1 T2) -> T2)" else
  Failure ("Primitive not yet implemented: " ++ op).

Definition typeofIf (test then_ alt : Exp) (tenv : TEnv) : Result TExp :=
  let ifExp := IfExp test then_ alt in
  let testTE := typeofExp test tenv in
  let thenTE := typeofExp then_ tenv in
  let altTE := typeofExp alt tenv in
  let constraint1 := bind testTE (fun testTE => checkEqualType testTE BoolTExp ifExp) in
  let constraint2 :=
    bind thenTE (fun thenTE =>
      bind altTE (fun altTE => checkEqualType thenTE altTE ifExp)) in
  bind constraint1 (fun _ => bind constraint2 (fun _ => thenTE)).

Definition typeofProc (args : list VarDecl) (body : list Exp) (returnTE : TExp)
    (tenv : TEnv) : Result TExp :=
  let proc := ProcExp args body returnTE in
  let argsTEs := map texp args in
  let extTEnv := makeExtendTEnv (map var args) argsTEs tenv in
  let constraint1 :=
    bind (typeofExps body extTEnv) (fun bodyTE => checkEqualType bodyTE returnTE proc) in
  bind constraint1 (fun _ => Ok (ProcTExp argsTEs returnTE)).

(** The [for] loop of [typeofApp], from position [i] on: [rands] and
    [paramTEs] are the operands and parameter types still to visit (the
    arity test has made them equally long), [substitution] the map so far.
    The result is the map after the last position. *)
Fixpoint unifyRands (app : Exp) (tenv : TEnv) (rands : list Exp) (paramTEs : list TExp)
    (substitution : gmap string TExp) : Result (gmap string TExp) :=
  match rands, paramTEs with
  | rand :: rands', paramTE :: paramTEs' =>
      match typeofExp rand tenv with
      | Failure m => Failure m
      | Ok randTE =>
          let (ok, substitution') := unifyTypes paramTE randTE substitution in
          if ok then unifyRands app tenv rands' paramTEs' substitution'
          else bind (unparse app) (fun e =>
                 Failure ("Type mismatch in application: " ++ e))
      end
  | _, _ => Ok substitution
  end.

Definition typeofApp (rator : Exp) (rands : list Exp) (tenv : TEnv) : Result TExp :=
  let app := AppExp rator rands in
  bind (typeofExp rator tenv) (fun ratorTE =>
    match ratorTE with
    | ProcTExp paramTEs returnTE =>
        if negb (length rands =? length paramTEs)%nat then
          bind (unparse app) (fun e =>
            Failure ("Wrong parameter numbers passed to proc: " ++ e))
        else
          bind (unifyRands app tenv rands paramTEs ∅) (fun substitution =>
            Ok (substituteTypeVars returnTE substitution))
    | _ =>
        bind (unparseTExp ratorTE) (fun r =>
          bind (unparse app) (fun e =>
            Failure ("Application of non-procedure: " ++ r ++ " in " ++ e)))
    end).

Definition typeofLet (bindings : list (Binding Exp)) (body : list Exp)
    (tenv : TEnv) : Result TExp :=
  let exp := LetExp bindings body in
  let vars := map (fun b => var (bvar b)) bindings in
  let vals := map (fun b => bval b) bindings in
  let varTEs := map (fun b => texp (bvar b)) bindings in
  let constraints :=
    zipWithResult (fun varTE val =>
                     bind (typeofExp val tenv) (fun typeOfVal =>
                       checkEqualType varTE typeOfVal exp))
                  varTEs vals in
  bind constraints (fun _ => typeofExps body (makeExtendTEnv vars varTEs tenv)).

Definition typeofLetrec (bindings : list (Binding Exp)) (body : list Exp)
    (tenv : TEnv) : Result TExp :=
  let exp := LetrecExp bindings body in
  let ps := map (fun b => var (bvar b)) bindings in
  let procs := map (fun b => bval b) bindings in
  if negb (allT isProcExp procs) then
    Failure ("letrec - only support binding of procedures - " ++ format exp)
  else
    let paramss := map procArgs procs in
    let bodies := map procBody procs in
    let tijs := map (fun params => map texp params) paramss in
    let tis := map procReturnTE procs in
    let tenvBody := makeExtendTEnv ps (zipWith ProcTExp tijs tis) tenv in
    let tenvIs :=
      zipWith (fun params tij => makeExtendTEnv (map var params) tij tenvBody)
              paramss tijs in
    let types := zipWithResult (fun bodyI tenvI => typeofExps bodyI tenvI) bodies tenvIs in
    let constraints :=
      bind types (fun types =>
        zipWithResult (fun typeI ti => checkEqualType typeI ti exp) types tis) in
    bind constraints (fun _ => typeofExps body tenvBody).

Definition typeofDefine (v : VarDecl) (val : Exp) (tenv : TEnv) : Result TExp :=
  let exp := DefineExp v val in
  let valTE := typeofExp val tenv in
  let constraint := bind valTE (fun valType => checkEqualType valType (texp v) exp) in
  if isOk constraint then Ok VoidTExp
  else
    Failure ("VarDecl type different from val type, types:"
             ++ match valTE with
                | Ok valType => objectToString (unparseTExp valType)
                | Failure _ => "unknown"
                end
             ++ " and " ++ objectToString (unparseTExp (texp v))).

(** [recur] of [typeofProgram]. *)
Fixpoint recur (remaining : list Exp) (env : TEnv) : Result TExp :=
  match remaining with
  | [] => Ok VoidTExp
  | first :: rest =>
      match rest with
      | [] => typeofExp first env
      | _ :: _ =>
          match first with
          | DefineExp v val =>
              bind (typeofDefine v val env) (fun _ =>
                recur rest (makeExtendTEnv [var v] [texp v] env))
          | _ => bind (typeofExp first env) (fun _ => recur rest env)
          end
      end
  end.

Definition typeofProgram (exps : list Exp) : Result TExp :=
  recur exps makeEmptyTEnv.

(** Structural forms of the two rules that reach their subexpressions
    through [map] and [zipWithResult]: the same computations, walking the
    binding list itself.  They are proved equal to the rules above. *)
Fixpoint letConstraints (exp : Exp) (tenv : TEnv) (bindings : list (Binding Exp))
    : Result (list bool) :=
  match bindings with
  | [] => Ok []
  | b :: bindings' =>
      bind (bind (typeofExp (bval b) tenv) (fun typeOfVal =>
              checkEqualType (texp (bvar b)) typeOfVal exp))
        (fun c => bind (letConstraints exp tenv bindings') (fun cs => Ok (c :: cs)))
  end.

Definition typeofLetStruct (bindings : list (Binding Exp)) (body : list Exp)
    (tenv : TEnv) : Result TExp :=
  let vars := map (fun b => var (bvar b)) bindings in
  let varTEs := map (fun b => texp (bvar b)) bindings in
  bind (letConstraints (LetExp bindings body) tenv bindings)
    (fun _ => typeofExps body (makeExtendTEnv vars varTEs tenv)).

Fixpoint letrecTypes (tenvBody : TEnv) (bindings : list (Binding Exp))
    : Result (list TExp) :=
  match bindings with
  | [] => Ok []
  | b :: bindings' =>
      bind (match bval b with
            | ProcExp args pbody _ =>
                typeofExps pbody (makeExtendTEnv (map var args) (map texp args) tenvBody)
            | _ => Failure "Unexpected empty list of expressions"
            end)
        (fun t => bind (letrecTypes tenvBody bindings') (fun ts => Ok (t :: ts)))
  end.

Definition typeofLetrecStruct (bindings : list (Binding Exp)) (body : list Exp)
    (tenv : TEnv) : Result TExp :=
  let exp := LetrecExp bindings body in
  let ps := map (fun b => var (bvar b)) bindings in
  let procs := map (fun b => bval b) bindings in
  if negb (allT isProcExp procs) then
    Failure ("letrec - only support binding of procedures - " ++ format exp)
  else
    let tijs := map (fun params => map texp params) (map procArgs procs) in
    let tis := map procReturnTE procs in
    let tenvBody := makeExtendTEnv ps (zipWith ProcTExp tijs tis) tenv in
    let constraints :=
      bind (letrecTypes tenvBody bindings) (fun types =>
        zipWithResult (fun typeI ti => checkEqualType typeI ti exp) types tis) in
    bind constraints (fun _ => typeofExps body tenvBody).
End Rules.
End Rules.

(** ** The dispatcher *)

Definition typeofNum (n : Z) : TExp := NumTExp.
Definition typeofBool (b : bool) : TExp := BoolTExp.
Definition typeofStr (s : string) : TExp := StrTExp.

Section Engine.
Context `{Collaborators}.

Fixpoint typeofExp (exp : Exp) (tenv : TEnv) {struct exp} : Result TExp :=
  match exp with
  | NumExp n => Ok (typeofNum n)
  | BoolExp b => Ok (typeofBool b)
  | StrExp s => Ok (typeofStr s)
  | PrimOp op => Rules.typeofPrim op
  | VarRef v => applyTEnv tenv v
  | IfExp test then_ alt => Rules.typeofIf typeofExp test then_ alt tenv
  | ProcExp args body returnTE => Rules.typeofProc typeofExp args body returnTE tenv
  | AppExp rator rands => Rules.typeofApp typeofExp rator rands tenv
  | LetExp bindings body => Rules.typeofLetStruct typeofExp bindings body tenv
  | LetrecExp bindings body => Rules.typeofLetrecStruct typeofExp bindings body tenv
  | DefineExp v val => Rules.typeofDefine typeofExp v val tenv
  | Program exps => Rules.typeofProgram typeofExp exps
  | LitExp val => Rules.typeofLit val
  | SetExp _ _ => Failure ("Unknown type: " ++ format exp)
  end.

(** The rules of the checker proper. *)
Definition checkEqualType := Rules.checkEqualType.
Definition typeofPrim := Rules.typeofPrim.
Definition typeofLit := Rules.typeofLit.
Definition typeofExps := Rules.typeofExps typeofExp.
Definition typeofIf := Rules.typeofIf typeofExp.
Definition typeofProc := Rules.typeofProc typeofExp.
Definition unifyRands := Rules.unifyRands typeofExp.
Definition typeofApp := Rules.typeofApp typeofExp.
Definition typeofLet := Rules.typeofLet typeofExp.
Definition typeofLetrec := Rules.typeofLetrec typeofExp.
Definition typeofDefine := Rules.typeofDefine typeofExp.
Definition recur := Rules.recur typeofExp.
Definition typeofProgram := Rules.typeofProgram typeofExp.

(** The two textual entry points.  The parser is a collaborator: [parsed]
    is what [p] followed by [parseL5Exp] (for a program: by
    [parseL5Program], as the list of its forms) returns on the text. *)
Definition L5typeof (parsed : Result Exp) : Result string :=
  bind parsed (fun e => bind (typeofExp e makeEmptyTEnv) unparseTExp).

Definition L5programTypeof (exp : string) (parsed : Result (list Exp)) : Result string :=
  if (5 <=? String.length exp)%nat
     && String.eqb (substring 0 4 exp) "(L5 "
     && String.eqb (substring (String.length exp - 1) 1 exp) ")"
  then bind parsed (fun prog => bind (typeofProgram prog) unparseTExp)
  else Failure ("Invalid L5 program: " ++ exp).
End Engine.

(** ** Reference collaborators *)

(** A concrete set of collaborators, used to run the checker on examples.
    The printers follow [unparse] of the AST module, with the L5 annotations
    written as [(x : t)]; the parser of type expressions covers the
    signatures of the primitive table. *)
Module Reference.

Fixpoint unparseTE (te : TExp) : string :=
  match te with
  | NumTExp => "number"
  | BoolTExp => "boolean"
  | StrTExp => "string"
  | VoidTExp => "void"
  | LiteralTExp => "literal"
  | PairTExp a b => "(Pair " ++ unparseTE a ++ " " ++ unparseTE b ++ ")"
  | ProcTExp ps r =>
      "(" ++ match ps with
             | [] => "Empty"
             | _ => String.concat " * " (map unparseTE ps)
             end ++ " -> " ++ unparseTE r ++ ")"
  | TVar v => v
  end.

(** Modelled from the spec: the shape of each signature in the table of
    section 4.2, for the texts that [typeofPrim] asks for, written with the
    variable names of the text.  This is the table only, not the parser:
    the names a lookup answers with are minted by [parseTEAt] below. *)
Definition parseSignature (t : string) : Result TExp :=
  if String.eqb t "(number * number -> number)" then Ok (ProcTExp [NumTExp; NumTExp] NumTExp) else
  if String.eqb t "(number * number -> boolean)" then Ok (ProcTExp [NumTExp; NumTExp] BoolTExp) else
  if String.eqb t "(boolean * boolean -> boolean)" then Ok (ProcTExp [BoolTExp; BoolTExp] BoolTExp) else
  if String.eqb t "(T -> boolean)" then Ok (ProcTExp [TVar "T"] BoolTExp) else
  if String.eqb t "(boolean -> boolean)" then Ok (ProcTExp [BoolTExp] BoolTExp) else
  if String.eqb t "(T1 * T2 -> boolean)" then Ok (ProcTExp [TVar "T1"; TVar "T2"] BoolTExp) else
  if String.eqb t "(T -> void)" then Ok (ProcTExp [TVar "T"] VoidTExp) else
  if String.eqb t "(Empty -> void)" then Ok (ProcTExp [] VoidTExp) else
  if String.eqb t "(T1 * T2 -> (Pair T1 T2))"
  then Ok (ProcTExp [TVar "T1"; TVar "T2"] (PairTExp (TVar "T1") (TVar "T2"))) else
  if String.eqb t "((Pair T1 T2) -> T1)"
  then Ok (ProcTExp [PairTExp (TVar "T1") (TVar "T2")] (TVar "T1")) else
  if String.eqb t "((Pair T1 T2) -> T2)"
  then Ok (ProcTExp [PairTExp (TVar "T1") (TVar "T2")] (TVar "T2")) else
  Failure ("Unexpected TExp - " ++ t).

Definition quoted (s : string) : string :=
  let q := Ascii.ascii_of_nat 34 in String q (s ++ String q EmptyString).

Fixpoint valueToString (v : SExpValue) : string :=
  match v with
  | SNumber n => pretty n
  | SBoolean b => if b then "#t" else "#f"
  | SString s => quoted s
  | SymbolSExp s => s
  | EmptySExp => "()"
  | CompoundSExp a b => "(" ++ valueToString a ++ " . " ++ valueToString b ++ ")"
  end.

Definition unparseVarDecl (vd : VarDecl) : string :=
  "(" ++ var vd ++ " : " ++ unparseTE (texp vd) ++ ")".

Fixpoint unparseExp (exp : Exp) : string :=
  let unparseLExps (les : list Exp) := String.concat " " (map unparseExp les) in
  let unparseBindings (bdgs : list (Binding Exp)) :=
    String.concat " "
      (map (fun b => "(" ++ unparseVarDecl (bvar b) ++ " " ++ unparseExp (bval b) ++ ")") bdgs) in
  match exp with
  | BoolExp b => if b then "#t" else "#f"
  | NumExp n => pretty n
  | StrExp s => quoted s
  | LitExp val =>
      match val with
      | EmptySExp | SymbolSExp _ | CompoundSExp _ _ => "'" ++ valueToString val
      | _ => valueToString val
      end
  | VarRef v => v
  | ProcExp args body returnTE =>
      "(lambda (" ++ String.concat " " (map unparseVarDecl args) ++ ") : "
        ++ unparseTE returnTE ++ " " ++ unparseLExps body ++ ")"
  | IfExp test then_ alt =>
      "(if " ++ unparseExp test ++ " " ++ unparseExp then_ ++ " " ++ unparseExp alt ++ ")"
  | AppExp rator rands => "(" ++ unparseExp rator ++ " " ++ unparseLExps rands ++ ")"
  | PrimOp op => op
  | LetExp bindings body =>
      "(let (" ++ unparseBindings bindings ++ ") " ++ unparseLExps body ++ ")"
  | LetrecExp bindings body =>
      "(letrec (" ++ unparseBindings bindings ++ ") " ++ unparseLExps body ++ ")"
  | SetExp v val => "(set! " ++ v ++ " " ++ unparseExp val ++ ")"
  | DefineExp v val => "(define " ++ unparseVarDecl v ++ " " ++ unparseExp val ++ ")"
  | Program exps => "(L5 " ++ unparseLExps exps ++ ")"
  end.

(** Modelled from the spec: the name minted for the variable [name] of a
    signature text at the lookup number [lookup].  Section 4.2 asks that
    each lookup mint fresh, distinct names; here the name carries the number
    of the lookup as that many underscores in front of it. *)
Fixpoint mintName (lookup : nat) (name : string) : string :=
  match lookup with
  | O => name
  | S earlier => String "_"%char (mintName earlier name)
  end.

(** Modelled from the spec: a signature with every type variable renamed to
    the name minted for it at the lookup number [lookup]. *)
Fixpoint mintVars (lookup : nat) (te : TExp) : TExp :=
  match te with
  | TVar v => TVar (mintName lookup v)
  | PairTExp tfirst tsecond => PairTExp (mintVars lookup tfirst) (mintVars lookup tsecond)
  | ProcTExp paramTEs returnTE =>
      ProcTExp (map (mintVars lookup) paramTEs) (mintVars lookup returnTE)
  | _ => te
  end.

(** Modelled from the spec: [parseTE] of [TExp.ts] on the texts that
    [typeofPrim] hands to it.  The parser is called anew at every lookup of
    a primitive; the number of lookups made before is its hidden state,
    written here as the argument [lookup].  The answer has the shape of the
    table in section 4.2 and the names minted at that lookup. *)
Definition parseTEAt (lookup : nat) (text : string) : Result TExp :=
  match parseSignature text with
  | Ok te => Ok (mintVars lookup te)
  | Failure message => Failure message
  end.

(** The collaborators as they answer at the lookup number [lookup]. *)
Definition collaboratorsAt (lookup : nat) : Collaborators := {|
  parseTE := parseTEAt lookup;
  unparseTExp := fun te => Ok (unparseTE te);
  unparse := fun exp => Ok (unparseExp exp);
  format := unparseExp;
  unboundMessage := fun v => "Type Variable not found " ++ v
|}.

(** The instance of the examples: the collaborators at the first lookup,
    where the minted names are the names of the text. *)
#[export] Instance collaborators : Collaborators := collaboratorsAt 0.

End Reference.

(** ** Specification-side vocabulary *)

(** The type a quoted component gets from its immediate runtime tag. *)
Definition immediateTagType (v : SExpValue) : TExp :=
  match v with
  | SNumber _ => NumTExp
  | SBoolean _ => BoolTExp
  | SString _ => StrTExp
  | SymbolSExp _ => LiteralTExp
  | EmptySExp => LiteralTExp
  | CompoundSExp _ _ => LiteralTExp
  end.

(** The application rule in the words of the specification: the operand
    types are unified against the parameter types position by position, in
    order, through one substitution map. *)
Fixpoint unifyAll (paramTEs randTEs : list TExp) (substitution : gmap string TExp)
    : bool * gmap string TExp :=
  match paramTEs, randTEs with
  | paramTE :: paramTEs', randTE :: randTEs' =>
      let (ok, substitution') := unifyTypes paramTE randTE substitution in
      if ok then unifyAll paramTEs' randTEs' substitution' else (false, substitution')
  | _, _ => (true, substitution)
  end.

(** The arrow type a [letrec] binding declares, the frame of all of them,
    and the frame of one procedure's parameters on top of it. *)
Definition letrecArrow (b : Binding Exp) : TExp :=
  ProcTExp (map texp (procArgs (bval b))) (procReturnTE (bval b)).

Definition letrecTEnvBody (bindings : list (Binding Exp)) (tenv : TEnv) : TEnv :=
  makeExtendTEnv (map (fun b => var (bvar b)) bindings) (map letrecArrow bindings) tenv.

Definition letrecTEnvI (b : Binding Exp) (tenvBody : TEnv) : TEnv :=
  makeExtendTEnv (map var (procArgs (bval b))) (map texp (procArgs (bval b))) tenvBody.

(** The frame of a [let]: all bound names at once. *)
Definition letTEnv (bindings : list (Binding Exp)) (tenv : TEnv) : TEnv :=
  makeExtendTEnv (map (fun b => var (bvar b)) bindings)
                 (map (fun b => texp (bvar b)) bindings) tenv.

(** The environment a top-level form leaves to the forms after it, and the
    running environment after a sequence of forms. *)
Definition defineFrame (env : TEnv) (form : Exp) : TEnv :=
  match form with
  | DefineExp v _ => makeExtendTEnv [var v] [texp v] env
  | _ => env
  end.

Definition runningEnv (forms : list Exp) (env : TEnv) : TEnv :=
  fold_left defineFrame forms env.

Section Programs.
Context `{Collaborators}.

(** Every form of [forms] type-checks in the running environment it meets. *)
Fixpoint formsCheck (forms : list Exp) (env : TEnv) : Prop :=
match forms with
| [] => True
| form :: rest =>
    isOk (typeofExp form env) = true /\ formsCheck rest (defineFrame env form)
end.

End Programs.

(** The names of the type variables occurring in a type expression. *)
Fixpoint typeVariables (te : TExp) : list string :=
  match te with
  | TVar v => [v]
  | PairTExp tfirst tsecond => typeVariables tfirst ++ typeVariables tsecond
  | ProcTExp paramTEs returnTE =>
      concat (map typeVariables paramTEs) ++ typeVariables returnTE
  | _ => []
  end.

(** ** Example programs *)

(** [(lambda ((x : number)) : number (+ x 1))] *)
Definition increment : Exp :=
  ProcExp [makeVarDecl "x" NumTExp] [AppExp (PrimOp "+") [VarRef "x"; NumExp 1]] NumTExp.


(** ** Further vocabulary *)

(** A type expression without arrows: atoms, type variables and pairs of
    such.  These are the types [unifyTypes] unifies through. *)
Fixpoint arrowFree (te : TExp) : bool :=
  match te with
  | ProcTExp _ _ => false
  | PairTExp tfirst tsecond => arrowFree tfirst && arrowFree tsecond
  | _ => true
  end.

(** The operator names [typeofPrim] has a branch for, in its order. *)
Definition typedPrimitives : list string :=
  ["+"; "-"; "*"; "/"; "and"; "or"; ">"; "<"; "=";
   "number?"; "boolean?"; "string?"; "list?"; "pair?"; "symbol?";
   "not"; "eq?"; "string=?"; "display"; "newline"; "cons"; "car"; "cdr"].

(** All the expressions that occur in an expression, itself included. *)
Fixpoint subExps (exp : Exp) : list Exp :=
  exp ::
  match exp with
  | Program exps => flat_map subExps exps
  | DefineExp _ val => subExps val
  | AppExp rator rands => subExps rator ++ flat_map subExps rands
  | IfExp test then_ alt => subExps test ++ subExps then_ ++ subExps alt
  | ProcExp _ body _ => flat_map subExps body
  | LetExp bindings body =>
      flat_map (fun b => subExps (bval b)) bindings ++ flat_map subExps body
  | LetrecExp bindings body =>
      flat_map (fun b => subExps (bval b)) bindings ++ flat_map subExps body
  | SetExp _ val => subExps val
  | _ => []
  end.

Definition isSetExp (x : Exp) : bool :=
  match x with SetExp _ _ => true | _ => false end.

Section Acceptance.
Context `{Collaborators}.

(** An expression is accepted when some environment gives it a type. *)
Definition accepted (e : Exp) : Prop :=
  exists tenv t, typeofExp e tenv = Ok t.

End Acceptance.

(** * The L4 parser: a shallow embedding of [L4-ast.ts] *)

Module L4.

(** ** S-expressions and the AST *)

(** The reader's output ([Sexp] of the s-expression package): a token is a
    primitive string or a [String] object (a quoted string literal), a
    compound S-expression is an array. *)
Inductive Sexp : Type :=
| Tok (s : string)
| StrTok (s : string)
| Arr (items : list Sexp).

Definition isString (x : Sexp) : bool := match x with Tok _ => true | _ => false end.
Definition isSexpString (x : Sexp) : bool := match x with StrTok _ => true | _ => false end.
Definition isToken (x : Sexp) : bool := isString x || isSexpString x.
Definition isArray (x : Sexp) : bool := match x with Arr _ => true | _ => false end.

(** [op === k] for a string literal [k]: true on the primitive string only. *)
Definition isTok (k : string) (x : Sexp) : bool :=
  match x with Tok s => String.eqb s k | _ => false end.

Record VarDecl : Type := makeVarDecl { var : string }.

Record Binding (E : Type) : Type := mkBinding { bvar : VarDecl; bval : E }.
Arguments mkBinding {E} bvar bval.
Arguments bvar {E} b.
Arguments bval {E} b.

Inductive Exp : Type :=
| Program (exps : list Exp)
| DefineExp (v : VarDecl) (val : Exp)
| NumExp (val : Z)
| BoolExp (val : bool)
| StrExp (val : string)
| PrimOp (op : string)
| VarRef (v : string)
| AppExp (rator : Exp) (rands : list Exp)
| IfExp (test then_ alt : Exp)
| ProcExp (args : list VarDecl) (body : list Exp)
| LetExp (bindings : list (Binding Exp)) (body : list Exp)
| LitExp (val : SExpValue)
| LetrecExp (bindings : list (Binding Exp)) (body : list Exp)
| SetExp (v : string) (val : Exp).

Definition makeBinding (v : string) (val : Exp) : Binding Exp :=
  mkBinding (makeVarDecl v) val.

Definition isSpecialFormKeyword (x : string) : bool :=
  existsb (String.eqb x) ["if"; "lambda"; "let"; "quote"; "letrec"; "set!"].

Definition isPrimOpKeyword (x : string) : bool :=
  existsb (String.eqb x)
    ["+"; "-"; "*"; "/"; ">"; "<"; "="; "not"; "and"; "or";
     "eq?"; "string=?"; "cons"; "car"; "cdr"; "list"; "pair?";
     "list?"; "number?"; "boolean?"; "symbol?"; "string?"].

(** ** Type predicates *)

Definition isProgram (x : Exp) : bool := match x with Program _ => true | _ => false end.
Definition isDefineExp (x : Exp) : bool := match x with DefineExp _ _ => true | _ => false end.
Definition isNumExp (x : Exp) : bool := match x with NumExp _ => true | _ => false end.
Definition isBoolExp (x : Exp) : bool := match x with BoolExp _ => true | _ => false end.
Definition isStrExp (x : Exp) : bool := match x with StrExp _ => true | _ => false end.
Definition isPrimOp (x : Exp) : bool := match x with PrimOp _ => true | _ => false end.
Definition isVarRef (x : Exp) : bool := match x with VarRef _ => true | _ => false end.
Definition isAppExp (x : Exp) : bool := match x with AppExp _ _ => true | _ => false end.
Definition isIfExp (x : Exp) : bool := match x with IfExp _ _ _ => true | _ => false end.
Definition isProcExp (x : Exp) : bool := match x with ProcExp _ _ => true | _ => false end.
Definition isLetExp (x : Exp) : bool := match x with LetExp _ _ => true | _ => false end.
Definition isLitExp (x : Exp) : bool := match x with LitExp _ => true | _ => false end.
Definition isLetrecExp (x : Exp) : bool := match x with LetrecExp _ _ => true | _ => false end.
Definition isSetExp (x : Exp) : bool := match x with SetExp _ _ => true | _ => false end.

Definition isAtomicExp (x : Exp) : bool :=
  isNumExp x || isBoolExp x || isStrExp x || isPrimOp x || isVarRef x.
Definition isCompoundExp (x : Exp) : bool :=
  isAppExp x || isIfExp x || isProcExp x || isLitExp x || isLetExp x
  || isLetrecExp x || isSetExp x.
Definition isCExp (x : Exp) : bool := isAtomicExp x || isCompoundExp x.
Definition isExp (x : Exp) : bool := isDefineExp x || isCExp x.

(** ** Helpers of [shared/result.ts] *)

(** Modelled from the spec: [mapv] maps the value of a success and passes a
    failure on. *)
Definition mapv {A B} (r : Result A) (f : A -> B) : Result B :=
  match r with
  | Ok v => Ok (f v)
  | Failure m => Failure m
  end.

(** Modelled from the spec: [mapResult] applies [f] from left to right and
    stops at the first failure. *)
Fixpoint mapResult {A B} (f : A -> Result B) (l : list A) : Result (list B) :=
  match l with
  | [] => Ok []
  | x :: rest =>
      bind (f x) (fun fx => bind (mapResult f rest) (fun fxs => Ok (fx :: fxs)))
  end.

(** ** Collaborators of the parser *)

(** The lexical tests of [shared/type-predicates.ts], the numeric value of a
    numeric token and [format] are taken as given.  [isNumericString] is
    only asked of primitive strings (it follows [isString] in every test);
    [isIdentifier] is handed the S-expression as it stands, whatever its
    shape. *)
Class Lexical : Type := {
  isNumericString : string -> bool;
  toNumber : string -> Z;
  isIdentifier : Sexp -> bool;
  format : Sexp -> string
}.

Section Parser.
Context `{Lexical}.

(** The text of an S-expression where the code uses it as a string: a
    token is its own text ([toString] on a [String] object), an array is its
    items joined by commas.  A name that has passed [isIdentifier] is stored
    in the syntax tree under this text. *)
Fixpoint tokenText (x : Sexp) : string :=
  match x with
  | Tok s => s
  | StrTok s => s
  | Arr items => String.concat "," (map tokenText items)
  end.

Definition parseL4Atomic (token : Sexp) : Result Exp :=
  if isTok "#t" token then Ok (BoolExp true) else
  if isTok "#f" token then Ok (BoolExp false) else
  match token with
  | Tok s =>
      if isNumericString s then Ok (NumExp (toNumber s)) else
      if isPrimOpKeyword s then Ok (PrimOp s) else
      Ok (VarRef s)
  | _ => Ok (StrExp (tokenText token))
  end.

(** *** Quoted data *)

Definition isDottedPair (sexps : list Sexp) : bool :=
  (length sexps =? 3)%nat
  && match nth_error sexps 1 with Some x => isTok "." x | None => false end.

(** The array cases of [parseSExp], over an arbitrary [parseSExp] for the
    items; [parseItems rest] is [parseSExp(rest(sexp))]. *)
Fixpoint parseItems (parseSExp : Sexp -> Result SExpValue) (sexps : list Sexp)
    : Result SExpValue :=
  if isDottedPair sexps then
    (* makeDottedPair *)
    match sexps with
    | s0 :: _ :: s2 :: _ =>
        bind (parseSExp s0) (fun val1 =>
          mapv (parseSExp s2) (fun val2 => CompoundSExp val1 val2))
    | _ => Ok EmptySExp
    end
  else
    match sexps with
    | first :: rest =>
        if isTok "." first then Failure ("Bad dotted sexp: " ++ format (Arr sexps))
        else
          bind (parseSExp first) (fun val1 =>
            mapv (parseItems parseSExp rest) (fun val2 => CompoundSExp val1 val2))
    | [] => Ok EmptySExp
    end.

Fixpoint parseSExp (sexp : Sexp) : Result SExpValue :=
  if isTok "#t" sexp then Ok (SBoolean true) else
  if isTok "#f" sexp then Ok (SBoolean false) else
  match sexp with
  | Tok s =>
      if isNumericString s then Ok (SNumber (toNumber s)) else Ok (SymbolSExp s)
  | StrTok s => Ok (SString s)
  | Arr items => parseItems parseSExp items
  end.

Definition parseLitExp (param : Sexp) : Result Exp :=
  mapv (parseSExp param) (fun sexp => LitExp sexp).

(** *** Compound expressions, over an arbitrary [parseL4CExp] *)

Section Forms.
Variable parseL4CExp : Sexp -> Result Exp.

Definition parseAppExp (op : Sexp) (params : list Sexp) : Result Exp :=
  bind (parseL4CExp op) (fun rator =>
    mapv (mapResult parseL4CExp params) (fun rands => AppExp rator rands)).

(** [cexps[i]]; the default stands for [undefined], which is never read
    after the length test. *)
Definition item (cexps : list Exp) (i : nat) : Exp := nth i cexps (VarRef "undefined").

Definition parseIfExp (params : list Sexp) : Result Exp :=
  if negb (length params =? 3)%nat then
    Failure ("Expression not of the form (if <cexp> <cexp> <cexp>): " ++ format (Arr params))
  else
    mapv (mapResult parseL4CExp params) (fun cexps =>
      IfExp (item cexps 0) (item cexps 1) (item cexps 2)).

Definition parseProcExp (vars : Sexp) (body : list Sexp) : Result Exp :=
  match vars with
  | Arr vs =>
      if allT isString vs then
        mapv (mapResult parseL4CExp body) (fun cexps =>
          ProcExp (map (fun x => makeVarDecl (tokenText x)) vs) cexps)
      else Failure ("Invalid vars for ProcExp: " ++ format vars)
  | _ => Failure ("Invalid vars for ProcExp: " ++ format vars)
  end.

Definition isNonEmptyList (x : Sexp) : bool :=
  match x with Arr (_ :: _) => true | _ => false end.

Definition firstOf (x : Sexp) : Sexp :=
  match x with Arr (a :: _) => a | _ => Arr [] end.

Definition isGoodBindings (bindings : Sexp) : bool :=
  match bindings with
  | Arr bs => allT isNonEmptyList bs && allT isIdentifier (map firstOf bs)
  | _ => false
  end.

(** [parseL4CExp(second(binding))]; a binding without a second element
    hands [undefined] to the parser, which is neither a list nor a token. *)
Definition parseBindingVal (binding : Sexp) : Result Exp :=
  match binding with
  | Arr (_ :: val :: _) => parseL4CExp val
  | _ => Failure "CExp cannot be an empty list"
  end.

Definition parseBindings (bindings : Sexp) : Result (list (Binding Exp)) :=
  if negb (isGoodBindings bindings) then
    Failure ("Invalid bindings: " ++ format bindings)
  else
    match bindings with
    | Arr bs =>
        let vars := map (fun b => tokenText (firstOf b)) bs in
        let valsResult := mapResult parseBindingVal bs in
        bind valsResult (fun vals => Ok (zipWith makeBinding vars vals))
    | _ => Failure ("Invalid bindings: " ++ format bindings)
    end.

Definition parseLetExp (bindings : Sexp) (body : list Sexp) : Result Exp :=
  bind (parseBindings bindings) (fun bdgs =>
    mapv (mapResult parseL4CExp body) (fun cexps => LetExp bdgs cexps)).

Definition parseLetrecExp (bindings : Sexp) (body : list Sexp) : Result Exp :=
  bind (parseBindings bindings) (fun bdgs =>
    mapv (mapResult parseL4CExp body) (fun cexps => LetrecExp bdgs cexps)).

Definition parseGoodSetExp (variable val : Sexp) : Result Exp :=
  if negb (isIdentifier variable) then
    Failure ("First arg of set! must be an identifier: " ++ format variable)
  else mapv (parseL4CExp val) (fun e => SetExp (tokenText variable) e).

Definition parseSetExp (params : list Sexp) : Result Exp :=
  match params with
  | [] => Failure "set! missing 2 arguments"
  | [_] => Failure ("set! missing 1 argument: " ++ format (Arr params))
  | [variable; val] => parseGoodSetExp variable val
  | _ => Failure "set! has too many arguments: format(params)"
  end.

Definition parseL4SpecialForm (op : string) (params : list Sexp) : Result Exp :=
  match params with
  | first :: rest =>
      if String.eqb op "if" then parseIfExp params else
      if String.eqb op "lambda" then parseProcExp first rest else
      if String.eqb op "let" then parseLetExp first rest else
      if String.eqb op "quote" then parseLitExp first else
      if String.eqb op "letrec" then parseLetrecExp first rest else
      if String.eqb op "set!" then parseSetExp params else
      Failure ("Unknown special form " ++ op)
  | [] => Failure "Empty args for special form"
  end.

Definition parseL4CompoundCExp (op : Sexp) (params : list Sexp) : Result Exp :=
  match op with
  | Tok s => if isSpecialFormKeyword s then parseL4SpecialForm s params
             else parseAppExp op params
  | _ => parseAppExp op params
  end.

End Forms.

Fixpoint parseL4CExp (sexp : Sexp) : Result Exp :=
  match sexp with
  | Arr (first :: rest) => parseL4CompoundCExp parseL4CExp first rest
  | Arr [] => Failure "CExp cannot be an empty list"
  | _ => parseL4Atomic sexp
  end.

(** *** Definitions and programs *)

Definition parseGoodDefine (variable val : Sexp) : Result Exp :=
  if negb (isIdentifier variable) then
    Failure ("First arg of define must be an identifier: " ++ format variable)
  else mapv (parseL4CExp val) (fun value => DefineExp (makeVarDecl (tokenText variable)) value).

Definition parseDefine (params : list Sexp) : Result Exp :=
  match params with
  | [] => Failure "define missing 2 arguments"
  | [_] => Failure ("define missing 1 arguments: " ++ format (Arr params))
  | [variable; val] => parseGoodDefine variable val
  | _ => Failure ("define has too many arguments: " ++ format (Arr params))
  end.

Definition parseL4CompoundExp (op : Sexp) (params : list Sexp) : Result Exp :=
  if isTok "define" op then parseDefine params
  else parseL4CompoundCExp parseL4CExp op params.

Definition parseL4Exp (sexp : Sexp) : Result Exp :=
  match sexp with
  | Arr (first :: rest) => parseL4CompoundExp first rest
  | Arr [] => Failure "Exp cannot be an empty list"
  | _ => parseL4Atomic sexp
  end.

Definition parseL4GoodProgram (keyword : Sexp) (body : list Sexp) : Result Exp :=
  if isTok "L4" keyword && negb (match body with [] => true | _ => false end) then
    mapv (mapResult parseL4Exp body) (fun exps => Program exps)
  else
    Failure ("Program must be of the form (L4 <exp>+): " ++ format (Arr (keyword :: body))).

Definition parseL4Program (sexp : Sexp) : Result Exp :=
  match sexp with
  | Arr (first :: rest) => parseL4GoodProgram first rest
  | Arr [] => Failure "Unexpected empty program"
  | _ => Failure ("Program cannot be a single token: " ++ tokenText sexp)
  end.

(** ** Vocabulary for the parser's output and input *)

(** What the grammar of the header comment asks of a [cexp]: no definition
    or program inside, primitive operators that are keywords, variable
    references that are none of the other atoms. *)
Fixpoint wellFormedCExp (e : Exp) : bool :=
  match e with
  | Program _ => false
  | DefineExp _ _ => false
  | NumExp _ => true
  | BoolExp _ => true
  | StrExp _ => true
  | LitExp _ => true
  | PrimOp op => isPrimOpKeyword op
  | VarRef v =>
      negb (String.eqb v "#t") && negb (String.eqb v "#f")
      && negb (isNumericString v) && negb (isPrimOpKeyword v)
  | AppExp rator rands => wellFormedCExp rator && forallb wellFormedCExp rands
  | IfExp test then_ alt =>
      wellFormedCExp test && wellFormedCExp then_ && wellFormedCExp alt
  | ProcExp _ body => forallb wellFormedCExp body
  | LetExp bindings body =>
      forallb (fun b => wellFormedCExp (bval b)) bindings
      && forallb wellFormedCExp body
  | LetrecExp bindings body =>
      forallb (fun b => wellFormedCExp (bval b)) bindings
      && forallb wellFormedCExp body
  | SetExp _ val => wellFormedCExp val
  end.

Definition wellFormedExp (e : Exp) : bool :=
  match e with
  | DefineExp _ val => wellFormedCExp val
  | _ => wellFormedCExp e
  end.

(** No dot token anywhere in an S-expression. *)
Fixpoint dotFree (sexp : Sexp) : bool :=
  match sexp with
  | Tok s => negb (String.eqb s ".")
  | StrTok _ => true
  | Arr items => forallb dotFree items
  end.

End Parser.

Fixpoint sexpSize (sexp : Sexp) : nat :=
  match sexp with
  | Arr items => S (list_sum (map sexpSize items))
  | _ => 1
  end.

End L4.

(** ** A lexical instance for examples *)

(** Decimal numerals, identifiers whose text starts with a letter, and a
    plain printer of S-expressions: enough to run the parser on examples. *)
Module L4Reference.
Import L4.

Definition isDigit (c : Ascii.ascii) : bool :=
  (48 <=? Ascii.nat_of_ascii c)%nat && (Ascii.nat_of_ascii c <=? 57)%nat.

Definition isLetter (c : Ascii.ascii) : bool :=
  let n := Ascii.nat_of_ascii c in
  ((65 <=? n)%nat && (n <=? 90)%nat) || ((97 <=? n)%nat && (n <=? 122)%nat).

Fixpoint allDigits (s : string) : bool :=
  match s with
  | EmptyString => true
  | String c rest => isDigit c && allDigits rest
  end.

Definition numeric (s : string) : bool :=
  match s with EmptyString => false | _ => allDigits s end.

Fixpoint decimal (acc : Z) (s : string) : Z :=
  match s with
  | EmptyString => acc
  | String c rest => decimal (10 * acc + Z.of_nat (Ascii.nat_of_ascii c - 48)) rest
  end.

Definition identifier (x : Sexp) : bool :=
  match tokenText x with String c _ => isLetter c | EmptyString => false end.

Fixpoint formatSexp (x : Sexp) : string :=
  match x with
  | Tok s => s
  | StrTok s => Reference.quoted s
  | Arr items => "(" ++ String.concat " " (map formatSexp items) ++ ")"
  end.

#[export] Instance lexical : Lexical := {|
  isNumericString := numeric;
  toNumber := decimal 0;
  isIdentifier := identifier;
  format := formatSexp
|}.

End L4Reference.

(** * Properties *)

(** ** Structural equality *)

(** An induction principle that also covers the parameter lists of arrows. *)
Lemma TExp_ind_nested (P : TExp -> Prop) :
  P NumTExp -> P BoolTExp -> P StrTExp -> P VoidTExp -> P LiteralTExp ->
  (forall a b, P a -> P b -> P (PairTExp a b)) ->
  (forall ps r, Forall P ps -> P r -> P (ProcTExp ps r)) ->
  (forall v, P (TVar v)) ->
  forall te, P te.
Proof.
  intros HN HB HS HV HL HPair HProc HVar.
  fix IH 1. intros [ | | | | | a b | ps r | v ].
  - exact HN.
  - exact HB.
  - exact HS.
  - exact HV.
  - exact HL.
  - apply HPair; apply IH.
  - apply HProc; [ | apply IH ].
    induction ps as [ | p ps IHps ]; constructor; [ apply IH | exact IHps ].
  - apply HVar.
Qed.

Lemma equals_spec (te1 te2 : TExp) : equals te1 te2 = true <-> te1 = te2.
Proof.
  revert te2. induction te1 as [ | | | | | a b IHa IHb | ps r IHps IHr | v ]
    using TExp_ind_nested; intros te2; destruct te2; simpl;
    try (split; [ discriminate | congruence ]); try tauto.
  - rewrite andb_true_iff, IHa, IHb. split; [ intros [-> ->] | intros [= -> ->] ]; auto.
  - rewrite andb_true_iff, IHr.
    match goal with
    | |- (?f ps ?ps2 = true /\ _) <-> _ =>
        assert (Hl : forall l2, f ps l2 = true <-> ps = l2)
    end.
    { clear IHr. induction IHps as [ | p ps Hp _ IH ]; intros [ | q l2 ];
        try (split; [ discriminate || reflexivity | congruence || reflexivity ]).
      rewrite andb_true_iff, Hp, IH.
      split; [ intros [-> ->] | intros [= -> ->] ]; auto. }
    rewrite Hl. split; [ intros [-> ->] | intros [= -> ->] ]; auto.
  - rewrite bool_decide_eq_true. split; [ intros -> | intros [= ->] ]; auto.
Qed.

Lemma equals_refl (te : TExp) : equals te te = true.
Proof. by apply equals_spec. Qed.

Lemma equals_false (te1 te2 : TExp) : equals te1 te2 = false <-> te1 <> te2.
Proof.
  rewrite <- equals_spec. destruct (equals te1 te2); split; congruence.
Qed.


(** ** Running the checker *)

Section Examples.
Import Reference.

(** [(+ 3 4)] has type number. *)
Example plus_3_4 :
  typeofExp (AppExp (PrimOp "+") [NumExp 3; NumExp 4]) EmptyTEnv = Ok NumTExp.
Proof. vm_compute. reflexivity. Qed.

(** [(car (cons 1 2))] has type number. *)
Example car_cons :
  typeofExp (AppExp (PrimOp "car") [AppExp (PrimOp "cons") [NumExp 1; NumExp 2]]) EmptyTEnv
  = Ok NumTExp.
Proof. vm_compute. reflexivity. Qed.

(** [(if (> 1 2) 1 2)] has type number; [(if 1 2 3)] is rejected. *)
Example if_number :
  typeofExp (IfExp (AppExp (PrimOp ">") [NumExp 1; NumExp 2]) (NumExp 1) (NumExp 2)) EmptyTEnv
  = Ok NumTExp.
Proof. vm_compute. reflexivity. Qed.

Example if_test_not_boolean :
  typeofExp (IfExp (NumExp 1) (NumExp 2) (NumExp 3)) EmptyTEnv
  = Failure "Incompatible types: number and boolean in (if 1 2 3)".
Proof. vm_compute. reflexivity. Qed.

(** [(lambda ((x : number)) : number (+ x 1))] and its applications. *)
Example lambda_arrow :
  typeofExp increment EmptyTEnv = Ok (ProcTExp [NumTExp] NumTExp).
Proof. vm_compute. reflexivity. Qed.

Example lambda_applied :
  typeofExp (AppExp increment [NumExp 3]) EmptyTEnv = Ok NumTExp.
Proof. vm_compute. reflexivity. Qed.

Example lambda_applied_to_boolean :
  typeofExp (AppExp increment [BoolExp true]) EmptyTEnv
  = Failure "Type mismatch in application: ((lambda ((x : number)) : number (+ x 1)) #t)".
Proof. vm_compute. reflexivity. Qed.

Example lambda_applied_to_two :
  typeofExp (AppExp increment [NumExp 1; NumExp 2]) EmptyTEnv
  = Failure "Wrong parameter numbers passed to proc: ((lambda ((x : number)) : number (+ x 1)) 1 2)".
Proof. vm_compute. reflexivity. Qed.

(** A define whose value has the declared type, and a program that uses it. *)
Example define_then_use :
  typeofExp (Program [DefineExp (makeVarDecl "x" NumTExp) (NumExp 1);
                      AppExp (PrimOp "+") [VarRef "x"; NumExp 2]]) EmptyTEnv
  = Ok NumTExp.
Proof. vm_compute. reflexivity. Qed.

End Examples.

(** ** The dispatcher unfolds to the rules *)

Section Dispatch.
Context `{Collaborators}.

Lemma bind_Ok {A B} (r : Result A) (f : A -> Result B) (b : B) :
  bind r f = Ok b <-> exists a, r = Ok a /\ f a = Ok b.
Proof.
  destruct r as [a | m]; simpl.
  - split; [ eauto | intros (a' & [= ->] & Hf); exact Hf ].
  - split; [ discriminate | intros (a' & [=] & _) ].
Qed.

Lemma bind_Failure_l {A B} (r : Result A) (f : A -> Result B) (m : string) :
  r = Failure m -> bind r f = Failure m.
Proof. intros ->. reflexivity. Qed.

Lemma checkEqualType_Ok (te1 te2 : TExp) (exp : Exp) (c : bool) :
  checkEqualType te1 te2 exp = Ok c <-> te1 = te2 /\ c = true.
Proof.
  unfold checkEqualType, Rules.checkEqualType.
  destruct (equals te1 te2) eqn:E.
  - apply equals_spec in E. split; [ intros [= <-]; auto | intros [_ ->]; reflexivity ].
  - apply equals_false in E. split; [ | intros [? _]; contradiction ].
    destruct (unparseTExp te1); simpl; [ | discriminate ].
    destruct (unparseTExp te2); simpl; [ | discriminate ].
    destruct (unparse exp); simpl; discriminate.
Qed.

Lemma checkEqualType_refl (te : TExp) (exp : Exp) : checkEqualType te te exp = Ok true.
Proof. apply checkEqualType_Ok. auto. Qed.

Lemma checkEqualType_neq (te1 te2 : TExp) (exp : Exp) :
  te1 <> te2 -> exists m, checkEqualType te1 te2 exp = Failure m.
Proof.
  intros Hne. destruct (checkEqualType te1 te2 exp) as [c | m] eqn:E; [ | eauto ].
  apply checkEqualType_Ok in E. tauto.
Qed.

Lemma letConstraints_zipWithResult rec (exp : Exp) (tenv : TEnv) (bs : list (Binding Exp)) :
  Rules.letConstraints rec exp tenv bs =
  zipWithResult (fun varTE val =>
                   bind (rec val tenv) (fun typeOfVal =>
                     Rules.checkEqualType varTE typeOfVal exp))
                (map (fun b => texp (bvar b)) bs) (map (fun b => bval b) bs).
Proof. induction bs as [ | b bs IH ]; simpl; [ reflexivity | ]. rewrite IH. reflexivity. Qed.

Lemma letrecTypes_zipWithResult rec (tenvBody : TEnv) (bs : list (Binding Exp)) :
  let procs := map (fun b => bval b) bs in
  let paramss := map procArgs procs in
  let tijs := map (fun params => map texp params) paramss in
  Rules.letrecTypes rec tenvBody bs =
  zipWithResult (fun bodyI tenvI => Rules.typeofExps rec bodyI tenvI)
                (map procBody procs)
                (zipWith (fun params tij => makeExtendTEnv (map var params) tij tenvBody)
                         paramss tijs).
Proof.
  simpl. induction bs as [ | b bs IH ]; simpl; [ reflexivity | ].
  rewrite IH. destruct (bval b); reflexivity.
Qed.

Lemma typeofExp_LetExp (bindings : list (Binding Exp)) (body : list Exp) (tenv : TEnv) :
  typeofExp (LetExp bindings body) tenv = typeofLet bindings body tenv.
Proof.
  change (typeofExp (LetExp bindings body) tenv)
    with (Rules.typeofLetStruct typeofExp bindings body tenv).
  unfold Rules.typeofLetStruct, typeofLet, Rules.typeofLet.
  rewrite letConstraints_zipWithResult. reflexivity.
Qed.

Lemma typeofExp_LetrecExp (bindings : list (Binding Exp)) (body : list Exp) (tenv : TEnv) :
  typeofExp (LetrecExp bindings body) tenv = typeofLetrec bindings body tenv.
Proof.
  change (typeofExp (LetrecExp bindings body) tenv)
    with (Rules.typeofLetrecStruct typeofExp bindings body tenv).
  unfold Rules.typeofLetrecStruct, typeofLetrec, Rules.typeofLetrec.
  destruct (negb _); [ reflexivity | ].
  rewrite letrecTypes_zipWithResult. reflexivity.
Qed.

(** [typeofExp] as the source writes it: one rule per variant. *)
Lemma typeofExp_dispatch (exp : Exp) (tenv : TEnv) :
  typeofExp exp tenv =
  match exp with
  | NumExp n => Ok (typeofNum n)
  | BoolExp b => Ok (typeofBool b)
  | StrExp s => Ok (typeofStr s)
  | PrimOp op => typeofPrim op
  | VarRef v => applyTEnv tenv v
  | IfExp test then_ alt => typeofIf test then_ alt tenv
  | ProcExp args body returnTE => typeofProc args body returnTE tenv
  | AppExp rator rands => typeofApp rator rands tenv
  | LetExp bindings body => typeofLet bindings body tenv
  | LetrecExp bindings body => typeofLetrec bindings body tenv
  | DefineExp v val => typeofDefine v val tenv
  | Program exps => typeofProgram exps
  | LitExp val => typeofLit val
  | SetExp _ _ => Failure ("Unknown type: " ++ format exp)
  end.
Proof.
  destruct exp; try reflexivity.
  - apply typeofExp_LetExp.
  - apply typeofExp_LetrecExp.
Qed.
End Dispatch.

(** ** The unifier *)

Lemma unifyTypes_TVar (v : string) (actual : TExp) (substitution : gmap string TExp) :
  unifyTypes (TVar v) actual substitution =
  match substitution !! v with
  | Some existing => (equals existing actual, substitution)
  | None => (true, <[v := actual]> substitution)
  end.
Proof. reflexivity. Qed.

Lemma unifyTypes_PairTExp (e1 e2 a1 a2 : TExp) (substitution : gmap string TExp) :
  unifyTypes (PairTExp e1 e2) (PairTExp a1 a2) substitution =
  (let (ok, substitution') := unifyTypes e1 a1 substitution in
   if ok then unifyTypes e2 a2 substitution' else (false, substitution')).
Proof. reflexivity. Qed.

Lemma unifyTypes_fallback (expected actual : TExp) (substitution : gmap string TExp) :
  isTVar expected = false ->
  isPairTExp expected && isPairTExp actual = false ->
  unifyTypes expected actual substitution = (equals expected actual, substitution).
Proof.
  intros HT HP.
  destruct expected; try discriminate HT; simpl;
    try (destruct (isAtomicTExp actual); reflexivity).
  destruct actual; try reflexivity. discriminate HP.
Qed.

(** C5: [unifyTypes expected actual substitution].  On a type variable it
    succeeds iff the name is not bound yet (and then binds it to [actual]) or
    its binding equals [actual]; on two atomic types iff they are equal; on
    two pairs iff it succeeds on the first components and then, with the map
    so obtained, on the second components, and the map it leaves is the one
    left by the last component it visited; in every other case, arrows
    included, it is plain structural equality and the map is left alone. *)
Theorem unifyTypes_cases (expected actual : TExp) (substitution : gmap string TExp) :
  (forall v, expected = TVar v ->
     ((unifyTypes expected actual substitution).1 = true <->
        (substitution !! v = None \/ substitution !! v = Some actual))
     /\ (substitution !! v = None ->
           (unifyTypes expected actual substitution).2 = <[v := actual]> substitution)
     /\ (is_Some (substitution !! v) ->
           (unifyTypes expected actual substitution).2 = substitution))
  /\ (isAtomicTExp expected = true -> isAtomicTExp actual = true ->
        ((unifyTypes expected actual substitution).1 = true <-> expected = actual)
        /\ (unifyTypes expected actual substitution).2 = substitution)
  /\ (forall e1 e2 a1 a2, expected = PairTExp e1 e2 -> actual = PairTExp a1 a2 ->
        ((unifyTypes expected actual substitution).1 = true <->
           (unifyTypes e1 a1 substitution).1 = true
           /\ (unifyTypes e2 a2 (unifyTypes e1 a1 substitution).2).1 = true)
        /\ (unifyTypes expected actual substitution).2 =
             (if (unifyTypes e1 a1 substitution).1
              then (unifyTypes e2 a2 (unifyTypes e1 a1 substitution).2).2
              else (unifyTypes e1 a1 substitution).2))
  /\ (isTVar expected = false ->
      isAtomicTExp expected && isAtomicTExp actual = false ->
      isPairTExp expected && isPairTExp actual = false ->
        ((unifyTypes expected actual substitution).1 = true <-> expected = actual)
        /\ (unifyTypes expected actual substitution).2 = substitution)
  /\ (forall ps r ps' r', expected = ProcTExp ps r -> actual = ProcTExp ps' r' ->
        ((unifyTypes expected actual substitution).1 = true <-> ps = ps' /\ r = r')
        /\ (unifyTypes expected actual substitution).2 = substitution).
Proof.
  split; [ | split; [ | split; [ | split ] ] ].
  - intros v ->. rewrite unifyTypes_TVar.
    destruct (substitution !! v) as [existing | ]; simpl.
    + rewrite equals_spec. split; [ split | split ].
      * intros ->. auto.
      * intros [ [=] | [= ->] ]. reflexivity.
      * discriminate.
      * reflexivity.
    + split; [ tauto | split; [ reflexivity | intros [? [=]] ] ].
  - intros He Ha. rewrite unifyTypes_fallback.
    + simpl. split; [ apply equals_spec | reflexivity ].
    + destruct expected; try discriminate He; reflexivity.
    + destruct expected; try discriminate He; reflexivity.
  - intros e1 e2 a1 a2 -> ->. rewrite unifyTypes_PairTExp.
    destruct (unifyTypes e1 a1 substitution) as [[] s1]; simpl.
    + tauto.
    + split; [ split; [ discriminate | intros [[=] _] ] | reflexivity ].
  - intros HT HA HP. rewrite unifyTypes_fallback by assumption.
    simpl. split; [ apply equals_spec | reflexivity ].
  - intros ps r ps' r' -> ->. rewrite unifyTypes_fallback by reflexivity.
    split; [ | reflexivity ].
    change ((equals (ProcTExp ps r) (ProcTExp ps' r'), substitution).1)
      with (equals (ProcTExp ps r) (ProcTExp ps' r')).
    rewrite equals_spec. split; [ intros [= -> ->]; auto | intros [-> ->]; reflexivity ].
Qed.

(** A binding made inside a pair is kept for what follows it:
    [(Pair (Pair T number) T)] does not unify with
    [(Pair (Pair number number) boolean)], and the map left behind binds [T]
    to [number].  An arrow with a type variable in parameter position does
    not unify with its instance: there is no unification through arrows. *)
Lemma unifyTypes_cases_witness :
  unifyTypes (PairTExp (PairTExp (TVar "T") NumTExp) (TVar "T"))
             (PairTExp (PairTExp NumTExp NumTExp) BoolTExp) ∅
  = (false, {[ "T" := NumTExp ]})
  /\ ((unifyTypes (ProcTExp [TVar "T"] BoolTExp) (ProcTExp [NumTExp] BoolTExp) ∅).1 = true
      <-> ProcTExp [TVar "T"] BoolTExp = ProcTExp [NumTExp] BoolTExp).
Proof.
  split.
  - destruct (unifyTypes_cases (PairTExp (PairTExp (TVar "T") NumTExp) (TVar "T"))
                (PairTExp (PairTExp NumTExp NumTExp) BoolTExp) ∅)
      as (_ & _ & Hpair & _).
    destruct (Hpair _ _ _ _ eq_refl eq_refl) as [Hok Hmap].
    apply pair_equal_spec. split.
    + apply not_true_is_false. intros Htrue. apply Hok in Htrue as [_ Hsecond].
      vm_compute in Hsecond. discriminate Hsecond.
    + etransitivity; [ exact Hmap | reflexivity ].
  - destruct (unifyTypes_cases (ProcTExp [TVar "T"] BoolTExp) (ProcTExp [NumTExp] BoolTExp) ∅)
      as (_ & _ & _ & Hother & _).
    apply Hother; reflexivity.
Defined.

(** ** Leaves of the dispatcher *)

Section Leaves.
Context `{Collaborators}.

(** C9: a quoted value that is not a pair has type Literal; a quoted pair has
    type Pair(left, right) where each side is typed from its own runtime tag
    only, so that a nested pair (or a symbol, or the empty list) in a
    component is typed Literal. *)
Theorem typeofLit_shallow (tenv : TEnv) :
  (forall val1 val2,
     typeofExp (LitExp (CompoundSExp val1 val2)) tenv
     = Ok (PairTExp (immediateTagType val1) (immediateTagType val2)))
  /\ (forall n, typeofExp (LitExp (SNumber n)) tenv = Ok LiteralTExp)
  /\ (forall b, typeofExp (LitExp (SBoolean b)) tenv = Ok LiteralTExp)
  /\ (forall s, typeofExp (LitExp (SString s)) tenv = Ok LiteralTExp)
  /\ (forall s, typeofExp (LitExp (SymbolSExp s)) tenv = Ok LiteralTExp)
  /\ typeofExp (LitExp EmptySExp) tenv = Ok LiteralTExp
  /\ (forall n, immediateTagType (SNumber n) = NumTExp)
  /\ (forall b, immediateTagType (SBoolean b) = BoolTExp)
  /\ (forall s, immediateTagType (SString s) = StrTExp)
  /\ (forall s, immediateTagType (SymbolSExp s) = LiteralTExp)
  /\ (forall val1 val2, immediateTagType (CompoundSExp val1 val2) = LiteralTExp).
Proof.
  repeat split.
Qed.

(** C10: [typeofExp] returns a type or a failure on every variant of the AST,
    and a [set!] form reaches the final branch of the dispatcher: it is
    rejected with an Unknown type failure. *)
Theorem typeofExp_total_SetExp :
  (forall exp tenv,
     (exists te, typeofExp exp tenv = Ok te) \/ (exists m, typeofExp exp tenv = Failure m))
  /\ (forall v val tenv,
        typeofExp (SetExp v val) tenv = Failure ("Unknown type: " ++ format (SetExp v val))).
Proof.
  split.
  - intros exp tenv. destruct (typeofExp exp tenv) as [te | m]; eauto.
  - reflexivity.
Qed.

End Leaves.

(** ** Sequences, conditionals and procedures *)

Section Propagation.
Context `{Collaborators}.

Lemma typeofExps_singleton (e : Exp) (tenv : TEnv) :
  typeofExps [e] tenv = typeofExp e tenv.
Proof. reflexivity. Qed.

Lemma typeofExps_cons (e : Exp) (rest : list Exp) (tenv : TEnv) :
  rest <> [] ->
  typeofExps (e :: rest) tenv = bind (typeofExp e tenv) (fun _ => typeofExps rest tenv).
Proof. destruct rest; [ congruence | reflexivity ]. Qed.

Lemma typeofExps_failure (pre : list Exp) (e : Exp) (post : list Exp) (tenv : TEnv) (m : string) :
  Forall (fun f => isOk (typeofExp f tenv) = true) pre ->
  typeofExp e tenv = Failure m ->
  typeofExps (pre ++ e :: post) tenv = Failure m.
Proof.
  intros Hpre He. induction Hpre as [ | f pre Hf _ IH ].
  - destruct post; simpl; [ exact He | rewrite He; reflexivity ].
  - rewrite <- app_comm_cons, typeofExps_cons by (destruct pre; easy).
    revert Hf. destruct (typeofExp f tenv); [ intros _; exact IH | discriminate ].
Qed.

Lemma typeofExps_last (pre : list Exp) (e : Exp) (tenv : TEnv) :
  Forall (fun f => isOk (typeofExp f tenv) = true) pre ->
  typeofExps (pre ++ [e]) tenv = typeofExp e tenv.
Proof.
  intros Hpre. induction Hpre as [ | f pre Hf _ IH ]; [ reflexivity | ].
  rewrite <- app_comm_cons, typeofExps_cons by (destruct pre; easy).
  revert Hf. destruct (typeofExp f tenv); [ intros _; exact IH | discriminate ].
Qed.

Lemma typeofIf_test_failure (test then_ alt : Exp) (tenv : TEnv) (m : string) :
  typeofExp test tenv = Failure m ->
  typeofExp (IfExp test then_ alt) tenv = Failure m.
Proof.
  intros Ht. change (typeofExp (IfExp test then_ alt) tenv)
    with (Rules.typeofIf typeofExp test then_ alt tenv).
  unfold Rules.typeofIf. rewrite Ht. reflexivity.
Qed.

Lemma typeofIf_test_mismatch (test then_ alt : Exp) (tenv : TEnv) (testTE : TExp) :
  typeofExp test tenv = Ok testTE ->
  testTE <> BoolTExp ->
  exists m,
    checkEqualType testTE BoolTExp (IfExp test then_ alt) = Failure m
    /\ typeofExp (IfExp test then_ alt) tenv = Failure m.
Proof.
  intros Ht Hne.
  destruct (checkEqualType_neq testTE BoolTExp (IfExp test then_ alt) Hne) as [m Hm].
  exists m. split; [ exact Hm | ].
  change (typeofExp (IfExp test then_ alt) tenv)
    with (Rules.typeofIf typeofExp test then_ alt tenv).
  unfold Rules.typeofIf. rewrite Ht. cbn [bind].
  change (Rules.checkEqualType testTE BoolTExp (IfExp test then_ alt))
    with (checkEqualType testTE BoolTExp (IfExp test then_ alt)).
  rewrite Hm. reflexivity.
Qed.

Lemma typeofIf_then_failure (test then_ alt : Exp) (tenv : TEnv) (m : string) :
  typeofExp test tenv = Ok BoolTExp ->
  typeofExp then_ tenv = Failure m ->
  typeofExp (IfExp test then_ alt) tenv = Failure m.
Proof.
  intros Ht Hth. change (typeofExp (IfExp test then_ alt) tenv)
    with (Rules.typeofIf typeofExp test then_ alt tenv).
  unfold Rules.typeofIf. rewrite Ht, Hth. reflexivity.
Qed.

Lemma typeofIf_alt_failure (test then_ alt : Exp) (tenv : TEnv) (t : TExp) (m : string) :
  typeofExp test tenv = Ok BoolTExp ->
  typeofExp then_ tenv = Ok t ->
  typeofExp alt tenv = Failure m ->
  typeofExp (IfExp test then_ alt) tenv = Failure m.
Proof.
  intros Ht Hth Ha. change (typeofExp (IfExp test then_ alt) tenv)
    with (Rules.typeofIf typeofExp test then_ alt tenv).
  unfold Rules.typeofIf. rewrite Ht, Hth, Ha. reflexivity.
Qed.

Lemma typeofProc_body_failure (args : list VarDecl) (body : list Exp) (returnTE : TExp)
    (tenv : TEnv) (m : string) :
  typeofExps body (makeExtendTEnv (map var args) (map texp args) tenv) = Failure m ->
  typeofExp (ProcExp args body returnTE) tenv = Failure m.
Proof.
  intros Hb. change (typeofExp (ProcExp args body returnTE) tenv)
    with (Rules.typeofProc typeofExp args body returnTE tenv).
  unfold Rules.typeofProc. unfold typeofExps in Hb. rewrite Hb. reflexivity.
Qed.

(** ** Applications *)

Lemma unifyRands_app (app : Exp) (tenv : TEnv) (pre rest : list Exp) (paramTEs : list TExp)
    (substitution : gmap string TExp) :
  unifyRands app tenv (pre ++ rest) paramTEs substitution =
  bind (unifyRands app tenv pre (take (length pre) paramTEs) substitution)
       (fun substitution' =>
          unifyRands app tenv rest (drop (length pre) paramTEs) substitution').
Proof.
  revert paramTEs substitution.
  induction pre as [ | rand pre IH ]; intros paramTEs substitution; simpl.
  - rewrite drop_0. reflexivity.
  - destruct paramTEs as [ | paramTE paramTEs ]; simpl.
    + destruct rest; reflexivity.
    + unfold unifyRands in *. simpl.
      destruct (typeofExp rand tenv) as [randTE | m]; [ | reflexivity ].
      destruct (unifyTypes paramTE randTE substitution) as [[] s']; [ apply IH | ].
      destruct (unparse app); reflexivity.
Qed.

Lemma unifyRands_rand_failure (app : Exp) (tenv : TEnv) (rand : Exp) (rands : list Exp)
    (paramTE : TExp) (paramTEs : list TExp) (substitution : gmap string TExp) (m : string) :
  typeofExp rand tenv = Failure m ->
  unifyRands app tenv (rand :: rands) (paramTE :: paramTEs) substitution = Failure m.
Proof. intros Hr. unfold unifyRands. simpl. rewrite Hr. reflexivity. Qed.

Lemma unifyRands_mismatch (app : Exp) (tenv : TEnv) (rand : Exp) (rands : list Exp)
    (paramTE randTE : TExp) (paramTEs : list TExp) (substitution : gmap string TExp) :
  typeofExp rand tenv = Ok randTE ->
  (unifyTypes paramTE randTE substitution).1 = false ->
  unifyRands app tenv (rand :: rands) (paramTE :: paramTEs) substitution =
  bind (unparse app) (fun e => Failure ("Type mismatch in application: " ++ e)).
Proof.
  intros Hr Hu. unfold unifyRands. simpl. rewrite Hr.
  destruct (unifyTypes paramTE randTE substitution) as [[] s']; [ discriminate Hu | reflexivity ].
Qed.

Lemma unifyRands_Ok (app : Exp) (tenv : TEnv) (rands : list Exp) (paramTEs : list TExp)
    (substitution substitution' : gmap string TExp) :
  length rands = length paramTEs ->
  unifyRands app tenv rands paramTEs substitution = Ok substitution' <->
  exists randTEs,
    Forall2 (fun rand randTE => typeofExp rand tenv = Ok randTE) rands randTEs
    /\ unifyAll paramTEs randTEs substitution = (true, substitution').
Proof.
  revert paramTEs substitution.
  induction rands as [ | rand rands IH ]; intros [ | paramTE paramTEs ] substitution Hlen;
    try discriminate Hlen.
  - simpl. split.
    + intros [= <-]. exists []. split; [ constructor | reflexivity ].
    + intros (randTEs & _ & Hu). simpl in Hu. congruence.
  - injection Hlen as Hlen. unfold unifyRands in *. simpl. split.
    + destruct (typeofExp rand tenv) as [randTE | m] eqn:Hr; [ | discriminate ].
      destruct (unifyTypes paramTE randTE substitution) as [[] s1] eqn:Hu.
      * intros Hrest. apply IH in Hrest as (randTEs & Hall & Hrest); [ | exact Hlen ].
        exists (randTE :: randTEs). split; [ constructor; assumption | ].
        simpl. rewrite Hu. exact Hrest.
      * destruct (unparse app); discriminate.
    + intros (randTEs & Hall & Hrest). inversion Hall as [ | ? randTE ? randTEs' Hr Hall' ]; subst.
      rewrite Hr. simpl in Hrest.
      destruct (unifyTypes paramTE randTE substitution) as [[] s1]; [ | discriminate Hrest ].
      apply IH; [ exact Hlen | eauto ].
Qed.

Lemma typeofApp_rator_failure (rator : Exp) (rands : list Exp) (tenv : TEnv) (m : string) :
  typeofExp rator tenv = Failure m ->
  typeofExp (AppExp rator rands) tenv = Failure m.
Proof.
  intros Hr. change (typeofExp (AppExp rator rands) tenv)
    with (Rules.typeofApp typeofExp rator rands tenv).
  unfold Rules.typeofApp. rewrite Hr. reflexivity.
Qed.

Lemma typeofApp_proc (rator : Exp) (rands : list Exp) (tenv : TEnv)
    (paramTEs : list TExp) (returnTE : TExp) :
  typeofExp rator tenv = Ok (ProcTExp paramTEs returnTE) ->
  length rands = length paramTEs ->
  typeofExp (AppExp rator rands) tenv =
  bind (unifyRands (AppExp rator rands) tenv rands paramTEs ∅)
       (fun substitution => Ok (substituteTypeVars returnTE substitution)).
Proof.
  intros Hr Hlen. change (typeofExp (AppExp rator rands) tenv)
    with (Rules.typeofApp typeofExp rator rands tenv).
  unfold Rules.typeofApp. rewrite Hr. simpl.
  rewrite Hlen, Nat.eqb_refl. reflexivity.
Qed.

Lemma typeofApp_rand_failure (rator : Exp) (pre : list Exp) (rand : Exp) (post : list Exp)
    (tenv : TEnv) (paramTEs : list TExp) (returnTE : TExp)
    (substitution : gmap string TExp) (m : string) :
  typeofExp rator tenv = Ok (ProcTExp paramTEs returnTE) ->
  length (pre ++ rand :: post) = length paramTEs ->
  unifyRands (AppExp rator (pre ++ rand :: post)) tenv pre (take (length pre) paramTEs) ∅
    = Ok substitution ->
  typeofExp rand tenv = Failure m ->
  typeofExp (AppExp rator (pre ++ rand :: post)) tenv = Failure m.
Proof.
  intros Hr Hlen Hpre Hrand.
  rewrite (typeofApp_proc _ _ _ _ _ Hr Hlen), unifyRands_app, Hpre. cbn [bind].
  destruct (drop (length pre) paramTEs) as [ | paramTE rest ] eqn:Hd.
  - apply (f_equal length) in Hd. rewrite length_drop, <- Hlen, length_app in Hd.
    simpl in Hd. lia.
  - rewrite (unifyRands_rand_failure _ _ _ _ _ _ _ _ Hrand). reflexivity.
Qed.

End Propagation.

(** ** Binding forms *)

Section BindingForms.
Context `{Collaborators}.

Lemma letConstraints_Ok (exp : Exp) (tenv : TEnv) (bs : list (Binding Exp)) :
  (exists cs, Rules.letConstraints typeofExp exp tenv bs = Ok cs) <->
  Forall (fun b => typeofExp (bval b) tenv = Ok (texp (bvar b))) bs.
Proof.
  induction bs as [ | b bs IH ]; simpl.
  - split; [ constructor | eauto ].
  - split.
    + intros (cs & Hcs). apply bind_Ok in Hcs as (c & Hc & Hrest).
      apply bind_Ok in Hc as (t & Ht & Hc).
      apply (checkEqualType_Ok (texp (bvar b)) t exp c) in Hc as [<- _].
      apply bind_Ok in Hrest as (cs' & Hcs' & _).
      constructor; [ exact Ht | apply IH; eauto ].
    + intros Hall. inversion Hall as [ | ? ? Hb Hbs ]; subst.
      apply IH in Hbs as (cs & Hcs). rewrite Hb, Hcs. simpl.
      change (Rules.checkEqualType (texp (bvar b)) (texp (bvar b)) exp)
        with (checkEqualType (texp (bvar b)) (texp (bvar b)) exp).
      rewrite checkEqualType_refl. simpl. eauto.
Qed.

Lemma letConstraints_failure (exp : Exp) (tenv : TEnv) (pre : list (Binding Exp))
    (b : Binding Exp) (post : list (Binding Exp)) (m : string) :
  Forall (fun b => typeofExp (bval b) tenv = Ok (texp (bvar b))) pre ->
  typeofExp (bval b) tenv = Failure m ->
  Rules.letConstraints typeofExp exp tenv (pre ++ b :: post) = Failure m.
Proof.
  intros Hpre Hb. induction Hpre as [ | b' pre Hb' _ IH ]; simpl.
  - rewrite Hb. reflexivity.
  - rewrite Hb', IH. simpl.
    change (Rules.checkEqualType (texp (bvar b')) (texp (bvar b')) exp)
      with (checkEqualType (texp (bvar b')) (texp (bvar b')) exp).
    rewrite checkEqualType_refl. reflexivity.
Qed.

Lemma typeofLet_Ok (bindings : list (Binding Exp)) (body : list Exp) (tenv : TEnv) (t : TExp) :
  typeofExp (LetExp bindings body) tenv = Ok t <->
  Forall (fun b => typeofExp (bval b) tenv = Ok (texp (bvar b))) bindings
  /\ typeofExps body (letTEnv bindings tenv) = Ok t.
Proof.
  change (typeofExp (LetExp bindings body) tenv)
    with (Rules.typeofLetStruct typeofExp bindings body tenv).
  unfold Rules.typeofLetStruct. rewrite bind_Ok, <- letConstraints_Ok. split.
  - intros (cs & Hcs & Hbody). eauto.
  - intros ((cs & Hcs) & Hbody). eauto.
Qed.

Lemma typeofLet_value_failure (pre : list (Binding Exp)) (b : Binding Exp)
    (post : list (Binding Exp)) (body : list Exp) (tenv : TEnv) (m : string) :
  Forall (fun b => typeofExp (bval b) tenv = Ok (texp (bvar b))) pre ->
  typeofExp (bval b) tenv = Failure m ->
  typeofExp (LetExp (pre ++ b :: post) body) tenv = Failure m.
Proof.
  intros Hpre Hb.
  change (typeofExp (LetExp (pre ++ b :: post) body) tenv)
    with (Rules.typeofLetStruct typeofExp (pre ++ b :: post) body tenv).
  unfold Rules.typeofLetStruct.
  rewrite (letConstraints_failure _ _ _ _ _ _ Hpre Hb). reflexivity.
Qed.

Lemma typeofLet_body (bindings : list (Binding Exp)) (body : list Exp) (tenv : TEnv) :
  Forall (fun b => typeofExp (bval b) tenv = Ok (texp (bvar b))) bindings ->
  typeofExp (LetExp bindings body) tenv = typeofExps body (letTEnv bindings tenv).
Proof.
  intros Hall. apply letConstraints_Ok with (exp := LetExp bindings body) in Hall as (cs & Hcs).
  change (typeofExp (LetExp bindings body) tenv)
    with (Rules.typeofLetStruct typeofExp bindings body tenv).
  unfold Rules.typeofLetStruct. rewrite Hcs. reflexivity.
Qed.

(** *** letrec *)

Lemma zipWith_letrecArrow (bs : list (Binding Exp)) :
  zipWith ProcTExp
    (map (fun params => map texp params) (map procArgs (map (fun b => bval b) bs)))
    (map procReturnTE (map (fun b => bval b) bs))
  = map letrecArrow bs.
Proof. induction bs as [ | b bs IH ]; simpl; [ reflexivity | ]. rewrite IH. reflexivity. Qed.

Lemma letrecTypes_cons (tenvBody : TEnv) (b : Binding Exp) (bs : list (Binding Exp)) :
  Rules.letrecTypes typeofExp tenvBody (b :: bs) =
  bind (typeofExps (procBody (bval b)) (letrecTEnvI b tenvBody)) (fun t =>
    bind (Rules.letrecTypes typeofExp tenvBody bs) (fun ts => Ok (t :: ts))).
Proof. unfold letrecTEnvI. simpl. destruct (bval b); reflexivity. Qed.

Lemma letrecTypes_Ok (tenvBody : TEnv) (bs : list (Binding Exp)) (ts : list TExp) :
  Rules.letrecTypes typeofExp tenvBody bs = Ok ts <->
  Forall2 (fun b t => typeofExps (procBody (bval b)) (letrecTEnvI b tenvBody) = Ok t) bs ts.
Proof.
  revert ts. induction bs as [ | b bs IH ]; intros ts.
  - simpl. split; [ intros [= <-]; constructor | intros Hall; inversion Hall; reflexivity ].
  - rewrite letrecTypes_cons, bind_Ok. split.
    + intros (t & Ht & Hrest). apply bind_Ok in Hrest as (ts' & Hts' & [= <-]).
      constructor; [ exact Ht | apply IH; exact Hts' ].
    + intros Hall. inversion Hall as [ | ? t ? ts' Ht Hts' ]; subst.
      exists t. split; [ exact Ht | ]. apply IH in Hts'. rewrite Hts'. reflexivity.
Qed.

Lemma letrecTypes_failure (tenvBody : TEnv) (pre : list (Binding Exp)) (b : Binding Exp)
    (post : list (Binding Exp)) (m : string) :
  Forall (fun b => isOk (typeofExps (procBody (bval b)) (letrecTEnvI b tenvBody)) = true) pre ->
  typeofExps (procBody (bval b)) (letrecTEnvI b tenvBody) = Failure m ->
  Rules.letrecTypes typeofExp tenvBody (pre ++ b :: post) = Failure m.
Proof.
  intros Hpre Hb. induction Hpre as [ | b' pre Hb' _ IH ].
  - simpl app. rewrite letrecTypes_cons, Hb. reflexivity.
  - rewrite <- app_comm_cons, letrecTypes_cons, IH.
    revert Hb'.
    destruct (typeofExps (procBody (bval b')) (letrecTEnvI b' tenvBody));
      [ reflexivity | discriminate ].
Qed.

Lemma returnTE_constraints_Ok (exp : Exp) (types : list TExp) (bs : list (Binding Exp)) :
  length types = length bs ->
  (exists cs, zipWithResult (fun typeI ti => Rules.checkEqualType typeI ti exp)
                            types (map procReturnTE (map (fun b => bval b) bs)) = Ok cs)
  <-> types = map (fun b => procReturnTE (bval b)) bs.
Proof.
  revert bs. induction types as [ | t types IH ]; intros [ | b bs ] Hlen;
    try discriminate Hlen; simpl.
  - split; eauto.
  - injection Hlen as Hlen. split.
    + intros (cs & Hcs). apply bind_Ok in Hcs as (c & Hc & Hrest).
      apply (checkEqualType_Ok t (procReturnTE (bval b)) exp c) in Hc as [-> _].
      apply bind_Ok in Hrest as (cs' & Hcs' & _).
      f_equal. apply (IH bs Hlen). eauto.
    + intros [= -> Hts]. apply (IH bs Hlen) in Hts as (cs & Hcs). rewrite Hcs.
      change (Rules.checkEqualType (procReturnTE (bval b)) (procReturnTE (bval b)) exp)
        with (checkEqualType (procReturnTE (bval b)) (procReturnTE (bval b)) exp).
      rewrite checkEqualType_refl. simpl. eauto.
Qed.

Lemma Forall2_map_diag {A B} (P : A -> B -> Prop) (f : A -> B) (l : list A) :
  Forall2 P l (map f l) <-> Forall (fun x => P x (f x)) l.
Proof.
  induction l as [ | x l IH ]; simpl.
  - split; constructor.
  - split; intros Hl; inversion Hl; subst; constructor; tauto.
Qed.

Lemma typeofLetrec_unfold (bindings : list (Binding Exp)) (body : list Exp) (tenv : TEnv) :
  allT isProcExp (map (fun b => bval b) bindings) = true ->
  typeofExp (LetrecExp bindings body) tenv =
  bind (bind (Rules.letrecTypes typeofExp (letrecTEnvBody bindings tenv) bindings)
          (fun types =>
             zipWithResult (fun typeI ti =>
                              Rules.checkEqualType typeI ti (LetrecExp bindings body))
                           types (map procReturnTE (map (fun b => bval b) bindings))))
       (fun _ => typeofExps body (letrecTEnvBody bindings tenv)).
Proof.
  intros Hall. change (typeofExp (LetrecExp bindings body) tenv)
    with (Rules.typeofLetrecStruct typeofExp bindings body tenv).
  unfold Rules.typeofLetrecStruct. rewrite Hall. simpl negb. cbv iota.
  rewrite zipWith_letrecArrow. reflexivity.
Qed.

Lemma typeofLetrec_not_procs (bindings : list (Binding Exp)) (body : list Exp) (tenv : TEnv) :
  allT isProcExp (map (fun b => bval b) bindings) = false ->
  typeofExp (LetrecExp bindings body) tenv =
  Failure ("letrec - only support binding of procedures - " ++ format (LetrecExp bindings body)).
Proof.
  intros Hall. change (typeofExp (LetrecExp bindings body) tenv)
    with (Rules.typeofLetrecStruct typeofExp bindings body tenv).
  unfold Rules.typeofLetrecStruct. rewrite Hall. reflexivity.
Qed.

Lemma typeofLetrec_Ok (bindings : list (Binding Exp)) (body : list Exp) (tenv : TEnv) (t : TExp) :
  allT isProcExp (map (fun b => bval b) bindings) = true ->
  typeofExp (LetrecExp bindings body) tenv = Ok t <->
  Forall (fun b => typeofExps (procBody (bval b))
                     (letrecTEnvI b (letrecTEnvBody bindings tenv))
                   = Ok (procReturnTE (bval b))) bindings
  /\ typeofExps body (letrecTEnvBody bindings tenv) = Ok t.
Proof.
  intros Hall. rewrite (typeofLetrec_unfold _ _ _ Hall), bind_Ok.
  set (tenvBody := letrecTEnvBody bindings tenv). split.
  - intros (cs & Hcs & Hbody). split; [ | exact Hbody ].
    apply bind_Ok in Hcs as (types & Htypes & Hcs).
    apply letrecTypes_Ok in Htypes.
    assert (Hlen : length types = length bindings)
      by (symmetry; eapply Forall2_length; exact Htypes).
    assert (Heq : types = map (fun b => procReturnTE (bval b)) bindings)
      by (eapply returnTE_constraints_Ok; eauto).
    subst types. apply Forall2_map_diag in Htypes. exact Htypes.
  - intros (Hbodies & Hbody).
    assert (Htypes : Rules.letrecTypes typeofExp tenvBody bindings
                     = Ok (map (fun b => procReturnTE (bval b)) bindings)).
    { apply letrecTypes_Ok, Forall2_map_diag. exact Hbodies. }
    rewrite Htypes. simpl.
    destruct (proj2 (returnTE_constraints_Ok (LetrecExp bindings body)
                       (map (fun b => procReturnTE (bval b)) bindings) bindings
                       (length_map _ _)) eq_refl) as (cs & Hcs).
    exists cs. split; [ exact Hcs | exact Hbody ].
Qed.

Lemma typeofLetrec_proc_failure (pre : list (Binding Exp)) (b : Binding Exp)
    (post : list (Binding Exp)) (body : list Exp) (tenv : TEnv) (m : string) :
  let bindings := (pre ++ b :: post)%list in
  allT isProcExp (map (fun b => bval b) bindings) = true ->
  Forall (fun b => isOk (typeofExps (procBody (bval b))
                           (letrecTEnvI b (letrecTEnvBody bindings tenv))) = true) pre ->
  typeofExps (procBody (bval b)) (letrecTEnvI b (letrecTEnvBody bindings tenv)) = Failure m ->
  typeofExp (LetrecExp bindings body) tenv = Failure m.
Proof.
  intros bindings Hall Hpre Hb. rewrite (typeofLetrec_unfold _ _ _ Hall).
  unfold bindings at 2. rewrite (letrecTypes_failure _ _ _ _ _ Hpre Hb). reflexivity.
Qed.

Lemma typeofLetrec_body (bindings : list (Binding Exp)) (body : list Exp) (tenv : TEnv) :
  allT isProcExp (map (fun b => bval b) bindings) = true ->
  Forall (fun b => typeofExps (procBody (bval b))
                     (letrecTEnvI b (letrecTEnvBody bindings tenv))
                   = Ok (procReturnTE (bval b))) bindings ->
  typeofExp (LetrecExp bindings body) tenv = typeofExps body (letrecTEnvBody bindings tenv).
Proof.
  intros Hall Hbodies. rewrite (typeofLetrec_unfold _ _ _ Hall).
  assert (Htypes : Rules.letrecTypes typeofExp (letrecTEnvBody bindings tenv) bindings
                   = Ok (map (fun b => procReturnTE (bval b)) bindings))
    by (apply letrecTypes_Ok, Forall2_map_diag; exact Hbodies).
  rewrite Htypes. cbn [bind].
  destruct (proj2 (returnTE_constraints_Ok (LetrecExp bindings body)
                     (map (fun b => procReturnTE (bval b)) bindings) bindings
                     (length_map _ _)) eq_refl) as (cs & Hcs).
  rewrite Hcs. reflexivity.
Qed.

End BindingForms.

(** ** Definitions and programs *)

Section TopLevel.
Context `{Collaborators}.

Lemma typeofDefine_cases (v : VarDecl) (val : Exp) (tenv : TEnv) :
  typeofExp (DefineExp v val) tenv =
  match typeofExp val tenv with
  | Ok valType =>
      if equals valType (texp v) then Ok VoidTExp
      else Failure ("VarDecl type different from val type, types:"
                    ++ objectToString (unparseTExp valType)
                    ++ " and " ++ objectToString (unparseTExp (texp v)))
  | Failure _ =>
      Failure ("VarDecl type different from val type, types:"
               ++ "unknown" ++ " and " ++ objectToString (unparseTExp (texp v)))
  end.
Proof.
  change (typeofExp (DefineExp v val) tenv) with (Rules.typeofDefine typeofExp v val tenv).
  unfold Rules.typeofDefine.
  destruct (typeofExp val tenv) as [valType | m]; [ | reflexivity ].
  cbn [bind]. destruct (equals valType (texp v)) eqn:E.
  - apply equals_spec in E. subst.
    change (Rules.checkEqualType (texp v) (texp v) (DefineExp v val))
      with (checkEqualType (texp v) (texp v) (DefineExp v val)).
    rewrite checkEqualType_refl. reflexivity.
  - apply equals_false in E.
    destruct (checkEqualType_neq _ _ (DefineExp v val) E) as (m & Hm).
    unfold checkEqualType in Hm. rewrite Hm. reflexivity.
Qed.

Lemma recur_step (form : Exp) (rest : list Exp) (env : TEnv) :
  rest <> [] ->
  recur (form :: rest) env =
  bind (typeofExp form env) (fun _ => recur rest (defineFrame env form)).
Proof. destruct rest; [ congruence | ]. intros _. destruct form; reflexivity. Qed.

Lemma runningEnv_snoc (pre : list Exp) (form : Exp) (env : TEnv) :
  runningEnv (pre ++ [form]) env = defineFrame (runningEnv pre env) form.
Proof. unfold runningEnv. rewrite fold_left_app. reflexivity. Qed.

Lemma recur_prefix (pre : list Exp) (form : Exp) (post : list Exp) (env : TEnv) :
  formsCheck pre env ->
  recur (pre ++ form :: post) env = recur (form :: post) (runningEnv pre env).
Proof.
  revert env. induction pre as [ | f pre IH ]; intros env Hpre; [ reflexivity | ].
  destruct Hpre as [Hf Hpre].
  rewrite <- app_comm_cons, recur_step by (destruct pre; easy).
  revert Hf. destruct (typeofExp f env); [ intros _ | discriminate ].
  cbn [bind]. rewrite IH by exact Hpre. reflexivity.
Qed.

Lemma applyTEnv_runningEnv_unbound (pre : list Exp) (env : TEnv) (y : string) :
  Forall (fun form => forall v val, form = DefineExp v val -> var v <> y) pre ->
  applyTEnv env y = Failure (unboundMessage y) ->
  applyTEnv (runningEnv pre env) y = Failure (unboundMessage y).
Proof.
  intros Hpre. revert env. induction Hpre as [ | f pre Hf _ IH ]; intros env Henv;
    [ exact Henv | ].
  simpl. apply IH. destruct f; try exact Henv.
  simpl. destruct (String.eqb_spec (var v) y) as [Heq | _]; [ | exact Henv ].
  exfalso. exact (Hf _ _ eq_refl Heq).
Qed.

End TopLevel.

(** ** The claims about failures *)

Lemma length_append (s1 s2 : string) :
  String.length (s1 ++ s2) = String.length s1 + String.length s2.
Proof. induction s1 as [ | c s1 IH ]; simpl; [ reflexivity | rewrite IH; reflexivity ]. Qed.

Lemma substring_last (s : string) (c : Ascii.ascii) :
  substring (String.length s) 1 (s ++ String c EmptyString) = String c EmptyString.
Proof. induction s as [ | d s IH ]; simpl; [ reflexivity | exact IH ]. Qed.

Lemma substring_prefix (p s : string) : substring 0 (String.length p) (p ++ s) = p.
Proof.
  induction p as [ | c p IH ]; simpl; [ destruct s; reflexivity | ].
  f_equal. exact IH.
Qed.

Section Failures.
Context `{Collaborators}.

Lemma L5programTypeof_wrapped (body : string) (parsed : Result (list Exp)) :
  L5programTypeof ("(L5 " ++ body ++ ")") parsed =
  bind parsed (fun forms => bind (typeofExp (Program forms) makeEmptyTEnv) unparseTExp).
Proof.
  unfold L5programTypeof. set (s := "(L5 " ++ body).
  assert (Htext : "(L5 " ++ body ++ ")" = s ++ ")") by reflexivity.
  rewrite Htext, length_append. cbn [String.length].
  replace (String.length s + 1 - 1) with (String.length s) by lia.
  assert (Hlast : substring (String.length s) 1 (s ++ ")") = ")") by apply substring_last.
  assert (Hlen : (5 <=? String.length s + 1)%nat = true).
  { unfold s. rewrite length_append. apply Nat.leb_le. cbn [String.length]. lia. }
  assert (Hpre : substring 0 4 (s ++ ")") = "(L5 ")
    by exact (substring_prefix "(L5 " (body ++ ")")).
  rewrite Hlast, Hlen, Hpre. reflexivity.
Qed.

(** C3 (amended): the first subexpression to fail, in the order in which a
    rule checks its parts, makes the rule fail with the very same message,
    in a body sequence, a procedure, an application, a [let], a [letrec], a
    program and at the two entry points.  Two rules answer otherwise.  A
    conditional checks its three parts at once and reports, in this order,
    the failure of the test, the mismatch of a test whose type is not
    boolean, the failure of the first branch, the failure of the second: a
    failing branch is reported as it is only under a test of type boolean,
    and under a test of another type the mismatch is reported whatever the
    branches do.  A [define] answers with its own message, in which the type
    of the failed value is shown as unknown. *)
Theorem failure_propagation :
  (forall pre e post tenv m,
     Forall (fun f => isOk (typeofExp f tenv) = true) pre ->
     typeofExp e tenv = Failure m ->
     typeofExps (pre ++ e :: post) tenv = Failure m)
  /\ (forall test then_ alt tenv m,
        typeofExp test tenv = Failure m ->
        typeofExp (IfExp test then_ alt) tenv = Failure m)
  /\ (forall test then_ alt tenv testTE,
        typeofExp test tenv = Ok testTE ->
        testTE <> BoolTExp ->
        exists m,
          checkEqualType testTE BoolTExp (IfExp test then_ alt) = Failure m
          /\ typeofExp (IfExp test then_ alt) tenv = Failure m)
  /\ (forall test then_ alt tenv m,
        typeofExp test tenv = Ok BoolTExp ->
        typeofExp then_ tenv = Failure m ->
        typeofExp (IfExp test then_ alt) tenv = Failure m)
  /\ (forall test then_ alt tenv t m,
        typeofExp test tenv = Ok BoolTExp ->
        typeofExp then_ tenv = Ok t ->
        typeofExp alt tenv = Failure m ->
        typeofExp (IfExp test then_ alt) tenv = Failure m)
  /\ (forall args body returnTE tenv m,
        typeofExps body (makeExtendTEnv (map var args) (map texp args) tenv) = Failure m ->
        typeofExp (ProcExp args body returnTE) tenv = Failure m)
  /\ (forall rator rands tenv m,
        typeofExp rator tenv = Failure m ->
        typeofExp (AppExp rator rands) tenv = Failure m)
  /\ (forall rator pre rand post tenv paramTEs returnTE preTEs substitution m,
        typeofExp rator tenv = Ok (ProcTExp paramTEs returnTE) ->
        length (pre ++ rand :: post) = length paramTEs ->
        Forall2 (fun e te => typeofExp e tenv = Ok te) pre preTEs ->
        unifyAll (take (length pre) paramTEs) preTEs ∅ = (true, substitution) ->
        typeofExp rand tenv = Failure m ->
        typeofExp (AppExp rator (pre ++ rand :: post)) tenv = Failure m)
  /\ (forall pre b post body tenv m,
        Forall (fun b => typeofExp (bval b) tenv = Ok (texp (bvar b))) pre ->
        typeofExp (bval b) tenv = Failure m ->
        typeofExp (LetExp (pre ++ b :: post) body) tenv = Failure m)
  /\ (forall bindings body tenv m,
        Forall (fun b => typeofExp (bval b) tenv = Ok (texp (bvar b))) bindings ->
        typeofExps body (letTEnv bindings tenv) = Failure m ->
        typeofExp (LetExp bindings body) tenv = Failure m)
  /\ (forall pre b post body tenv m,
        allT isProcExp (map (fun b => bval b) (pre ++ b :: post)) = true ->
        Forall (fun b' => isOk (typeofExps (procBody (bval b'))
                             (letrecTEnvI b' (letrecTEnvBody (pre ++ b :: post) tenv))) = true)
               pre ->
        typeofExps (procBody (bval b))
          (letrecTEnvI b (letrecTEnvBody (pre ++ b :: post) tenv)) = Failure m ->
        typeofExp (LetrecExp (pre ++ b :: post) body) tenv = Failure m)
  /\ (forall bindings body tenv m,
        allT isProcExp (map (fun b => bval b) bindings) = true ->
        Forall (fun b => typeofExps (procBody (bval b))
                           (letrecTEnvI b (letrecTEnvBody bindings tenv))
                         = Ok (procReturnTE (bval b))) bindings ->
        typeofExps body (letrecTEnvBody bindings tenv) = Failure m ->
        typeofExp (LetrecExp bindings body) tenv = Failure m)
  /\ (forall pre form post tenv m,
        formsCheck pre EmptyTEnv ->
        typeofExp form (runningEnv pre EmptyTEnv) = Failure m ->
        typeofExp (Program (pre ++ form :: post)) tenv = Failure m)
  /\ (forall e m,
        typeofExp e makeEmptyTEnv = Failure m -> L5typeof (Ok e) = Failure m)
  /\ (forall body forms m,
        typeofExp (Program forms) makeEmptyTEnv = Failure m ->
        L5programTypeof ("(L5 " ++ body ++ ")") (Ok forms) = Failure m)
  /\ (forall v val tenv m,
        typeofExp val tenv = Failure m ->
        exists declared,
          typeofExp (DefineExp v val) tenv =
          Failure ("VarDecl type different from val type, types:unknown and " ++ declared)).
Proof.
  repeat match goal with |- _ /\ _ => split end.
  - apply typeofExps_failure.
  - apply typeofIf_test_failure.
  - apply typeofIf_test_mismatch.
  - apply typeofIf_then_failure.
  - apply typeofIf_alt_failure.
  - apply typeofProc_body_failure.
  - apply typeofApp_rator_failure.
  - intros rator pre rand post tenv paramTEs returnTE preTEs substitution m Hr Hlen Hpre Hu Hm.
    eapply typeofApp_rand_failure; eauto.
    apply unifyRands_Ok; [ | eauto ].
    rewrite length_take. rewrite length_app in Hlen. simpl in Hlen. lia.
  - apply typeofLet_value_failure.
  - intros bindings body tenv m Hall Hbody. rewrite typeofLet_body by exact Hall. exact Hbody.
  - intros pre b post body tenv m. apply typeofLetrec_proc_failure.
  - intros bindings body tenv m Hall Hbodies Hbody.
    rewrite typeofLetrec_body by assumption. exact Hbody.
  - intros pre form post tenv m Hpre Hform.
    change (typeofExp (Program (pre ++ form :: post)) tenv)
      with (recur (pre ++ form :: post) EmptyTEnv).
    rewrite recur_prefix by exact Hpre.
    destruct post; [ exact Hform | ].
    rewrite recur_step by easy. rewrite Hform. reflexivity.
  - intros e m He. unfold L5typeof. cbn [bind]. rewrite He. reflexivity.
  - intros body forms m Hp. rewrite L5programTypeof_wrapped. cbn [bind].
    rewrite Hp. reflexivity.
  - intros v val tenv m Hval. rewrite typeofDefine_cases, Hval. eauto.
Qed.

End Failures.

Section FailuresAtWork.
Import Reference.

(** In the empty environment [y] is unbound, and so the value of
    [(define (x : number) y)] fails; the define reports its own message. *)
Lemma failure_propagation_witness :
  exists declared,
    typeofExp (DefineExp (makeVarDecl "x" NumTExp) (VarRef "y")) EmptyTEnv =
    Failure ("VarDecl type different from val type, types:unknown and " ++ declared).
Proof.
  destruct (@failure_propagation Reference.collaborators)
    as (_ & _ & _ & _ & _ & _ & _ & _ & _ & _ & _ & _ & _ & _ & _ & Hdefine).
  apply (Hdefine (makeVarDecl "x" NumTExp) (VarRef "y") EmptyTEnv "Type Variable not found y").
  reflexivity.
Defined.

(** C3, as stated, fails on a define whose value is an unbound variable: the
    unbound-variable message of the value is not the message of the define.
    It fails as well on [(if 1 y 3)]: the branch [y] is unbound, and the
    conditional reports the type of its test instead. *)
Lemma define_replaces_failure :
  typeofExp (VarRef "y") EmptyTEnv = Failure "Type Variable not found y"
  /\ typeofExp (DefineExp (makeVarDecl "x" NumTExp) (VarRef "y")) EmptyTEnv
     = Failure "VarDecl type different from val type, types:unknown and [object Object]"
  /\ typeofExp (DefineExp (makeVarDecl "x" NumTExp) (VarRef "y")) EmptyTEnv
     <> typeofExp (VarRef "y") EmptyTEnv
  /\ typeofExp (IfExp (NumExp 1) (VarRef "y") (NumExp 3)) EmptyTEnv
     = Failure "Incompatible types: number and boolean in (if 1 y 3)"
  /\ typeofExp (IfExp (NumExp 1) (VarRef "y") (NumExp 3)) EmptyTEnv
     <> typeofExp (VarRef "y") EmptyTEnv.
Proof. repeat split; discriminate. Qed.

(** C4: on [(define (x : boolean) 1)] the computed type number differs from
    the declared type boolean, and the failure message contains the printed
    form of neither: it shows the two printer results as objects. *)
Theorem typeofDefine_message_omits_types :
  typeofExp (NumExp 1) EmptyTEnv = Ok NumTExp
  /\ unparseTExp NumTExp = Ok "number"
  /\ unparseTExp BoolTExp = Ok "boolean"
  /\ typeofExp (DefineExp (makeVarDecl "x" BoolTExp) (NumExp 1)) EmptyTEnv
     = Failure "VarDecl type different from val type, types:[object Object] and [object Object]"
  /\ String.index 0 "number"
       "VarDecl type different from val type, types:[object Object] and [object Object]" = None
  /\ String.index 0 "boolean"
       "VarDecl type different from val type, types:[object Object] and [object Object]" = None.
Proof. repeat split. Qed.

End FailuresAtWork.

(** ** The claims about programs and binding forms *)

Section Scoping.
Context `{Collaborators}.

(** C6: a program is checked form by form from the left.  Once the forms
    before [form] have type-checked, [form] is checked in the running
    environment, which holds the declared type of every earlier define and of
    no later one; if it is the last form its result is the result of the
    program, otherwise its type is dropped and checking goes on in the
    environment it leaves.  The empty program has type void; a define is
    visible right after it; a reference to a name that only a later define
    declares fails as unbound. *)
Theorem typeofProgram_left_to_right :
  (forall tenv, typeofExp (Program []) tenv = Ok VoidTExp)
  /\ (forall pre form post tenv,
        formsCheck pre EmptyTEnv ->
        typeofExp (Program (pre ++ form :: post)) tenv =
        match post with
        | [] => typeofExp form (runningEnv pre EmptyTEnv)
        | _ :: _ =>
            bind (typeofExp form (runningEnv pre EmptyTEnv)) (fun _ =>
              recur post (runningEnv (pre ++ [form]) EmptyTEnv))
        end)
  /\ (forall pre form post env,
        formsCheck pre env ->
        recur (pre ++ form :: post) env = recur (form :: post) (runningEnv pre env))
  /\ (forall pre v val env,
        runningEnv (pre ++ [DefineExp v val]) env
        = makeExtendTEnv [var v] [texp v] (runningEnv pre env)
        /\ applyTEnv (runningEnv (pre ++ [DefineExp v val]) env) (var v) = Ok (texp v))
  /\ (forall pre form env,
        isDefineExp form = false ->
        runningEnv (pre ++ [form]) env = runningEnv pre env)
  /\ (forall pre form post tenv m,
        formsCheck pre EmptyTEnv ->
        typeofExp form (runningEnv pre EmptyTEnv) = Failure m ->
        typeofExp (Program (pre ++ form :: post)) tenv = Failure m)
  /\ (forall pre y post tenv,
        formsCheck pre EmptyTEnv ->
        Forall (fun form => forall v val, form = DefineExp v val -> var v <> y) pre ->
        typeofExp (Program (pre ++ VarRef y :: post)) tenv = Failure (unboundMessage y)).
Proof.
  assert (Hstep : forall pre form post tenv,
             formsCheck pre EmptyTEnv ->
             typeofExp (Program (pre ++ form :: post)) tenv =
             match post with
             | [] => typeofExp form (runningEnv pre EmptyTEnv)
             | _ :: _ =>
                 bind (typeofExp form (runningEnv pre EmptyTEnv)) (fun _ =>
                   recur post (runningEnv (pre ++ [form]) EmptyTEnv))
             end).
  { intros pre form post tenv Hpre.
    change (typeofExp (Program (pre ++ form :: post)) tenv)
      with (recur (pre ++ form :: post) EmptyTEnv).
    rewrite recur_prefix by exact Hpre.
    destruct post; [ reflexivity | ].
    rewrite recur_step by easy. rewrite runningEnv_snoc. reflexivity. }
  repeat match goal with |- _ /\ _ => split end.
  - reflexivity.
  - exact Hstep.
  - apply recur_prefix.
  - intros pre v val env. rewrite runningEnv_snoc. split; [ reflexivity | ].
    simpl. rewrite String.eqb_refl. reflexivity.
  - intros pre form env Hform. rewrite runningEnv_snoc.
    destruct form; try reflexivity. discriminate Hform.
  - intros pre form post tenv m Hpre Hm. rewrite Hstep by exact Hpre.
    rewrite Hm. destruct post; reflexivity.
  - intros pre y post tenv Hpre Hy. rewrite Hstep by exact Hpre.
    assert (Hu : typeofExp (VarRef y) (runningEnv pre EmptyTEnv) = Failure (unboundMessage y))
      by (apply applyTEnv_runningEnv_unbound; [ exact Hy | reflexivity ]).
    rewrite Hu. destruct post; reflexivity.
Qed.

(** C7: the value of every [let] binding is checked in the environment of the
    [let] itself and must have the declared type of its variable; when all
    values do, the type of the [let] is the type of its body sequence in that
    environment extended by one frame with all the bound names.  A failing
    value fails the [let] with its own message; in particular a value that
    is a reference to a name the enclosing environment does not bind fails as
    unbound, also when a sibling binding declares that name. *)
Theorem typeofLet_rule (bindings : list (Binding Exp)) (body : list Exp) (tenv : TEnv) :
  (forall t,
     typeofExp (LetExp bindings body) tenv = Ok t <->
     Forall (fun b => typeofExp (bval b) tenv = Ok (texp (bvar b))) bindings
     /\ typeofExps body (letTEnv bindings tenv) = Ok t)
  /\ (Forall (fun b => typeofExp (bval b) tenv = Ok (texp (bvar b))) bindings ->
      typeofExp (LetExp bindings body) tenv = typeofExps body (letTEnv bindings tenv))
  /\ letTEnv bindings tenv
     = makeExtendTEnv (map (fun b => var (bvar b)) bindings)
                      (map (fun b => texp (bvar b)) bindings) tenv
  /\ (forall pre b post m,
        bindings = (pre ++ b :: post)%list ->
        Forall (fun b => typeofExp (bval b) tenv = Ok (texp (bvar b))) pre ->
        typeofExp (bval b) tenv = Failure m ->
        typeofExp (LetExp bindings body) tenv = Failure m)
  /\ (forall pre b post y,
        bindings = (pre ++ b :: post)%list ->
        Forall (fun b => typeofExp (bval b) tenv = Ok (texp (bvar b))) pre ->
        bval b = VarRef y ->
        In y (map (fun b => var (bvar b)) bindings) ->
        applyTEnv tenv y = Failure (unboundMessage y) ->
        typeofExp (LetExp bindings body) tenv = Failure (unboundMessage y))
  /\ (forall b t,
        In b bindings ->
        typeofExp (bval b) tenv = Ok t ->
        t <> texp (bvar b) ->
        isOk (typeofExp (LetExp bindings body) tenv) = false).
Proof.
  repeat match goal with |- _ /\ _ => split end.
  - intros t. apply typeofLet_Ok.
  - apply typeofLet_body.
  - reflexivity.
  - intros pre b post m -> Hpre Hb. apply typeofLet_value_failure; assumption.
  - intros pre b post y -> Hpre Hb _ Hy. apply typeofLet_value_failure; [ assumption | ].
    rewrite Hb. exact Hy.
  - intros b t Hin Hb Hne.
    destruct (typeofExp (LetExp bindings body) tenv) as [t' | m] eqn:Hlet; [ | reflexivity ].
    apply typeofLet_Ok in Hlet as [Hall _].
    rewrite List.Forall_forall in Hall. specialize (Hall b Hin). congruence.
Qed.

End Scoping.

Section Letrec.
Context `{Collaborators}.




End Letrec.

(** ** The claims about applications *)

Section Applications.
Context `{Collaborators}.

Lemma bind_Failure_isOk {A B} (r : Result A) (f : A -> Result B) :
  (forall a, isOk (f a) = false) -> isOk (bind r f) = false.
Proof. intros Hf. destruct r; [ apply Hf | reflexivity ]. Qed.

(** C1: the application rule.  When the operator has a type that is not an
    arrow the application fails as an application of a non-procedure; when
    the operand count differs from the arrow's parameter count it fails on
    the wrong number of parameters.  Otherwise it succeeds exactly when every
    operand has a type and these types unify, position by position and in
    order, with the parameter types through one substitution that starts
    empty; the result is the declared result type with the substitution
    applied.  The first operand that fails to type-check, or whose type does
    not unify, fails the whole application. *)
Theorem typeofApp_rule (rator : Exp) (rands : list Exp) (tenv : TEnv) (ratorTE : TExp) :
  typeofExp rator tenv = Ok ratorTE ->
  (isProcTExp ratorTE = false ->
     typeofExp (AppExp rator rands) tenv =
     bind (unparseTExp ratorTE) (fun r =>
       bind (unparse (AppExp rator rands)) (fun e =>
         Failure ("Application of non-procedure: " ++ r ++ " in " ++ e)))
     /\ isOk (typeofExp (AppExp rator rands) tenv) = false)
  /\ (forall paramTEs returnTE,
        ratorTE = ProcTExp paramTEs returnTE ->
        (length rands <> length paramTEs ->
           typeofExp (AppExp rator rands) tenv =
           bind (unparse (AppExp rator rands)) (fun e =>
             Failure ("Wrong parameter numbers passed to proc: " ++ e))
           /\ isOk (typeofExp (AppExp rator rands) tenv) = false)
        /\ (length rands = length paramTEs ->
            (forall t,
               typeofExp (AppExp rator rands) tenv = Ok t <->
               exists randTEs substitution,
                 Forall2 (fun rand randTE => typeofExp rand tenv = Ok randTE) rands randTEs
                 /\ unifyAll paramTEs randTEs ∅ = (true, substitution)
                 /\ t = substituteTypeVars returnTE substitution)
            /\ (forall pre rand post preTEs substitution,
                  rands = (pre ++ rand :: post)%list ->
                  Forall2 (fun e te => typeofExp e tenv = Ok te) pre preTEs ->
                  unifyAll (take (length pre) paramTEs) preTEs ∅ = (true, substitution) ->
                  (forall m, typeofExp rand tenv = Failure m ->
                             typeofExp (AppExp rator rands) tenv = Failure m)
                  /\ (forall randTE paramTE,
                        typeofExp rand tenv = Ok randTE ->
                        paramTEs !! length pre = Some paramTE ->
                        (unifyTypes paramTE randTE substitution).1 = false ->
                        typeofExp (AppExp rator rands) tenv =
                        bind (unparse (AppExp rator rands)) (fun e =>
                          Failure ("Type mismatch in application: " ++ e))
                        /\ isOk (typeofExp (AppExp rator rands) tenv) = false))))
  /\ (forall v substitution,
        substituteTypeVars (TVar v) substitution = default (TVar v) (substitution !! v))
  /\ (forall a b substitution,
        substituteTypeVars (PairTExp a b) substitution
        = PairTExp (substituteTypeVars a substitution) (substituteTypeVars b substitution))
  /\ (forall ps r substitution,
        substituteTypeVars (ProcTExp ps r) substitution
        = ProcTExp (map (fun p => substituteTypeVars p substitution) ps)
                   (substituteTypeVars r substitution))
  /\ (forall te substitution,
        isAtomicTExp te = true -> substituteTypeVars te substitution = te).
Proof.
  intros Hrator.
  assert (Hunfold : typeofExp (AppExp rator rands) tenv
                    = Rules.typeofApp typeofExp rator rands tenv) by reflexivity.
  repeat match goal with |- _ /\ _ => split end; try reflexivity.
  - intros Hnp.
    assert (Heq : typeofExp (AppExp rator rands) tenv =
                  bind (unparseTExp ratorTE) (fun r =>
                    bind (unparse (AppExp rator rands)) (fun e =>
                      Failure ("Application of non-procedure: " ++ r ++ " in " ++ e)))).
    { rewrite Hunfold. unfold Rules.typeofApp. rewrite Hrator. cbn [bind].
      destruct ratorTE; try reflexivity. discriminate Hnp. }
    split; [ exact Heq | ]. rewrite Heq.
    apply bind_Failure_isOk. intros r. apply bind_Failure_isOk. reflexivity.
  - intros paramTEs returnTE ->. split.
    + intros Hlen.
      assert (Heq : typeofExp (AppExp rator rands) tenv =
                    bind (unparse (AppExp rator rands)) (fun e =>
                      Failure ("Wrong parameter numbers passed to proc: " ++ e))).
      { rewrite Hunfold. unfold Rules.typeofApp. rewrite Hrator. cbn [bind].
        apply Nat.eqb_neq in Hlen. rewrite Hlen. reflexivity. }
      split; [ exact Heq | ]. rewrite Heq. apply bind_Failure_isOk. reflexivity.
    + intros Hlen. pose proof (typeofApp_proc _ _ _ _ _ Hrator Hlen) as Happ. split.
      * intros t. rewrite Happ, bind_Ok. split.
        -- intros (substitution & Hu & [= <-]).
           apply unifyRands_Ok in Hu as (randTEs & Hall & Hu); [ | exact Hlen ].
           exists randTEs, substitution. auto.
        -- intros (randTEs & substitution & Hall & Hu & ->).
           exists substitution. split; [ | reflexivity ].
           apply unifyRands_Ok; [ exact Hlen | eauto ].
      * intros pre rand post preTEs substitution -> Hpre Hu.
        assert (Hloop : unifyRands (AppExp rator (pre ++ rand :: post)) tenv pre
                          (take (length pre) paramTEs) ∅ = Ok substitution).
        { apply unifyRands_Ok; [ | eauto ].
          rewrite length_take. rewrite length_app in Hlen. simpl in Hlen. lia. }
        split.
        -- intros m Hm. eapply typeofApp_rand_failure; eauto.
        -- intros randTE paramTE Hr Hp Hfail.
           assert (Heq : typeofExp (AppExp rator (pre ++ rand :: post)) tenv =
                         bind (unparse (AppExp rator (pre ++ rand :: post))) (fun e =>
                           Failure ("Type mismatch in application: " ++ e))).
           { rewrite Happ, unifyRands_app, Hloop. cbn [bind].
             rewrite (drop_S _ _ _ Hp).
             rewrite (unifyRands_mismatch _ _ _ _ _ _ _ _ Hr Hfail).
             destruct (unparse _); reflexivity. }
           split; [ exact Heq | ]. rewrite Heq. apply bind_Failure_isOk. reflexivity.
  - intros te substitution Hat. destruct te; try discriminate Hat; reflexivity.
Qed.

(** On the code as it stands every application unifies from an empty map,
    so a generic predicate has type boolean at two call sites whose operands
    have different types, also when both applications are operands of a
    third generic primitive and the parser answers every lookup with the
    same names. *)
Lemma generic_predicates_isolated (op x x1 x2 : string) (e1 e2 : Exp) (t1 t2 : TExp)
    (tenv : TEnv) :
  In op ["number?"; "boolean?"; "string?"; "list?"; "pair?"; "symbol?"] ->
  parseTE "(T -> boolean)" = Ok (ProcTExp [TVar x] BoolTExp) ->
  parseTE "(T1 * T2 -> boolean)" = Ok (ProcTExp [TVar x1; TVar x2] BoolTExp) ->
  x1 <> x2 ->
  typeofExp e1 tenv = Ok t1 ->
  typeofExp e2 tenv = Ok t2 ->
  typeofExp (AppExp (PrimOp op) [e1]) tenv = Ok BoolTExp
  /\ typeofExp (AppExp (PrimOp op) [e2]) tenv = Ok BoolTExp
  /\ typeofExp (AppExp (PrimOp "eq?")
                  [AppExp (PrimOp op) [e1]; AppExp (PrimOp op) [e2]]) tenv
     = Ok BoolTExp.
Proof.
  intros Hop Hsig Hsig2 Hx He1 He2.
  assert (Hprim : typeofExp (PrimOp op) tenv = Ok (ProcTExp [TVar x] BoolTExp)).
  { simpl in Hop.
    destruct Hop as [<- | [<- | [<- | [<- | [<- | [<- | []]]]]]]; exact Hsig. }
  assert (Hone : forall e t, typeofExp e tenv = Ok t ->
                   typeofExp (AppExp (PrimOp op) [e]) tenv = Ok BoolTExp).
  { intros e t He. rewrite (typeofApp_proc (PrimOp op) [e] tenv _ _ Hprim eq_refl).
    unfold unifyRands. simpl. rewrite He. simpl.
    rewrite lookup_empty. reflexivity. }
  split; [ eapply Hone; eauto | ]. split; [ eapply Hone; eauto | ].
  assert (Heq : typeofExp (PrimOp "eq?") tenv = Ok (ProcTExp [TVar x1; TVar x2] BoolTExp))
    by exact Hsig2.
  rewrite (typeofApp_proc (PrimOp "eq?") [AppExp (PrimOp op) [e1]; AppExp (PrimOp op) [e2]]
             tenv _ _ Heq eq_refl).
  unfold unifyRands. cbn [Rules.unifyRands].
  rewrite (Hone e1 t1 He1), (Hone e2 t2 He2). simpl.
  rewrite lookup_empty, lookup_insert_ne by exact Hx.
  rewrite lookup_empty. reflexivity.
Qed.

End Applications.

(** ** Lookups of the primitive table *)

Lemma substituteTypeVars_agree (te : TExp) (s1 s2 : gmap string TExp) :
  (forall v, In v (typeVariables te) -> s1 !! v = s2 !! v) ->
  substituteTypeVars te s1 = substituteTypeVars te s2.
Proof.
  induction te as [ | | | | | a b IHa IHb | ps r IHps IHr | v ] using TExp_ind_nested;
    intros Hag; simpl; try reflexivity.
  - rewrite IHa, IHb; [ reflexivity | | ]; intros v Hv; apply Hag; simpl;
      apply in_or_app; auto.
  - rewrite IHr by (intros v Hv; apply Hag; simpl; apply in_or_app; auto).
    f_equal. apply map_ext_in. intros p Hp.
    rewrite List.Forall_forall in IHps. apply IHps; [ exact Hp | ].
    intros v Hv. apply Hag. simpl. apply in_or_app. left.
    apply in_concat. exists (typeVariables p). split; [ | exact Hv ].
    apply in_map. exact Hp.
  - rewrite (Hag v) by (simpl; auto). reflexivity.
Qed.






Section FreshSignatures.
Import Reference.








End FreshSignatures.


(** ** The rules at work *)

Section RulesAtWork.
Import Reference.

(** [(cons 1 2)]: T1 and T2 are bound to number, one after the other, in the
    substitution of this application. *)
Lemma typeofApp_rule_witness :
  typeofExp (AppExp (PrimOp "cons") [NumExp 1; NumExp 2]) EmptyTEnv
  = Ok (PairTExp NumTExp NumTExp).
Proof.
  destruct (@typeofApp_rule Reference.collaborators
              (PrimOp "cons") [NumExp 1; NumExp 2] EmptyTEnv
              (ProcTExp [TVar "T1"; TVar "T2"] (PairTExp (TVar "T1") (TVar "T2"))) eq_refl)
    as (_ & Hproc & _).
  destruct (Hproc _ _ eq_refl) as (_ & Hok).
  destruct (Hok eq_refl) as (Hiff & _).
  apply Hiff. exists [NumTExp; NumTExp]. eexists.
  split; [ repeat constructor | split; [ reflexivity | vm_compute; reflexivity ] ].
Defined.

(** [number?] at a number and at a string, and both under [eq?]. *)
Lemma generic_predicates_isolated_example :
  typeofExp (AppExp (PrimOp "number?") [NumExp 1]) EmptyTEnv = Ok BoolTExp
  /\ typeofExp (AppExp (PrimOp "number?") [StrExp "a"]) EmptyTEnv = Ok BoolTExp
  /\ typeofExp (AppExp (PrimOp "eq?")
                  [AppExp (PrimOp "number?") [NumExp 1];
                   AppExp (PrimOp "number?") [StrExp "a"]]) EmptyTEnv
     = Ok BoolTExp.
Proof. repeat split. Qed.


(** What the fresh names are for: with one name for both lookups, a binding
    carried over from [(number? 1)] would reject [(number? "a")]; with the
    name of the second lookup it does not. *)
Lemma carried_binding_example :
  unifyAll [TVar "T"] [StrTExp] (unifyAll [TVar "T"] [NumTExp] ∅).2
  = (false, {[ "T" := NumTExp ]})
  /\ (unifyAll [TVar "_T"] [StrTExp] (unifyAll [TVar "T"] [NumTExp] ∅).2).1 = true.
Proof. split; reflexivity. Qed.

(** [(L5 (define (x : number) 1) y (define (y : number) 2))]: the reference
    to [y] comes before its define. *)
Lemma typeofProgram_left_to_right_witness :
  typeofExp (Program [DefineExp (makeVarDecl "x" NumTExp) (NumExp 1);
                      VarRef "y";
                      DefineExp (makeVarDecl "y" NumTExp) (NumExp 2)]) EmptyTEnv
  = Failure "Type Variable not found y".
Proof.
  destruct (@typeofProgram_left_to_right Reference.collaborators)
    as (_ & _ & _ & _ & _ & _ & Hforward).
  apply (Hforward [DefineExp (makeVarDecl "x" NumTExp) (NumExp 1)] "y"
           [DefineExp (makeVarDecl "y" NumTExp) (NumExp 2)] EmptyTEnv).
  - simpl. split; reflexivity.
  - constructor; [ | constructor ]. intros v val [= <- _]. simpl. discriminate.
Defined.

(** [(let (((x : number) 1) ((y : number) x)) y)]: the value of [y] refers
    to its sibling [x]. *)
Lemma typeofLet_rule_witness :
  typeofExp (LetExp [makeBinding (makeVarDecl "x" NumTExp) (NumExp 1);
                     makeBinding (makeVarDecl "y" NumTExp) (VarRef "x")]
                    [VarRef "y"]) EmptyTEnv
  = Failure "Type Variable not found x".
Proof.
  destruct (@typeofLet_rule Reference.collaborators
              [makeBinding (makeVarDecl "x" NumTExp) (NumExp 1);
               makeBinding (makeVarDecl "y" NumTExp) (VarRef "x")]
              [VarRef "y"] EmptyTEnv) as (_ & _ & _ & _ & Hsibling & _).
  apply (Hsibling [makeBinding (makeVarDecl "x" NumTExp) (NumExp 1)]
           (makeBinding (makeVarDecl "y" NumTExp) (VarRef "x")) [] "x").
  - reflexivity.
  - constructor; [ reflexivity | constructor ].
  - reflexivity.
  - simpl. auto.
  - reflexivity.
Defined.


End RulesAtWork.

(** * Further properties of the checker *)

Section RuleInversions.
Context `{Collaborators}.

(** [checkEqualType] succeeds exactly on structurally equal types, and only
    with [true]; on different types it fails, with the Incompatible types
    message whenever the printers succeed. *)
Theorem checkEqualType_decides (te1 te2 : TExp) (exp : Exp) :
  (forall c, checkEqualType te1 te2 exp = Ok c <-> te1 = te2 /\ c = true)
  /\ (te1 <> te2 -> isOk (checkEqualType te1 te2 exp) = false)
  /\ (forall s1 s2 e,
        te1 <> te2 ->
        unparseTExp te1 = Ok s1 -> unparseTExp te2 = Ok s2 -> unparse exp = Ok e ->
        checkEqualType te1 te2 exp
        = Failure ("Incompatible types: " ++ s1 ++ " and " ++ s2 ++ " in " ++ e)).
Proof.
  split; [ | split ].
  - intros c. apply checkEqualType_Ok.
  - intros Hne. destruct (checkEqualType_neq te1 te2 exp Hne) as (m & ->). reflexivity.
  - intros s1 s2 e Hne H1 H2 He. unfold checkEqualType, Rules.checkEqualType.
    apply equals_false in Hne. rewrite Hne, H1, H2, He. reflexivity.
Qed.

Lemma typeofExps_inv (exps : list Exp) (tenv : TEnv) (t : TExp) :
  typeofExps exps tenv = Ok t <->
  exists pre last,
    exps = (pre ++ [last])%list
    /\ Forall (fun f => isOk (typeofExp f tenv) = true) pre
    /\ typeofExp last tenv = Ok t.
Proof.
  split.
  - induction exps as [ | e rest IH ]; [ discriminate | ].
    destruct rest as [ | e' rest ].
    + intros He. exists [], e. repeat split; [ constructor | exact He ].
    + rewrite typeofExps_cons by easy. intros Hb.
      apply bind_Ok in Hb as (t' & He & Hrest).
      destruct (IH Hrest) as (pre & last & Heq & Hpre & Hlast).
      exists (e :: pre), last. rewrite Heq. repeat split; [ | exact Hlast ].
      constructor; [ rewrite He; reflexivity | exact Hpre ].
  - intros (pre & last & -> & Hpre & Hlast). rewrite typeofExps_last by exact Hpre.
    exact Hlast.
Qed.

Lemma typeofIf_inv (test then_ alt : Exp) (tenv : TEnv) (t : TExp) :
  typeofExp (IfExp test then_ alt) tenv = Ok t <->
  typeofExp test tenv = Ok BoolTExp
  /\ typeofExp then_ tenv = Ok t
  /\ typeofExp alt tenv = Ok t.
Proof.
  change (typeofExp (IfExp test then_ alt) tenv)
    with (Rules.typeofIf typeofExp test then_ alt tenv).
  unfold Rules.typeofIf. rewrite bind_Ok. split.
  - intros (c1 & Hc1 & Hrest).
    apply bind_Ok in Hc1 as (testTE & Htest & Hc1).
    apply (checkEqualType_Ok testTE BoolTExp _ c1) in Hc1 as [-> _].
    apply bind_Ok in Hrest as (c2 & Hc2 & Hthen).
    apply bind_Ok in Hc2 as (thenTE & Hthen' & Hc2).
    apply bind_Ok in Hc2 as (altTE & Halt & Hc2).
    apply (checkEqualType_Ok thenTE altTE _ c2) in Hc2 as [-> _].
    rewrite Hthen in Hthen'. injection Hthen' as ->. auto.
  - intros (Htest & Hthen & Halt). exists true. rewrite Htest, Hthen, Halt. cbn [bind].
    split; [ apply checkEqualType_refl | ].
    change (Rules.checkEqualType t t (IfExp test then_ alt))
      with (checkEqualType t t (IfExp test then_ alt)).
    rewrite checkEqualType_refl. reflexivity.
Qed.

(** A procedure has a type exactly when its body sequence, checked with the
    parameters bound to their declared types, has the declared return type;
    the type is then the arrow from the declared parameter types to the
    declared return type.  A procedure with an empty body is rejected. *)
Theorem typeofProc_Ok (args : list VarDecl) (body : list Exp) (returnTE : TExp)
    (tenv : TEnv) :
  (forall t,
     typeofExp (ProcExp args body returnTE) tenv = Ok t <->
     typeofExps body (makeExtendTEnv (map var args) (map texp args) tenv) = Ok returnTE
     /\ t = ProcTExp (map texp args) returnTE)
  /\ (body = [] ->
      typeofExp (ProcExp args body returnTE) tenv
      = Failure "Unexpected empty list of expressions").
Proof.
  change (typeofExp (ProcExp args body returnTE) tenv)
    with (Rules.typeofProc typeofExp args body returnTE tenv).
  unfold Rules.typeofProc. split.
  - intros t. rewrite bind_Ok. split.
    + intros (c & Hc & [= <-]). apply bind_Ok in Hc as (bodyTE & Hbody & Hc).
      apply (checkEqualType_Ok bodyTE returnTE _ c) in Hc as [-> _]. auto.
    + intros (Hbody & ->). exists true. split; [ | reflexivity ].
      unfold typeofExps in Hbody. rewrite Hbody. cbn [bind]. apply checkEqualType_refl.
  - intros ->. reflexivity.
Qed.

Lemma typeofDefine_inv (v : VarDecl) (val : Exp) (tenv : TEnv) (t : TExp) :
  typeofExp (DefineExp v val) tenv = Ok t <->
  typeofExp val tenv = Ok (texp v) /\ t = VoidTExp.
Proof.
  rewrite typeofDefine_cases. destruct (typeofExp val tenv) as [valType | m].
  - destruct (equals valType (texp v)) eqn:E.
    + apply equals_spec in E. subst. split; [ intros [= <-]; auto | intros [_ ->]; reflexivity ].
    + apply equals_false in E. split; [ discriminate | intros [[= Heq] _]; contradiction ].
  - split; [ discriminate | intros [[=] _] ].
Qed.

(** The table of [typeofPrim], operator by operator: the text it hands to
    the parser of type expressions for each of the twenty-three names it
    knows, and the failure for every other name. *)
Theorem typeofPrim_table (op : string) :
  (In op ["+"; "-"; "*"; "/"] -> typeofPrim op = parseTE "(number * number -> number)")
  /\ (In op ["and"; "or"] -> typeofPrim op = parseTE "(boolean * boolean -> boolean)")
  /\ (In op [">"; "<"; "="] -> typeofPrim op = parseTE "(number * number -> boolean)")
  /\ (In op ["number?"; "boolean?"; "string?"; "list?"; "pair?"; "symbol?"] ->
      typeofPrim op = parseTE "(T -> boolean)")
  /\ (op = "not" -> typeofPrim op = parseTE "(boolean -> boolean)")
  /\ (In op ["eq?"; "string=?"] -> typeofPrim op = parseTE "(T1 * T2 -> boolean)")
  /\ (op = "display" -> typeofPrim op = parseTE "(T -> void)")
  /\ (op = "newline" -> typeofPrim op = parseTE "(Empty -> void)")
  /\ (op = "cons" -> typeofPrim op = parseTE "(T1 * T2 -> (Pair T1 T2))")
  /\ (op = "car" -> typeofPrim op = parseTE "((Pair T1 T2) -> T1)")
  /\ (op = "cdr" -> typeofPrim op = parseTE "((Pair T1 T2) -> T2)")
  /\ (~ In op typedPrimitives ->
      typeofPrim op = Failure ("Primitive not yet implemented: " ++ op)).
Proof.
  repeat match goal with |- _ /\ _ => split end;
    try (intros ->; reflexivity);
    try (intros Hin; simpl in Hin;
         repeat (destruct Hin as [<- | Hin]; [ reflexivity | ]); solve [ destruct Hin ]).
  intros Hnot. unfold typeofPrim, Rules.typeofPrim.
  repeat match goal with
  | |- context [String.eqb op ?k] =>
      destruct (String.eqb_spec op k) as [-> | _];
      [ exfalso; apply Hnot; unfold typedPrimitives; simpl; tauto | ]
  end.
  reflexivity.
Qed.

(** A body sequence has a type exactly when it is not empty, every
    expression before the last one type-checks, and the last one has that
    type. *)
Theorem typeofExps_Ok (exps : list Exp) (tenv : TEnv) :
  (forall t,
     typeofExps exps tenv = Ok t <->
     exists pre last,
       exps = (pre ++ [last])%list
       /\ Forall (fun f => isOk (typeofExp f tenv) = true) pre
       /\ typeofExp last tenv = Ok t)
  /\ (exps = [] -> typeofExps exps tenv = Failure "Unexpected empty list of expressions").
Proof.
  split.
  - intros t. apply typeofExps_inv.
  - intros ->. reflexivity.
Qed.

(** A conditional has type [t] exactly when its test has type boolean and
    both branches have type [t].  When the test has another type, the
    mismatch of the test is what the conditional reports, whatever the
    branches do. *)
Theorem typeofIf_Ok (test then_ alt : Exp) (tenv : TEnv) :
  (forall t,
     typeofExp (IfExp test then_ alt) tenv = Ok t <->
     typeofExp test tenv = Ok BoolTExp
     /\ typeofExp then_ tenv = Ok t
     /\ typeofExp alt tenv = Ok t)
  /\ (forall testTE m,
        typeofExp test tenv = Ok testTE ->
        checkEqualType testTE BoolTExp (IfExp test then_ alt) = Failure m ->
        typeofExp (IfExp test then_ alt) tenv = Failure m).
Proof.
  split.
  - intros t. apply typeofIf_inv.
  - intros testTE m Htest Hm.
    change (typeofExp (IfExp test then_ alt) tenv)
      with (Rules.typeofIf typeofExp test then_ alt tenv).
    unfold Rules.typeofIf. rewrite Htest. cbn [bind].
    unfold checkEqualType in Hm. rewrite Hm. reflexivity.
Qed.

(** A define has a type exactly when its value has the declared type of its
    variable, and that type is void. *)
Theorem typeofDefine_Ok (v : VarDecl) (val : Exp) (tenv : TEnv) :
  (forall t,
     typeofExp (DefineExp v val) tenv = Ok t <->
     typeofExp val tenv = Ok (texp v) /\ t = VoidTExp)
  /\ (forall valType,
        typeofExp val tenv = Ok valType -> valType <> texp v ->
        isOk (typeofExp (DefineExp v val) tenv) = false).
Proof.
  split.
  - intros t. apply typeofDefine_inv.
  - intros valType Hval Hne. rewrite typeofDefine_cases, Hval.
    apply equals_false in Hne. rewrite Hne. reflexivity.
Qed.

End RuleInversions.

(** ** The unifier and the substitution *)

Lemma substituteTypeVars_empty (te : TExp) : substituteTypeVars te ∅ = te.
Proof.
  induction te as [ | | | | | a b IHa IHb | ps r IHps IHr | v ]
    using TExp_ind_nested; simpl; try reflexivity.
  - rewrite IHa, IHb. reflexivity.
  - rewrite IHr. f_equal. rewrite <- (map_id ps) at 2. apply map_ext_in.
    intros p Hp. rewrite List.Forall_forall in IHps. apply IHps. exact Hp.
Qed.

(** Applying a substitution leaves a type as it is when none of the type's
    variables is bound, in particular when the substitution is empty; and
    two substitutions that agree on the variables of a type rewrite it to
    the same type. *)
Theorem substituteTypeVars_unbound (te : TExp) (substitution : gmap string TExp) :
  ((forall v, In v (typeVariables te) -> substitution !! v = None) ->
   substituteTypeVars te substitution = te)
  /\ (forall other,
        (forall v, In v (typeVariables te) -> substitution !! v = other !! v) ->
        substituteTypeVars te substitution = substituteTypeVars te other).
Proof.
  split.
  - intros Hun. rewrite <- (substituteTypeVars_empty te) at 2.
    apply substituteTypeVars_agree.
    intros v Hv. rewrite lookup_empty. apply Hun. exact Hv.
  - intros other. apply substituteTypeVars_agree.
Qed.

Lemma unifyTypes_subseteq (expected actual : TExp) (substitution : gmap string TExp) :
  substitution ⊆ (unifyTypes expected actual substitution).2.
Proof.
  revert actual substitution.
  induction expected as [ | | | | | a b IHa IHb | ps r _ _ | v ] using TExp_ind_nested;
    intros actual substitution;
    try (rewrite unifyTypes_fallback by reflexivity; reflexivity).
  - destruct actual; try (rewrite unifyTypes_fallback by reflexivity; reflexivity).
    rewrite unifyTypes_PairTExp.
    pose proof (IHa actual1 substitution) as H1.
    destruct (unifyTypes a actual1 substitution) as [[] s1]; simpl in *; [ | exact H1 ].
    etrans; [ exact H1 | apply IHb ].
  - rewrite unifyTypes_TVar.
    destruct (substitution !! v) eqn:Hv; simpl; [ reflexivity | ].
    apply insert_subseteq. exact Hv.
Qed.

Lemma unifyTypes_closed_eq (expected actual : TExp) (substitution : gmap string TExp) :
  typeVariables expected = [] ->
  unifyTypes expected actual substitution = (equals expected actual, substitution).
Proof.
  revert actual substitution.
  induction expected as [ | | | | | a b IHa IHb | ps r _ _ | v ] using TExp_ind_nested;
    intros actual substitution Hclosed;
    try (rewrite unifyTypes_fallback by reflexivity; reflexivity).
  - simpl in Hclosed. apply app_eq_nil in Hclosed as [Ha Hb].
    destruct actual; try (rewrite unifyTypes_fallback by reflexivity; reflexivity).
    rewrite unifyTypes_PairTExp, (IHa _ _ Ha). simpl.
    destruct (equals a actual1); [ rewrite (IHb _ _ Hb); reflexivity | reflexivity ].
  - discriminate Hclosed.
Qed.

(** Soundness of [unifyTypes] on arrow-free expected types: when it succeeds,
    the map it returns binds every variable of the expected type and
    instantiates the expected type to the actual one. *)
Theorem unifyTypes_sound (expected actual : TExp) (substitution substitution' : gmap string TExp) :
  arrowFree expected = true ->
  unifyTypes expected actual substitution = (true, substitution') ->
  substituteTypeVars expected substitution' = actual
  /\ (forall v, In v (typeVariables expected) -> is_Some (substitution' !! v)).
Proof.
  revert actual substitution substitution'.
  induction expected as [ | | | | | a b IHa IHb | ps r _ _ | v ] using TExp_ind_nested;
    intros actual substitution substitution' Haf Hu; try discriminate Haf;
    try (rewrite unifyTypes_fallback in Hu by reflexivity;
         apply pair_equal_spec in Hu as [Heq _]; apply equals_spec in Heq; subst;
         split; [ reflexivity | intros v [] ]).
  - simpl in Haf. apply andb_true_iff in Haf as [Hafa Hafb].
    destruct actual;
      try (rewrite unifyTypes_fallback in Hu by reflexivity;
           apply pair_equal_spec in Hu as [Heq _]; apply equals_spec in Heq; discriminate Heq).
    rewrite unifyTypes_PairTExp in Hu.
    destruct (unifyTypes a actual1 substitution) as [[] s1] eqn:H1; [ | discriminate Hu ].
    destruct (IHa _ _ _ Hafa H1) as [Hsa Hba].
    destruct (IHb _ _ _ Hafb Hu) as [Hsb Hbb].
    pose proof (unifyTypes_subseteq b actual2 s1) as Hext. rewrite Hu in Hext. simpl in Hext.
    split.
    + simpl. rewrite Hsb. f_equal. rewrite <- Hsa. apply substituteTypeVars_agree.
      intros v Hv. destruct (Hba v Hv) as [t Ht]. rewrite Ht.
      eapply lookup_weaken; eauto.
    + intros v Hv. simpl in Hv. apply in_app_or in Hv as [Hv | Hv]; [ | auto ].
      destruct (Hba v Hv) as [t Ht]. exists t. eapply lookup_weaken; eauto.
  - rewrite unifyTypes_TVar in Hu. simpl.
    destruct (substitution !! v) as [existing | ] eqn:Hv.
    + apply pair_equal_spec in Hu as [Heq <-]. apply equals_spec in Heq. subst. rewrite Hv. simpl.
      split; [ reflexivity | intros w [<- | []]; eauto ].
    + injection Hu as <-. rewrite lookup_insert_eq. simpl.
      split; [ reflexivity | intros w [<- | []] ]. rewrite lookup_insert_eq. eauto.
Qed.

(** Completeness of [unifyTypes] on arrow-free expected types: if some
    extension of the given map binds all variables of the expected type and
    instantiates it to the actual type, then [unifyTypes] succeeds, and the
    map it returns is contained in that extension. *)
Theorem unifyTypes_complete (expected actual : TExp) (substitution larger : gmap string TExp) :
  arrowFree expected = true ->
  substitution ⊆ larger ->
  (forall v, In v (typeVariables expected) -> is_Some (larger !! v)) ->
  substituteTypeVars expected larger = actual ->
  exists substitution',
    unifyTypes expected actual substitution = (true, substitution')
    /\ substitution' ⊆ larger.
Proof.
  revert actual substitution.
  induction expected as [ | | | | | a b IHa IHb | ps r _ _ | v ] using TExp_ind_nested;
    intros actual substitution Haf Hsub Hbound Hinst; try discriminate Haf;
    try (simpl in Hinst; subst actual; exists substitution; split; [ reflexivity | exact Hsub ]).
  - simpl in Haf. apply andb_true_iff in Haf as [Hafa Hafb].
    simpl in Hinst. subst actual. rewrite unifyTypes_PairTExp.
    destruct (IHa (substituteTypeVars a larger) substitution Hafa Hsub) as (s1 & H1 & Hs1);
      [ intros v Hv; apply Hbound; simpl; apply in_or_app; auto | reflexivity | ].
    rewrite H1.
    destruct (IHb (substituteTypeVars b larger) s1 Hafb Hs1) as (s2 & H2 & Hs2);
      [ intros v Hv; apply Hbound; simpl; apply in_or_app; auto | reflexivity | ].
    eauto.
  - destruct (Hbound v) as [t Ht]; [ simpl; auto | ].
    simpl in Hinst. rewrite Ht in Hinst. simpl in Hinst. subst t.
    rewrite unifyTypes_TVar. destruct (substitution !! v) as [existing | ] eqn:Hv.
    + pose proof (lookup_weaken _ _ _ _ Hv Hsub) as Hl. rewrite Ht in Hl.
      injection Hl as ->. rewrite equals_refl. eauto.
    + exists (<[v := actual]> substitution). split; [ reflexivity | ].
      apply insert_subseteq_l; assumption.
Qed.

(** [unifyTypes] only ever adds bindings: whatever the outcome, every
    binding of the map it was given is still there, unchanged. *)
Theorem unifyTypes_extends (expected actual : TExp) (substitution : gmap string TExp) :
  substitution ⊆ (unifyTypes expected actual substitution).2
  /\ (forall v t,
        substitution !! v = Some t ->
        (unifyTypes expected actual substitution).2 !! v = Some t).
Proof.
  pose proof (unifyTypes_subseteq expected actual substitution) as Hsub.
  split; [ exact Hsub | ].
  intros v t Hv. eapply lookup_weaken; eauto.
Qed.

(** On an expected type without type variables, [unifyTypes] is structural
    equality and leaves the map untouched. *)
Theorem unifyTypes_closed (expected actual : TExp) (substitution : gmap string TExp) :
  typeVariables expected = [] ->
  ((unifyTypes expected actual substitution).1 = true <-> expected = actual)
  /\ (unifyTypes expected actual substitution).2 = substitution.
Proof.
  intros Hclosed. rewrite (unifyTypes_closed_eq _ _ _ Hclosed).
  split; [ apply equals_spec | reflexivity ].
Qed.

(** ** Applications of procedures without type variables *)

Section Monomorphic.
Context `{Collaborators}.

Lemma unifyAll_closed (paramTEs randTEs : list TExp) (substitution substitution' : gmap string TExp) :
  Forall (fun p => typeVariables p = []) paramTEs ->
  length randTEs = length paramTEs ->
  unifyAll paramTEs randTEs substitution = (true, substitution') <->
  randTEs = paramTEs /\ substitution' = substitution.
Proof.
  intros Hclosed. revert randTEs.
  induction Hclosed as [ | p ps Hp _ IH ]; intros [ | r rs ] Hlen; try discriminate Hlen.
  - simpl. split; [ intros [= <-]; auto | intros [_ ->]; reflexivity ].
  - injection Hlen as Hlen. simpl. rewrite (unifyTypes_closed_eq _ _ _ Hp).
    destruct (equals p r) eqn:E.
    + apply equals_spec in E. subst r. rewrite (IH rs Hlen).
      split; [ intros [-> ->]; auto | intros [[= ->] ->]; auto ].
    + apply equals_false in E. split; [ discriminate | intros [[= Heq _] _]; congruence ].
Qed.

(** When the parameter types of the operator contain no type variable, an
    application has a type exactly when there are as many operands as
    parameters and each operand has the type of its parameter; the type of
    the application is then the declared result type, unchanged. *)
Theorem typeofApp_monomorphic (rator : Exp) (rands : list Exp) (tenv : TEnv)
    (paramTEs : list TExp) (returnTE : TExp) :
  typeofExp rator tenv = Ok (ProcTExp paramTEs returnTE) ->
  Forall (fun p => typeVariables p = []) paramTEs ->
  forall t,
    typeofExp (AppExp rator rands) tenv = Ok t <->
    Forall2 (fun rand p => typeofExp rand tenv = Ok p) rands paramTEs /\ t = returnTE.
Proof.
  intros Hrator Hclosed t.
  destruct (Nat.eq_dec (length rands) (length paramTEs)) as [Hlen | Hlen].
  - rewrite (typeofApp_proc _ _ _ _ _ Hrator Hlen), bind_Ok. split.
    + intros (substitution & Hu & [= <-]).
      apply unifyRands_Ok in Hu as (randTEs & Hall & Hu); [ | exact Hlen ].
      apply unifyAll_closed in Hu as [-> ->]; [ | exact Hclosed | ].
      * split; [ exact Hall | apply substituteTypeVars_empty ].
      * rewrite <- Hlen. symmetry. eapply Forall2_length. exact Hall.
    + intros [Hall ->]. exists ∅. split; [ | rewrite substituteTypeVars_empty; reflexivity ].
      apply unifyRands_Ok; [ exact Hlen | ]. exists paramTEs. split; [ exact Hall | ].
      apply unifyAll_closed; auto.
  - split.
    + change (typeofExp (AppExp rator rands) tenv)
        with (Rules.typeofApp typeofExp rator rands tenv).
      unfold Rules.typeofApp. rewrite Hrator. cbn [bind].
      apply Nat.eqb_neq in Hlen. rewrite Hlen. simpl.
      destruct (unparse (AppExp rator rands)); discriminate.
    + intros [Hall _]. apply Forall2_length in Hall. contradiction.
Qed.

End Monomorphic.

(** ** Nothing in an accepted expression goes unchecked *)

Lemma Exp_ind_nested (P : Exp -> Prop) :
  (forall exps, Forall P exps -> P (Program exps)) ->
  (forall v val, P val -> P (DefineExp v val)) ->
  (forall n, P (NumExp n)) ->
  (forall b, P (BoolExp b)) ->
  (forall s, P (StrExp s)) ->
  (forall op, P (PrimOp op)) ->
  (forall v, P (VarRef v)) ->
  (forall rator rands, P rator -> Forall P rands -> P (AppExp rator rands)) ->
  (forall test then_ alt, P test -> P then_ -> P alt -> P (IfExp test then_ alt)) ->
  (forall args body returnTE, Forall P body -> P (ProcExp args body returnTE)) ->
  (forall bindings body,
     Forall (fun b => P (bval b)) bindings -> Forall P body -> P (LetExp bindings body)) ->
  (forall val, P (LitExp val)) ->
  (forall bindings body,
     Forall (fun b => P (bval b)) bindings -> Forall P body -> P (LetrecExp bindings body)) ->
  (forall v val, P val -> P (SetExp v val)) ->
  forall exp, P exp.
Proof.
  intros HProgram HDefine HNum HBool HStr HPrim HVar HApp HIf HProc HLet HLit HLetrec HSet.
  fix IH 1. intros exp.
  assert (Hlist : forall l : list Exp, Forall P l).
  { intros l. induction l as [ | e l IHl ]; constructor; [ apply IH | exact IHl ]. }
  assert (Hbindings : forall l : list (Binding Exp), Forall (fun b => P (bval b)) l).
  { intros l. induction l as [ | b l IHl ]; constructor; [ | exact IHl ].
    destruct b as [bv be]. simpl. apply IH. }
  destruct exp.
  - apply HProgram, Hlist.
  - apply HDefine, IH.
  - apply HNum.
  - apply HBool.
  - apply HStr.
  - apply HPrim.
  - apply HVar.
  - apply HApp; [ apply IH | apply Hlist ].
  - apply HIf; apply IH.
  - apply HProc, Hlist.
  - apply HLet; [ apply Hbindings | apply Hlist ].
  - apply HLit.
  - apply HLetrec; [ apply Hbindings | apply Hlist ].
  - apply HSet, IH.
Qed.

Section Coverage.
Context `{Collaborators}.

Lemma typeofExps_all_accepted (exps : list Exp) (tenv : TEnv) (t : TExp) :
  typeofExps exps tenv = Ok t -> Forall accepted exps.
Proof.
  intros Hok. apply typeofExps_inv in Hok as (pre & last & -> & Hpre & Hlast).
  apply Forall_app. split.
  - eapply List.Forall_impl; [ | exact Hpre ]. intros f Hf. simpl in Hf.
    destruct (typeofExp f tenv) as [t' | ] eqn:E; [ | discriminate Hf ].
    exists tenv, t'. exact E.
  - constructor; [ | constructor ]. exists tenv, t. exact Hlast.
Qed.

Lemma recur_all_accepted (forms : list Exp) (env : TEnv) (t : TExp) :
  recur forms env = Ok t -> Forall accepted forms.
Proof.
  revert env. induction forms as [ | f rest IH ]; intros env Hok; [ constructor | ].
  destruct rest as [ | f' rest ].
  - constructor; [ | constructor ]. exists env, t. exact Hok.
  - rewrite recur_step in Hok by easy. apply bind_Ok in Hok as (t' & Hf & Hrest).
    constructor; [ exists env, t'; exact Hf | eapply IH; exact Hrest ].
Qed.

Lemma unifyRands_all_accepted (app : Exp) (tenv : TEnv) (rands : list Exp)
    (paramTEs : list TExp) (s s' : gmap string TExp) :
  length rands = length paramTEs ->
  unifyRands app tenv rands paramTEs s = Ok s' -> Forall accepted rands.
Proof.
  intros Hlen Hu. apply unifyRands_Ok in Hu as (randTEs & Hall & _); [ | exact Hlen ].
  clear Hlen. induction Hall as [ | rand te rands tes Hr _ IH ]; [ constructor | ].
  constructor; [ exists tenv, te; exact Hr | exact IH ].
Qed.

Lemma typeofApp_children_accepted (rator : Exp) (rands : list Exp) (tenv : TEnv) (t : TExp) :
  typeofExp (AppExp rator rands) tenv = Ok t ->
  accepted rator /\ Forall accepted rands.
Proof.
  change (typeofExp (AppExp rator rands) tenv)
    with (Rules.typeofApp typeofExp rator rands tenv).
  unfold Rules.typeofApp. intros Hok. apply bind_Ok in Hok as (ratorTE & Hrator & Hok).
  split; [ exists tenv, ratorTE; exact Hrator | ].
  destruct ratorTE as [ | | | | | ? ? | paramTEs returnTE | ? ];
    try (destruct (unparseTExp _); simpl in Hok;
         [ destruct (unparse _); discriminate Hok | discriminate Hok ]).
  destruct (length rands =? length paramTEs)%nat eqn:Hlen; simpl in Hok.
  - apply Nat.eqb_eq in Hlen. apply bind_Ok in Hok as (s' & Hu & _).
    eapply unifyRands_all_accepted; eauto.
  - destruct (unparse _); discriminate Hok.
Qed.

Lemma typeofProc_inv (args : list VarDecl) (body : list Exp) (returnTE : TExp)
    (tenv : TEnv) (t : TExp) :
  typeofExp (ProcExp args body returnTE) tenv = Ok t ->
  typeofExps body (makeExtendTEnv (map var args) (map texp args) tenv) = Ok returnTE.
Proof.
  change (typeofExp (ProcExp args body returnTE) tenv)
    with (Rules.typeofProc typeofExp args body returnTE tenv).
  unfold Rules.typeofProc. intros Hok. apply bind_Ok in Hok as (c & Hc & _).
  apply bind_Ok in Hc as (bodyTE & Hbody & Hc).
  apply (checkEqualType_Ok bodyTE returnTE _ c) in Hc as [-> _]. exact Hbody.
Qed.

Lemma typeofProc_intro (args : list VarDecl) (body : list Exp) (returnTE : TExp) (tenv : TEnv) :
  typeofExps body (makeExtendTEnv (map var args) (map texp args) tenv) = Ok returnTE ->
  typeofExp (ProcExp args body returnTE) tenv = Ok (ProcTExp (map texp args) returnTE).
Proof.
  intros Hbody. change (typeofExp (ProcExp args body returnTE) tenv)
    with (Rules.typeofProc typeofExp args body returnTE tenv).
  unfold Rules.typeofProc. unfold typeofExps in Hbody. rewrite Hbody. cbn [bind].
  change (Rules.checkEqualType returnTE returnTE (ProcExp args body returnTE))
    with (checkEqualType returnTE returnTE (ProcExp args body returnTE)).
  rewrite checkEqualType_refl. reflexivity.
Qed.

Lemma typeofLetrec_children_accepted (bindings : list (Binding Exp)) (body : list Exp)
    (tenv : TEnv) (t : TExp) :
  typeofExp (LetrecExp bindings body) tenv = Ok t ->
  Forall (fun b => accepted (bval b)) bindings /\ Forall accepted body.
Proof.
  intros Hok.
  destruct (allT isProcExp (map (fun b => bval b) bindings)) eqn:Hall.
  - apply typeofLetrec_Ok in Hok as [Hprocs Hbody]; [ | exact Hall ].
    split; [ | eapply typeofExps_all_accepted; exact Hbody ].
    unfold allT in Hall. rewrite forallb_forall in Hall.
    rewrite List.Forall_forall in Hprocs. apply List.Forall_forall. intros b Hb.
    specialize (Hprocs b Hb).
    assert (Hproc : isProcExp (bval b) = true)
      by (apply Hall, (in_map (fun b => bval b)); exact Hb).
    destruct (bval b) as [ | | | | | | | | | args pbody returnTE | | | | ] eqn:Hval;
      try discriminate Hproc.
    exists (letrecTEnvBody bindings tenv), (ProcTExp (map texp args) returnTE).
    apply typeofProc_intro. unfold letrecTEnvI in Hprocs. rewrite Hval in Hprocs.
    exact Hprocs.
  - rewrite typeofLetrec_not_procs in Hok by exact Hall. discriminate Hok.
Qed.

End Coverage.

Section CoverageTheorem.
Context `{Collaborators}.

Lemma accepted_in_flat_map (l : list Exp) (s : Exp) :
  Forall (fun e => accepted e -> forall s, In s (subExps e) -> accepted s) l ->
  Forall accepted l ->
  In s (flat_map subExps l) -> accepted s.
Proof.
  intros HP Hacc Hin. apply in_flat_map in Hin as (c & Hc & Hs).
  rewrite List.Forall_forall in HP, Hacc. eapply HP; eauto.
Qed.

Lemma accepted_in_bindings (l : list (Binding Exp)) (s : Exp) :
  Forall (fun b => accepted (bval b) -> forall s, In s (subExps (bval b)) -> accepted s) l ->
  Forall (fun b => accepted (bval b)) l ->
  In s (flat_map (fun b => subExps (bval b)) l) -> accepted s.
Proof.
  intros HP Hacc Hin. apply in_flat_map in Hin as (b & Hb & Hs).
  rewrite List.Forall_forall in HP, Hacc. eapply HP; eauto.
Qed.

Lemma accepted_sub (exp : Exp) :
  accepted exp -> forall s, In s (subExps exp) -> accepted s.
Proof.
  induction exp as [ exps IHexps | v val IHval | | | | | | rator rands IHrator IHrands
                   | test then_ alt IHtest IHthen IHalt | args body returnTE IHbody
                   | bindings body IHbs IHbody | | bindings body IHbs IHbody | v val IHval ]
    using Exp_ind_nested;
    intros Hacc sub Hin; simpl in Hin; destruct Hin as [<- | Hin]; try exact Hacc;
    try (destruct Hin; fail); destruct Hacc as (tenv & t & Hok).
  - eapply accepted_in_flat_map; eauto. eapply recur_all_accepted. exact Hok.
  - apply typeofDefine_inv in Hok as [Hval _]. apply IHval; [ | exact Hin ].
    exists tenv, (texp v). exact Hval.
  - apply typeofApp_children_accepted in Hok as [Hrator Hrands].
    apply in_app_or in Hin as [Hin | Hin]; [ apply IHrator; assumption | ].
    eapply accepted_in_flat_map; eauto.
  - apply typeofIf_inv in Hok as (Htest & Hthen & Halt).
    apply in_app_or in Hin as [Hin | Hin];
      [ apply IHtest; [ exists tenv, BoolTExp; exact Htest | exact Hin ] | ].
    apply in_app_or in Hin as [Hin | Hin];
      [ apply IHthen | apply IHalt ]; try exact Hin; exists tenv, t; assumption.
  - apply typeofProc_inv in Hok. eapply accepted_in_flat_map; eauto.
    eapply typeofExps_all_accepted. exact Hok.
  - apply typeofLet_Ok in Hok as [Hvals Hbody].
    apply in_app_or in Hin as [Hin | Hin].
    + eapply accepted_in_bindings; eauto.
      eapply List.Forall_impl; [ | exact Hvals ]. intros b Hb.
      exists tenv, (texp (bvar b)). exact Hb.
    + eapply accepted_in_flat_map; eauto. eapply typeofExps_all_accepted. exact Hbody.
  - apply typeofLetrec_children_accepted in Hok as [Hvals Hbody].
    apply in_app_or in Hin as [Hin | Hin].
    + eapply accepted_in_bindings; eauto.
    + eapply accepted_in_flat_map; eauto.
  - discriminate Hok.
Qed.

(** Acceptance reaches every part of an expression: if an expression has a
    type, then each expression occurring in it has a type in some
    environment; in particular no [set!] form occurs in it, and neither does
    a procedure, [let] or [letrec] with an empty body. *)
Theorem accepted_subexpressions (exp : Exp) (tenv : TEnv) (t : TExp) :
  typeofExp exp tenv = Ok t ->
  forall s, In s (subExps exp) ->
    accepted s
    /\ isSetExp s = false
    /\ (forall args returnTE, s <> ProcExp args [] returnTE)
    /\ (forall bindings, s <> LetExp bindings [] /\ s <> LetrecExp bindings []).
Proof.
  intros Hok s Hin.
  assert (Hs : accepted s) by (eapply accepted_sub; [ exists tenv, t; exact Hok | exact Hin ]).
  split; [ exact Hs | ]. destruct Hs as (tenv' & t' & Hs). split; [ | split ].
  - destruct s; try reflexivity. discriminate Hs.
  - intros args returnTE ->. discriminate Hs.
  - intros bindings. split; intros ->.
    + apply typeofLet_Ok in Hs as [_ Hbody]. discriminate Hbody.
    + destruct (allT isProcExp (map (fun b => bval b) bindings)) eqn:Hall.
      * apply typeofLetrec_Ok in Hs as [_ Hbody]; [ discriminate Hbody | exact Hall ].
      * rewrite typeofLetrec_not_procs in Hs by exact Hall. discriminate Hs.
Qed.

(** ** The program entry point *)

(** [L5programTypeof] looks at the text before anything else: a text shorter
    than five characters, or not starting with the program marker, or not
    ending with a closing parenthesis, is an invalid program whatever the
    parser made of it; a text of the form [(L5 ...)] passes, and the result
    is then the printed type of the parsed forms, or the first failure among
    parsing, checking and printing. *)
Theorem L5programTypeof_wrapper (text : string) (parsed : Result (list Exp)) :
  (String.length text < 5 ->
     L5programTypeof text parsed = Failure ("Invalid L5 program: " ++ text))
  /\ (substring 0 4 text <> "(L5 " ->
      L5programTypeof text parsed = Failure ("Invalid L5 program: " ++ text))
  /\ (substring (String.length text - 1) 1 text <> ")" ->
      L5programTypeof text parsed = Failure ("Invalid L5 program: " ++ text))
  /\ (forall body,
        text = "(L5 " ++ body ++ ")" ->
        L5programTypeof text parsed =
        bind parsed (fun forms => bind (typeofExp (Program forms) makeEmptyTEnv) unparseTExp)).
Proof.
  unfold L5programTypeof. repeat match goal with |- _ /\ _ => split end.
  - intros Hlen. apply Nat.leb_gt in Hlen. rewrite Hlen. reflexivity.
  - intros Hne. apply String.eqb_neq in Hne. rewrite Hne, andb_false_r. reflexivity.
  - intros Hne. apply String.eqb_neq in Hne. rewrite Hne, andb_false_r. reflexivity.
  - intros body ->. set (s := "(L5 " ++ body).
    assert (Htext : "(L5 " ++ body ++ ")" = s ++ ")") by reflexivity.
    rewrite Htext, length_append. cbn [String.length].
    replace (String.length s + 1 - 1) with (String.length s) by lia.
    assert (Hlast : substring (String.length s) 1 (s ++ ")") = ")") by apply substring_last.
    assert (Hlen : (5 <=? String.length s + 1)%nat = true).
    { unfold s. rewrite length_append. apply Nat.leb_le. cbn [String.length]. lia. }
    assert (Hpre : substring 0 4 (s ++ ")") = "(L5 ")
      by exact (substring_prefix "(L5 " (body ++ ")")).
    rewrite Hlast, Hlen, Hpre. reflexivity.
Qed.

End CoverageTheorem.

(** * Properties of the L4 parser *)

Section L4Parser.
Import L4.
Context `{Lexical}.

Lemma mapv_Ok {A B} (r : Result A) (f : A -> B) (b : B) :
  mapv r f = Ok b <-> exists a, r = Ok a /\ b = f a.
Proof.
  destruct r as [a | m]; simpl.
  - split; [ intros [= <-]; eauto | intros (a' & [= ->] & ->); reflexivity ].
  - split; [ discriminate | intros (a' & [=] & _) ].
Qed.

Lemma mapResult_Ok {A B} (f : A -> Result B) (l : list A) (rs : list B) :
  mapResult f l = Ok rs <-> Forall2 (fun x r => f x = Ok r) l rs.
Proof.
  revert rs. induction l as [ | x l IH ]; intros rs; simpl.
  - split; [ intros [= <-]; constructor | intros Hall; inversion Hall; reflexivity ].
  - rewrite bind_Ok. split.
    + intros (fx & Hfx & Hrest). apply bind_Ok in Hrest as (fxs & Hfxs & [= <-]).
      constructor; [ exact Hfx | apply IH; exact Hfxs ].
    + intros Hall. inversion Hall as [ | ? r ? rs' Hr Hrs ]; subst.
      exists r. split; [ exact Hr | ]. apply IH in Hrs. rewrite Hrs. reflexivity.
Qed.

Lemma sexpSize_In (x : Sexp) (items : list Sexp) :
  In x items -> sexpSize x < sexpSize (Arr items).
Proof.
  intros Hin. simpl. induction items as [ | y items IH ]; [ destruct Hin | ].
  simpl. destruct Hin as [-> | Hin]; [ lia | ]. specialize (IH Hin). lia.
Qed.

Lemma parseL4Atomic_wellFormed (token : Sexp) :
  exists e, parseL4Atomic token = Ok e /\ isAtomicExp e = true
            /\ (isToken token = true -> wellFormedCExp e = true).
Proof.
  unfold parseL4Atomic. destruct token as [s | s | items]; simpl.
  - destruct (String.eqb s "#t") eqn:Et;
      [ eexists; split; [ reflexivity | split; reflexivity ] | ].
    destruct (String.eqb s "#f") eqn:Ef;
      [ eexists; split; [ reflexivity | split; reflexivity ] | ].
    destruct (isNumericString s) eqn:En;
      [ eexists; split; [ reflexivity | split; reflexivity ] | ].
    destruct (isPrimOpKeyword s) eqn:Ep.
    + eexists. split; [ reflexivity | split; [ reflexivity | ] ]. intros _. exact Ep.
    + eexists. split; [ reflexivity | split; [ reflexivity | ] ]. intros _.
      simpl. rewrite Et, Ef, En, Ep. reflexivity.
  - eexists. split; [ reflexivity | split; reflexivity ].
  - eexists. split; [ reflexivity | split; [ reflexivity | discriminate ] ].
Qed.

Lemma mapResult_wellFormed (n : nat) (items : list Sexp) (cexps : list Exp) :
  (forall x, sexpSize x < n -> forall e, parseL4CExp x = Ok e -> wellFormedCExp e = true) ->
  (forall x, In x items -> sexpSize x < n) ->
  mapResult parseL4CExp items = Ok cexps ->
  forallb wellFormedCExp cexps = true.
Proof.
  intros IH Hsize Hok. apply mapResult_Ok in Hok.
  induction Hok as [ | x e items cexps Hx _ IHl ]; [ reflexivity | ].
  simpl. rewrite (IH x (Hsize x (or_introl eq_refl)) e Hx). simpl.
  apply IHl. intros y Hy. apply Hsize. right. exact Hy.
Qed.

Lemma parseBindings_wellFormed (n : nat) (bindings : Sexp) (bdgs : list (Binding Exp)) :
  (forall x, sexpSize x < n -> forall e, parseL4CExp x = Ok e -> wellFormedCExp e = true) ->
  sexpSize bindings < n ->
  parseBindings parseL4CExp bindings = Ok bdgs ->
  forallb (fun b => wellFormedCExp (bval b)) bdgs = true.
Proof.
  intros IH Hsize. unfold parseBindings.
  destruct (isGoodBindings bindings) eqn:Hgood; simpl; [ | discriminate ].
  destruct bindings as [ | | bs ]; try discriminate.
  intros Hok. apply bind_Ok in Hok as (vals & Hvals & [= <-]).
  apply mapResult_Ok in Hvals.
  assert (Hsub : forall b, In b bs -> sexpSize b < n).
  { intros b Hb. pose proof (sexpSize_In b bs Hb). lia. }
  clear Hsize Hgood. induction Hvals as [ | b val bs vals Hb _ IHl ]; [ reflexivity | ].
  cbn [map zipWith forallb].
  rewrite IHl; [ | intros b' Hb'; apply Hsub; right; exact Hb' ].
  rewrite andb_true_r. change (wellFormedCExp val = true).
  unfold parseBindingVal in Hb.
  destruct b as [ | | [ | x [ | v rest ] ] ]; try discriminate Hb.
  eapply IH; [ | exact Hb ].
  pose proof (Hsub _ (or_introl eq_refl)) as Hlt.
  pose proof (sexpSize_In v (x :: v :: rest)) as Hv. simpl in Hv, Hlt |- *.
  specialize (Hv (or_intror (or_introl eq_refl))). lia.
Qed.

Lemma parseL4CExp_wellFormed_bounded (n : nat) :
  forall sexp, sexpSize sexp < n ->
  forall e, parseL4CExp sexp = Ok e -> wellFormedCExp e = true.
Proof.
  induction n as [ | n IH ]; intros sexp Hsize e Hok; [ lia | ].
  destruct sexp as [s | s | [ | first rest ] ].
  - destruct (parseL4Atomic_wellFormed (Tok s)) as (e' & He' & _ & Hwf).
    simpl in Hok. rewrite He' in Hok. injection Hok as <-. apply Hwf. reflexivity.
  - destruct (parseL4Atomic_wellFormed (StrTok s)) as (e' & He' & _ & Hwf).
    simpl in Hok. rewrite He' in Hok. injection Hok as <-. apply Hwf. reflexivity.
  - discriminate Hok.
  - assert (Hfirst : sexpSize first < n)
      by (pose proof (sexpSize_In first (first :: rest) (or_introl eq_refl)); lia).
    assert (Hrest : forall x, In x rest -> sexpSize x < n).
    { intros x Hx. pose proof (sexpSize_In x (first :: rest) (or_intror Hx)). lia. }
    assert (Happ : forall e, parseAppExp parseL4CExp first rest = Ok e ->
                             wellFormedCExp e = true).
    { intros e' He'. unfold parseAppExp in He'.
      apply bind_Ok in He' as (rator & Hrator & He').
      apply mapv_Ok in He' as (rands & Hrands & ->). simpl.
      rewrite (IH first Hfirst rator Hrator). simpl.
      eapply (mapResult_wellFormed n rest rands); eauto. }
    change (parseL4CExp (Arr (first :: rest)))
      with (parseL4CompoundCExp parseL4CExp first rest) in Hok.
    unfold parseL4CompoundCExp in Hok.
    destruct first as [op | op | items]; try (apply Happ; exact Hok).
    destruct (isSpecialFormKeyword op) eqn:Hkw; [ | apply Happ; exact Hok ].
    unfold parseL4SpecialForm in Hok.
    destruct rest as [ | r0 rest' ]; [ discriminate Hok | ].
    assert (Hr0 : sexpSize r0 < n) by (apply Hrest; left; reflexivity).
    assert (Hrest' : forall x, In x rest' -> sexpSize x < n)
      by (intros x Hx; apply Hrest; right; exact Hx).
    destruct (String.eqb op "if").
    { unfold parseIfExp in Hok.
      destruct (length (r0 :: rest') =? 3)%nat eqn:Hlen; cbn [negb] in Hok;
        [ | discriminate Hok ].
      apply Nat.eqb_eq in Hlen.
      apply mapv_Ok in Hok as (cexps & Hcexps & ->).
      assert (Hall : forallb wellFormedCExp cexps = true)
        by (eapply (mapResult_wellFormed n (r0 :: rest') cexps); eauto).
      apply mapResult_Ok, Forall2_length in Hcexps. rewrite Hlen in Hcexps.
      destruct cexps as [ | a [ | b [ | c [ | ? ? ] ] ] ]; try discriminate Hcexps.
      simpl in Hall. unfold item. simpl.
      repeat (apply andb_true_iff in Hall as [? Hall]).
      repeat (apply andb_true_iff; split); assumption. }
    destruct (String.eqb op "lambda").
    { unfold parseProcExp in Hok. destruct r0 as [ | | vs ]; try discriminate Hok.
      destruct (allT isString vs); [ | discriminate Hok ].
      apply mapv_Ok in Hok as (cexps & Hcexps & ->). simpl.
      eapply mapResult_wellFormed; eauto. }
    destruct (String.eqb op "let").
    { unfold parseLetExp in Hok. apply bind_Ok in Hok as (bdgs & Hb & Hok).
      apply mapv_Ok in Hok as (cexps & Hcexps & ->). simpl.
      rewrite (parseBindings_wellFormed n r0 bdgs IH Hr0 Hb). simpl.
      eapply mapResult_wellFormed; eauto. }
    destruct (String.eqb op "quote").
    { unfold parseLitExp in Hok. apply mapv_Ok in Hok as (v & _ & ->). reflexivity. }
    destruct (String.eqb op "letrec").
    { unfold parseLetrecExp in Hok. apply bind_Ok in Hok as (bdgs & Hb & Hok).
      apply mapv_Ok in Hok as (cexps & Hcexps & ->). simpl.
      rewrite (parseBindings_wellFormed n r0 bdgs IH Hr0 Hb). simpl.
      eapply mapResult_wellFormed; eauto. }
    destruct (String.eqb op "set!"); [ | discriminate Hok ].
    unfold parseSetExp in Hok.
    destruct rest' as [ | val [ | ? ? ] ]; try discriminate Hok.
    unfold parseGoodSetExp in Hok.
    destruct (isIdentifier r0) eqn:Hid; cbn [negb] in Hok; [ | discriminate Hok ].
    apply mapv_Ok in Hok as (e' & He' & ->).
    change (wellFormedCExp e' = true).
    eapply IH; [ | exact He' ]. apply Hrest'. left. reflexivity.
Qed.

Lemma parseL4CExp_wellFormed (sexp : Sexp) (e : Exp) :
  parseL4CExp sexp = Ok e -> wellFormedCExp e = true.
Proof. apply (parseL4CExp_wellFormed_bounded (S (sexpSize sexp))). lia. Qed.

Lemma wellFormedCExp_isCExp (e : Exp) : wellFormedCExp e = true -> isCExp e = true.
Proof. destruct e; try discriminate; reflexivity. Qed.

Lemma parseL4Exp_wellFormed (sexp : Sexp) (e : Exp) :
  parseL4Exp sexp = Ok e -> wellFormedExp e = true.
Proof.
  assert (Hc : forall e, wellFormedCExp e = true -> wellFormedExp e = true)
    by (intros e'; destruct e'; try discriminate; auto).
  intros Hok. destruct sexp as [s | s | [ | first rest ] ].
  - apply Hc, (parseL4CExp_wellFormed (Tok s)). exact Hok.
  - apply Hc, (parseL4CExp_wellFormed (StrTok s)). exact Hok.
  - discriminate Hok.
  - simpl in Hok. unfold parseL4CompoundExp in Hok.
    destruct (isTok "define" first).
    + unfold parseDefine in Hok.
      destruct rest as [ | variable [ | val [ | ? ? ] ] ]; try discriminate Hok.
      unfold parseGoodDefine in Hok.
      destruct (isIdentifier variable) eqn:Hid; cbn [negb] in Hok; [ | discriminate Hok ].
      apply mapv_Ok in Hok as (value & Hvalue & ->).
      change (wellFormedCExp value = true).
      eapply parseL4CExp_wellFormed. exact Hvalue.
    + apply Hc, (parseL4CExp_wellFormed (Arr (first :: rest))). exact Hok.
Qed.

(** The parser keeps to the shape of the grammar it documents.  An
    expression parsed as a [cexp] contains no definition and no program at
    any depth, its primitive operators are keywords and its variable
    references are none of the other kinds of atom; an [exp] is such a
    [cexp] or a definition by one; a program is a non-empty sequence of such
    [exp]s.  Nothing is said of the names that are bound or assigned: they
    are whatever [isIdentifier] lets through. *)
Theorem parser_output_wellFormed :
  (forall sexp e,
     parseL4CExp sexp = Ok e -> wellFormedCExp e = true /\ isCExp e = true)
  /\ (forall sexp e,
        parseL4Exp sexp = Ok e -> wellFormedExp e = true /\ isExp e = true)
  /\ (forall sexp e,
        parseL4Program sexp = Ok e ->
        exists exps,
          e = Program exps /\ exps <> [] /\ forallb wellFormedExp exps = true).
Proof.
  split; [ | split ].
  - intros sexp e Hok. pose proof (parseL4CExp_wellFormed sexp e Hok) as Hwf.
    split; [ exact Hwf | apply wellFormedCExp_isCExp; exact Hwf ].
  - intros sexp e Hok. pose proof (parseL4Exp_wellFormed sexp e Hok) as Hwf.
    split; [ exact Hwf | ].
    destruct e; try reflexivity; try (apply wellFormedCExp_isCExp in Hwf; exact Hwf).
  - intros sexp e Hok. destruct sexp as [ | | [ | keyword body ] ]; try discriminate Hok.
    simpl in Hok. unfold parseL4GoodProgram in Hok.
    destruct (isTok "L4" keyword); [ | discriminate Hok ].
    destruct body as [ | b body ]; [ discriminate Hok | ]. cbn [negb andb] in Hok.
    apply mapv_Ok in Hok as (exps & Hexps & ->). exists exps.
    apply mapResult_Ok in Hexps. split; [ reflexivity | split ].
    + inversion Hexps. discriminate.
    + clear -Hexps. induction Hexps as [ | x e l exps Hx _ IH ]; [ reflexivity | ].
      simpl. rewrite (parseL4Exp_wellFormed x e Hx), IH. reflexivity.
Qed.

(** [parseL4Atomic] never fails and always returns an atomic expression.  A
    quoted string literal becomes a string expression whatever it spells; a
    plain token becomes a variable reference only when it is neither a
    boolean literal, nor numeric, nor a primitive keyword. *)
Theorem parseL4Atomic_cases :
  (forall token, exists e, parseL4Atomic token = Ok e /\ isAtomicExp e = true)
  /\ (forall s, parseL4Atomic (StrTok s) = Ok (StrExp s))
  /\ (forall s v,
        parseL4Atomic (Tok s) = Ok (VarRef v) <->
        v = s /\ s <> "#t" /\ s <> "#f"
        /\ isNumericString s = false /\ isPrimOpKeyword s = false)
  /\ (forall s op,
        parseL4Atomic (Tok s) = Ok (PrimOp op) <->
        op = s /\ s <> "#t" /\ s <> "#f"
        /\ isNumericString s = false /\ isPrimOpKeyword s = true).
Proof.
  split; [ | split; [ reflexivity | split ] ].
  - intros token. destruct (parseL4Atomic_wellFormed token) as (e & He & Hat & _). eauto.
  - intros s v. unfold parseL4Atomic. simpl.
    destruct (String.eqb_spec s "#t") as [-> | Ht];
      [ split; [ discriminate | intros (_ & Hne & _); congruence ] | ].
    destruct (String.eqb_spec s "#f") as [-> | Hf];
      [ split; [ discriminate | intros (_ & _ & Hne & _); congruence ] | ].
    destruct (isNumericString s);
      [ split; [ discriminate | intros (_ & _ & _ & Hn & _); discriminate Hn ] | ].
    destruct (isPrimOpKeyword s).
    + split; [ discriminate | intros (_ & _ & _ & _ & Hp); discriminate Hp ].
    + split; [ intros [= <-]; auto | intros (-> & _); reflexivity ].
  - intros s op. unfold parseL4Atomic. simpl.
    destruct (String.eqb_spec s "#t") as [-> | Ht];
      [ split; [ discriminate | intros (_ & Hne & _); congruence ] | ].
    destruct (String.eqb_spec s "#f") as [-> | Hf];
      [ split; [ discriminate | intros (_ & _ & Hne & _); congruence ] | ].
    destruct (isNumericString s);
      [ split; [ discriminate | intros (_ & _ & _ & Hn & _); discriminate Hn ] | ].
    destruct (isPrimOpKeyword s).
    + split; [ intros [= <-]; auto | intros (-> & _); reflexivity ].
    + split; [ discriminate | intros (_ & _ & _ & _ & Hp); discriminate Hp ].
Qed.



(** An [if] form parses exactly when it has three parts and each of them
    parses; with another number of parts (one at least) it is rejected as
    not of the form of a conditional. *)
Theorem parseIfExp_cases :
  (forall s1 s2 s3,
     parseL4CExp (Arr [Tok "if"; s1; s2; s3])
     = bind (parseL4CExp s1) (fun test =>
         bind (parseL4CExp s2) (fun then_ =>
           bind (parseL4CExp s3) (fun alt => Ok (IfExp test then_ alt)))))
  /\ (forall x params,
        length (x :: params) <> 3 ->
        parseL4CExp (Arr (Tok "if" :: x :: params))
        = Failure ("Expression not of the form (if <cexp> <cexp> <cexp>): "
                   ++ format (Arr (x :: params)))).
Proof.
  split.
  - intros s1 s2 s3.
    change (parseL4CExp (Arr [Tok "if"; s1; s2; s3]))
      with (parseIfExp parseL4CExp [s1; s2; s3]).
    unfold parseIfExp. simpl.
    destruct (parseL4CExp s1); [ | reflexivity ]. simpl.
    destruct (parseL4CExp s2); [ | reflexivity ]. simpl.
    destruct (parseL4CExp s3); reflexivity.
  - intros x params Hlen.
    change (parseL4CExp (Arr (Tok "if" :: x :: params)))
      with (parseIfExp parseL4CExp (x :: params)).
    unfold parseIfExp. apply Nat.eqb_neq in Hlen. rewrite Hlen. reflexivity.
Qed.

(** Special forms at their edges.  A keyword alone in a list is rejected for
    want of arguments.  A [lambda] or a [let] without any body expression is
    accepted, with an empty body.  [quote] reads its first argument and
    drops the others.  A keyword written as a string literal is no keyword:
    the list is an application. *)
Theorem special_form_edges :
  (forall op,
     isSpecialFormKeyword op = true ->
     parseL4CExp (Arr [Tok op]) = Failure "Empty args for special form")
  /\ (forall vs,
        allT isString vs = true ->
        parseL4CExp (Arr [Tok "lambda"; Arr vs])
        = Ok (ProcExp (map (fun x => makeVarDecl (tokenText x)) vs) []))
  /\ parseL4CExp (Arr [Tok "let"; Arr []]) = Ok (LetExp [] [])
  /\ parseL4CExp (Arr [Tok "letrec"; Arr []]) = Ok (LetrecExp [] [])
  /\ (forall x rest,
        parseL4CExp (Arr (Tok "quote" :: x :: rest))
        = mapv (parseSExp x) (fun sexp => LitExp sexp))
  /\ (forall s params,
        parseL4CExp (Arr (StrTok s :: params))
        = mapv (mapResult parseL4CExp params) (fun rands => AppExp (StrExp s) rands)).
Proof.
  repeat match goal with |- _ /\ _ => split end; try reflexivity.
  - intros op Hop. simpl. unfold parseL4CompoundCExp. rewrite Hop. reflexivity.
  - intros vs Hvs.
    change (parseL4CExp (Arr [Tok "lambda"; Arr vs]))
      with (parseProcExp parseL4CExp (Arr vs) []).
    unfold parseProcExp. rewrite Hvs. reflexivity.
Qed.

(** What [parseL4Program] requires: a list, not a token; not the empty list;
    the keyword L4 first; at least one form after it.  It then parses the
    forms in order and stops at the first that fails. *)
Theorem parseL4Program_cases :
  (forall s, parseL4Program (Tok s) = Failure ("Program cannot be a single token: " ++ s))
  /\ (forall s, parseL4Program (StrTok s) = Failure ("Program cannot be a single token: " ++ s))
  /\ parseL4Program (Arr []) = Failure "Unexpected empty program"
  /\ (forall keyword body,
        isTok "L4" keyword = false ->
        parseL4Program (Arr (keyword :: body))
        = Failure ("Program must be of the form (L4 <exp>+): " ++ format (Arr (keyword :: body))))
  /\ parseL4Program (Arr [Tok "L4"])
     = Failure ("Program must be of the form (L4 <exp>+): " ++ format (Arr [Tok "L4"]))
  /\ (forall form forms exps,
        parseL4Program (Arr (Tok "L4" :: form :: forms)) = Ok (Program exps) <->
        Forall2 (fun x e => parseL4Exp x = Ok e) (form :: forms) exps)
  /\ (forall pre form post m,
        Forall (fun x => isOk (parseL4Exp x) = true) pre ->
        parseL4Exp form = Failure m ->
        parseL4Program (Arr (Tok "L4" :: (pre ++ form :: post)%list)) = Failure m).
Proof.
  repeat match goal with |- _ /\ _ => split end; try reflexivity.
  - intros keyword body Hk. simpl. unfold parseL4GoodProgram. rewrite Hk. reflexivity.
  - intros form forms exps.
    change (parseL4Program (Arr (Tok "L4" :: form :: forms)))
      with (mapv (mapResult parseL4Exp (form :: forms)) (fun exps => Program exps)).
    rewrite mapv_Ok. split.
    + intros (exps' & Hexps & [= ->]). apply mapResult_Ok. exact Hexps.
    + intros Hall. apply mapResult_Ok in Hall. eauto.
  - intros pre form post m Hpre Hform.
    assert (Hm : mapResult parseL4Exp (pre ++ form :: post) = Failure m).
    { induction Hpre as [ | x pre Hx _ IH ]; simpl.
      - rewrite Hform. reflexivity.
      - revert Hx. destruct (parseL4Exp x); [ intros _ | discriminate ].
        simpl. rewrite IH. reflexivity. }
    change (parseL4Program (Arr (Tok "L4" :: (pre ++ form :: post)%list)))
      with (parseL4GoodProgram (Tok "L4") (pre ++ form :: post)).
    unfold parseL4GoodProgram. rewrite Hm.
    destruct (pre ++ form :: post)%list eqn:E; [ destruct pre; discriminate E | ].
    reflexivity.
Qed.

(** *** Quoted data *)

Lemma parseSExp_Arr (items : list Sexp) :
  parseSExp (Arr items) = parseItems parseSExp items.
Proof. reflexivity. Qed.

Lemma parseItems_cons (x : Sexp) (rest : list Sexp) :
  isDottedPair (x :: rest) = false ->
  isTok "." x = false ->
  parseItems parseSExp (x :: rest) =
  bind (parseSExp x) (fun val1 =>
    mapv (parseItems parseSExp rest) (fun val2 => CompoundSExp val1 val2)).
Proof.
  intros Hd Hdot.
  change (parseItems parseSExp (x :: rest)) with
    (if isDottedPair (x :: rest) then
       match x :: rest with
       | s0 :: _ :: s2 :: _ =>
           bind (parseSExp s0) (fun val1 =>
             mapv (parseSExp s2) (fun val2 => CompoundSExp val1 val2))
       | _ => Ok EmptySExp
       end
     else if isTok "." x then Failure ("Bad dotted sexp: " ++ format (Arr (x :: rest)))
     else bind (parseSExp x) (fun val1 =>
            mapv (parseItems parseSExp rest) (fun val2 => CompoundSExp val1 val2))).
  rewrite Hd, Hdot. reflexivity.
Qed.

Lemma isDottedPair_no_dot (items : list Sexp) :
  forallb (fun x => negb (isTok "." x)) items = true -> isDottedPair items = false.
Proof.
  intros Hno. unfold isDottedPair.
  destruct items as [ | a [ | b rest ] ]; try reflexivity.
  simpl in Hno. apply andb_true_iff in Hno as [_ Hno].
  apply andb_true_iff in Hno as [Hb _]. simpl. apply negb_true_iff in Hb. rewrite Hb.
  apply andb_false_r.
Qed.

Lemma parseItems_proper (items : list Sexp) (vs : list SExpValue) (tail : SExpValue) (last : list Sexp) :
  forallb (fun x => negb (isTok "." x)) items = true ->
  Forall2 (fun x v => parseSExp x = Ok v) items vs ->
  (forall pre x rest,
     items = (pre ++ x :: rest)%list -> isDottedPair ((x :: rest) ++ last) = false) ->
  parseItems parseSExp last = Ok tail ->
  parseItems parseSExp (items ++ last) = Ok (fold_right CompoundSExp tail vs).
Proof.
  intros Hno Hall. revert Hno.
  induction Hall as [ | x v items vs Hx _ IH ]; intros Hno Hnd Hlast; [ exact Hlast | ].
  simpl in Hno. apply andb_true_iff in Hno as [Hx' Hno]. apply negb_true_iff in Hx'.
  rewrite <- app_comm_cons, parseItems_cons; [ | apply (Hnd [] x items eq_refl) | exact Hx' ].
  rewrite Hx. cbn [bind]. rewrite IH; [ reflexivity | exact Hno | | exact Hlast ].
  intros pre y rest ->. apply (Hnd (x :: pre) y rest). reflexivity.
Qed.

Lemma Sexp_ind_nested (P : Sexp -> Prop) :
  (forall s, P (Tok s)) -> (forall s, P (StrTok s)) ->
  (forall items, Forall P items -> P (Arr items)) ->
  forall sexp, P sexp.
Proof.
  intros HTok HStr HArr. fix IH 1. intros [s | s | items].
  - apply HTok.
  - apply HStr.
  - apply HArr. induction items as [ | x items IHl ]; constructor; [ apply IH | exact IHl ].
Qed.

Lemma parseSExp_dotFree (sexp : Sexp) :
  dotFree sexp = true -> exists v, parseSExp sexp = Ok v.
Proof.
  induction sexp as [s | s | items IH] using Sexp_ind_nested; intros Hfree.
  - simpl. destruct (String.eqb s "#t"); [ eauto | ].
    destruct (String.eqb s "#f"); [ eauto | ]. destruct (isNumericString s); eauto.
  - simpl. eauto.
  - rewrite parseSExp_Arr. simpl in Hfree.
    induction IH as [ | x items Hx _ IHl ]; [ simpl; eauto | ].
    simpl in Hfree. apply andb_true_iff in Hfree as [Hfx Hfree].
    assert (Hdot : isTok "." x = false).
    { destruct x as [s | | ]; try reflexivity. simpl in Hfx |- *.
      apply negb_true_iff in Hfx. exact Hfx. }
    assert (Hnd : isDottedPair (x :: items) = false).
    { unfold isDottedPair. destruct items as [ | y items' ]; [ reflexivity | ].
      simpl in Hfree. apply andb_true_iff in Hfree as [Hfy _].
      assert (Hy : isTok "." y = false).
      { destruct y as [s | | ]; try reflexivity. simpl in Hfy |- *.
        apply negb_true_iff in Hfy. exact Hfy. }
      simpl. rewrite Hy. apply andb_false_r. }
    rewrite parseItems_cons by assumption.
    destruct (Hx Hfx) as (v & ->). destruct (IHl Hfree) as (vs & ->). simpl. eauto.
Qed.

(** [parseSExp] on lists.  Quoted data without any dot token always parses.
    A list whose items are not dots parses to the chain of pairs of its
    items that ends in the empty list; [(a . b)] parses to the pair of [a]
    and [b], and a list ending in [a . b] to the chain that ends in that
    pair.  A list that starts with a dot, other than a dotted pair, is a bad
    dotted S-expression. *)
Theorem parseSExp_lists :
  (forall sexp, dotFree sexp = true -> isOk (parseSExp sexp) = true)
  /\ parseSExp (Arr []) = Ok EmptySExp
  /\ (forall items vs,
        forallb (fun x => negb (isTok "." x)) items = true ->
        Forall2 (fun x v => parseSExp x = Ok v) items vs ->
        parseSExp (Arr items) = Ok (fold_right CompoundSExp EmptySExp vs))
  /\ (forall a b,
        parseSExp (Arr [a; Tok "."; b])
        = bind (parseSExp a) (fun val1 =>
            mapv (parseSExp b) (fun val2 => CompoundSExp val1 val2)))
  /\ (forall pre a b vs va vb,
        forallb (fun x => negb (isTok "." x)) pre = true ->
        Forall2 (fun x v => parseSExp x = Ok v) pre vs ->
        parseSExp a = Ok va -> parseSExp b = Ok vb ->
        parseSExp (Arr (pre ++ [a; Tok "."; b]))
        = Ok (fold_right CompoundSExp (CompoundSExp va vb) vs))
  /\ (forall rest,
        isDottedPair (Tok "." :: rest) = false ->
        parseSExp (Arr (Tok "." :: rest))
        = Failure ("Bad dotted sexp: " ++ format (Arr (Tok "." :: rest)))).
Proof.
  repeat match goal with |- _ /\ _ => split end; try reflexivity.
  - intros sexp Hfree. destruct (parseSExp_dotFree sexp Hfree) as (v & ->). reflexivity.
  - intros items vs Hno Hall. rewrite parseSExp_Arr.
    rewrite <- (app_nil_r items).
    apply (parseItems_proper items vs EmptySExp []); try assumption; try reflexivity.
    intros pre x rest ->. rewrite app_nil_r. apply isDottedPair_no_dot.
    rewrite forallb_app in Hno. apply andb_true_iff in Hno as [_ Hno]. exact Hno.
  - intros pre a b vs va vb Hno Hall Ha Hb. rewrite parseSExp_Arr.
    apply (parseItems_proper pre vs (CompoundSExp va vb) [a; Tok "."; b]); try assumption.
    + intros pre' x rest _. unfold isDottedPair.
      replace (length ((x :: rest) ++ [a; Tok "."; b]) =? 3)%nat with false;
        [ reflexivity | ].
      symmetry. apply Nat.eqb_neq. rewrite length_app. simpl. lia.
    + simpl. rewrite Ha, Hb. reflexivity.
  - intros rest Hd. rewrite parseSExp_Arr.
    change (parseItems parseSExp (Tok "." :: rest)) with
      (if isDottedPair (Tok "." :: rest) then
         match Tok "." :: rest with
         | s0 :: _ :: s2 :: _ =>
             bind (parseSExp s0) (fun val1 =>
               mapv (parseSExp s2) (fun val2 => CompoundSExp val1 val2))
         | _ => Ok EmptySExp
         end
       else Failure ("Bad dotted sexp: " ++ format (Arr (Tok "." :: rest)))).
    rewrite Hd. reflexivity.
Qed.

End L4Parser.

(** ** The pair primitives *)

Section PairPrimitives.
Context `{Collaborators}.

(** With the signatures of the table for [cons], [car] and [cdr] (over two
    different type-variable names), [cons] of two typed operands has the pair
    type of their types, whatever these are; [car] and [cdr] of an operand of
    a pair type have the type of its first and second component; so [car] of
    a [cons] has the type of the first operand.  [car] of an operand whose
    type is not a pair type is rejected. *)
Theorem pair_primitives_typing (x1 x2 : string) (tenv : TEnv) :
  x1 <> x2 ->
  parseTE "(T1 * T2 -> (Pair T1 T2))"
    = Ok (ProcTExp [TVar x1; TVar x2] (PairTExp (TVar x1) (TVar x2))) ->
  parseTE "((Pair T1 T2) -> T1)" = Ok (ProcTExp [PairTExp (TVar x1) (TVar x2)] (TVar x1)) ->
  parseTE "((Pair T1 T2) -> T2)" = Ok (ProcTExp [PairTExp (TVar x1) (TVar x2)] (TVar x2)) ->
  (forall a b ta tb,
     typeofExp a tenv = Ok ta -> typeofExp b tenv = Ok tb ->
     typeofExp (AppExp (PrimOp "cons") [a; b]) tenv = Ok (PairTExp ta tb))
  /\ (forall p ta tb,
        typeofExp p tenv = Ok (PairTExp ta tb) ->
        typeofExp (AppExp (PrimOp "car") [p]) tenv = Ok ta
        /\ typeofExp (AppExp (PrimOp "cdr") [p]) tenv = Ok tb)
  /\ (forall a b ta tb,
        typeofExp a tenv = Ok ta -> typeofExp b tenv = Ok tb ->
        typeofExp (AppExp (PrimOp "car") [AppExp (PrimOp "cons") [a; b]]) tenv = Ok ta
        /\ typeofExp (AppExp (PrimOp "cdr") [AppExp (PrimOp "cons") [a; b]]) tenv = Ok tb)
  /\ (forall p t,
        typeofExp p tenv = Ok t -> isPairTExp t = false ->
        isOk (typeofExp (AppExp (PrimOp "car") [p]) tenv) = false).
Proof.
  intros Hx Hcons Hcar Hcdr.
  assert (Pcons : typeofExp (PrimOp "cons") tenv
                  = Ok (ProcTExp [TVar x1; TVar x2] (PairTExp (TVar x1) (TVar x2))))
    by exact Hcons.
  assert (Pcar : typeofExp (PrimOp "car") tenv
                 = Ok (ProcTExp [PairTExp (TVar x1) (TVar x2)] (TVar x1))) by exact Hcar.
  assert (Pcdr : typeofExp (PrimOp "cdr") tenv
                 = Ok (ProcTExp [PairTExp (TVar x1) (TVar x2)] (TVar x2))) by exact Hcdr.
  assert (Rcons : forall a b ta tb,
             typeofExp a tenv = Ok ta -> typeofExp b tenv = Ok tb ->
             typeofExp (AppExp (PrimOp "cons") [a; b]) tenv = Ok (PairTExp ta tb)).
  { intros a b ta tb Ha Hb.
    rewrite (typeofApp_proc (PrimOp "cons") [a; b] tenv _ _ Pcons eq_refl).
    unfold unifyRands. cbn [Rules.unifyRands]. rewrite Ha, Hb. simpl.
    rewrite lookup_empty, lookup_insert_ne by exact Hx. rewrite lookup_empty. simpl.
    rewrite lookup_insert_ne by (intros Heq; apply Hx; symmetry; exact Heq).
    rewrite !lookup_insert_eq. reflexivity. }
  assert (Rsel : forall p ta tb,
             typeofExp p tenv = Ok (PairTExp ta tb) ->
             typeofExp (AppExp (PrimOp "car") [p]) tenv = Ok ta
             /\ typeofExp (AppExp (PrimOp "cdr") [p]) tenv = Ok tb).
  { intros p ta tb Hp. split.
    - rewrite (typeofApp_proc (PrimOp "car") [p] tenv _ _ Pcar eq_refl).
      unfold unifyRands. cbn [Rules.unifyRands]. rewrite Hp. simpl.
      rewrite lookup_empty, lookup_insert_ne by exact Hx. rewrite lookup_empty. simpl.
      rewrite lookup_insert_ne by (intros Heq; apply Hx; symmetry; exact Heq).
      rewrite lookup_insert_eq. reflexivity.
    - rewrite (typeofApp_proc (PrimOp "cdr") [p] tenv _ _ Pcdr eq_refl).
      unfold unifyRands. cbn [Rules.unifyRands]. rewrite Hp. simpl.
      rewrite lookup_empty, lookup_insert_ne by exact Hx. rewrite lookup_empty. simpl.
      rewrite lookup_insert_eq. reflexivity. }
  split; [ exact Rcons | split; [ exact Rsel | split ] ].
  - intros a b ta tb Ha Hb. apply Rsel. apply Rcons; assumption.
  - intros p t Hp Hnp.
    rewrite (typeofApp_proc (PrimOp "car") [p] tenv _ _ Pcar eq_refl).
    unfold unifyRands. cbn [Rules.unifyRands]. rewrite Hp.
    rewrite unifyTypes_fallback; [ | reflexivity | simpl; exact Hnp ].
    destruct t; try discriminate Hnp; simpl; destruct (unparse _); reflexivity.
Qed.

End PairPrimitives.

(** * The further properties at work *)

Section CheckerAtWork.
Import Reference.

Lemma checkEqualType_decides_witness :
  checkEqualType NumTExp BoolTExp (NumExp 1)
  = Failure "Incompatible types: number and boolean in 1".
Proof.
  destruct (@checkEqualType_decides Reference.collaborators NumTExp BoolTExp (NumExp 1))
    as (_ & _ & Hmsg).
  apply (Hmsg "number" "boolean" "1"); [ discriminate | reflexivity | reflexivity | reflexivity ].
Defined.

Lemma typeofExps_Ok_witness :
  typeofExps [] EmptyTEnv = Failure "Unexpected empty list of expressions".
Proof.
  destruct (@typeofExps_Ok Reference.collaborators [] EmptyTEnv) as (_ & Hempty).
  apply Hempty. reflexivity.
Defined.

Lemma typeofIf_Ok_witness :
  typeofExp (IfExp (NumExp 1) (VarRef "y") (NumExp 3)) EmptyTEnv
  = Failure "Incompatible types: number and boolean in (if 1 y 3)".
Proof.
  destruct (@typeofIf_Ok Reference.collaborators (NumExp 1) (VarRef "y") (NumExp 3) EmptyTEnv)
    as (_ & Htest).
  apply (Htest NumTExp); reflexivity.
Defined.

Lemma typeofProc_Ok_witness :
  typeofExp (ProcExp [makeVarDecl "x" NumTExp] [] NumTExp) EmptyTEnv
  = Failure "Unexpected empty list of expressions".
Proof.
  destruct (@typeofProc_Ok Reference.collaborators [makeVarDecl "x" NumTExp] [] NumTExp EmptyTEnv)
    as (_ & Hempty).
  apply Hempty. reflexivity.
Defined.

Lemma typeofDefine_Ok_witness :
  isOk (typeofExp (DefineExp (makeVarDecl "x" BoolTExp) (NumExp 1)) EmptyTEnv) = false.
Proof.
  destruct (@typeofDefine_Ok Reference.collaborators (makeVarDecl "x" BoolTExp) (NumExp 1) EmptyTEnv)
    as (_ & Hother).
  apply (Hother NumTExp); [ reflexivity | discriminate ].
Defined.

Lemma typeofPrim_table_witness :
  typeofPrim "list" = Failure "Primitive not yet implemented: list"
  /\ typeofPrim "pair?" = parseTE "(T -> boolean)".
Proof.
  split.
  - destruct (@typeofPrim_table Reference.collaborators "list")
      as (_ & _ & _ & _ & _ & _ & _ & _ & _ & _ & _ & Hunknown).
    apply Hunknown. unfold typedPrimitives. simpl.
    intros Hin. repeat (destruct Hin as [Hin | Hin]; [ discriminate Hin | ]). exact Hin.
  - destruct (@typeofPrim_table Reference.collaborators "pair?")
      as (_ & _ & _ & Hpred & _).
    apply Hpred. simpl. tauto.
Defined.

Lemma substituteTypeVars_unbound_witness :
  substituteTypeVars (PairTExp (TVar "T1") NumTExp) {[ "T2" := BoolTExp ]}
  = PairTExp (TVar "T1") NumTExp.
Proof.
  destruct (substituteTypeVars_unbound (PairTExp (TVar "T1") NumTExp) {[ "T2" := BoolTExp ]})
    as (Hun & _).
  apply Hun. simpl. intros v [<- | []]. vm_compute. reflexivity.
Defined.

Lemma unifyTypes_extends_witness :
  (unifyTypes (PairTExp (TVar "T1") (TVar "T2")) (PairTExp BoolTExp StrTExp)
     {[ "T1" := NumTExp ]}).2 !! "T1" = Some NumTExp.
Proof.
  destruct (unifyTypes_extends (PairTExp (TVar "T1") (TVar "T2")) (PairTExp BoolTExp StrTExp)
              {[ "T1" := NumTExp ]}) as (_ & Hkeep).
  apply Hkeep. vm_compute. reflexivity.
Defined.

Lemma unifyTypes_closed_witness :
  ((unifyTypes (PairTExp NumTExp BoolTExp) (PairTExp NumTExp StrTExp) ∅).1 = true
   <-> PairTExp NumTExp BoolTExp = PairTExp NumTExp StrTExp)
  /\ (unifyTypes (PairTExp NumTExp BoolTExp) (PairTExp NumTExp StrTExp) ∅).2 = ∅.
Proof.
  apply (unifyTypes_closed (PairTExp NumTExp BoolTExp) (PairTExp NumTExp StrTExp) ∅).
  reflexivity.
Defined.

Lemma unifyTypes_sound_witness :
  substituteTypeVars (PairTExp (TVar "T1") (PairTExp (TVar "T2") (TVar "T1")))
    (<[ "T2" := BoolTExp ]> (<[ "T1" := NumTExp ]> ∅))
  = PairTExp NumTExp (PairTExp BoolTExp NumTExp)
  /\ (forall v, In v ["T1"; "T2"; "T1"] ->
        is_Some ((<[ "T2" := BoolTExp ]> (<[ "T1" := NumTExp ]> ∅) : gmap string TExp) !! v)).
Proof.
  apply (unifyTypes_sound (PairTExp (TVar "T1") (PairTExp (TVar "T2") (TVar "T1")))
           (PairTExp NumTExp (PairTExp BoolTExp NumTExp)) ∅).
  - reflexivity.
  - vm_compute. reflexivity.
Defined.

Lemma unifyTypes_complete_witness :
  exists substitution',
    unifyTypes (PairTExp (TVar "T1") (TVar "T2")) (PairTExp NumTExp BoolTExp) ∅
    = (true, substitution')
    /\ substitution' ⊆ <[ "T3" := StrTExp ]> (<[ "T2" := BoolTExp ]> (<[ "T1" := NumTExp ]> ∅)).
Proof.
  apply (unifyTypes_complete (PairTExp (TVar "T1") (TVar "T2")) (PairTExp NumTExp BoolTExp) ∅
           (<[ "T3" := StrTExp ]> (<[ "T2" := BoolTExp ]> (<[ "T1" := NumTExp ]> ∅)))).
  - reflexivity.
  - apply map_empty_subseteq.
  - simpl. intros v [<- | [<- | []]]; vm_compute; eauto.
  - vm_compute. reflexivity.
Defined.

Lemma typeofApp_monomorphic_witness :
  typeofExp (AppExp increment [NumExp 3]) EmptyTEnv = Ok NumTExp.
Proof.
  apply (@typeofApp_monomorphic Reference.collaborators increment [NumExp 3] EmptyTEnv
           [NumTExp] NumTExp).
  - reflexivity.
  - constructor; [ reflexivity | constructor ].
  - split; [ | reflexivity ]. constructor; [ reflexivity | constructor ].
Defined.

Lemma accepted_subexpressions_witness :
  accepted (VarRef "x")
  /\ isSetExp (VarRef "x") = false
  /\ (forall args returnTE, VarRef "x" <> ProcExp args [] returnTE)
  /\ (forall bindings, VarRef "x" <> LetExp bindings [] /\ VarRef "x" <> LetrecExp bindings []).
Proof.
  apply (@accepted_subexpressions Reference.collaborators
           (AppExp increment [NumExp 3]) EmptyTEnv NumTExp).
  - reflexivity.
  - simpl. tauto.
Defined.

Lemma L5programTypeof_wrapper_witness :
  L5programTypeof "(L5)" (Ok []) = Failure "Invalid L5 program: (L5)".
Proof.
  destruct (@L5programTypeof_wrapper Reference.collaborators "(L5)" (Ok [])) as (Hshort & _).
  apply Hshort. simpl. lia.
Defined.

Lemma pair_primitives_typing_witness :
  typeofExp (AppExp (PrimOp "car") [AppExp (PrimOp "cons") [NumExp 1; StrExp "a"]]) EmptyTEnv
  = Ok NumTExp
  /\ typeofExp (AppExp (PrimOp "cdr") [AppExp (PrimOp "cons") [NumExp 1; StrExp "a"]]) EmptyTEnv
     = Ok StrTExp.
Proof.
  destruct (@pair_primitives_typing Reference.collaborators "T1" "T2" EmptyTEnv
              ltac:(discriminate) eq_refl eq_refl eq_refl) as (_ & _ & Hboth & _).
  apply (Hboth (NumExp 1) (StrExp "a")); reflexivity.
Defined.

End CheckerAtWork.

Section ParserAtWork.
Import L4 L4Reference.

Lemma parser_output_wellFormed_witness :
  wellFormedCExp (AppExp (PrimOp "+") [NumExp 1; VarRef "x"]) = true
  /\ isCExp (AppExp (PrimOp "+") [NumExp 1; VarRef "x"]) = true.
Proof.
  destruct (@parser_output_wellFormed L4Reference.lexical) as (Hcexp & _).
  apply (Hcexp (Arr [Tok "+"; Tok "1"; Tok "x"])). reflexivity.
Defined.

Lemma parseL4Atomic_cases_witness :
  parseL4Atomic (Tok "x") = Ok (VarRef "x").
Proof.
  destruct (@parseL4Atomic_cases L4Reference.lexical) as (_ & _ & Hvar & _).
  apply Hvar. repeat split; discriminate.
Defined.



Lemma parseIfExp_cases_witness :
  parseL4CExp (Arr [Tok "if"; Tok "#t"; Tok "1"])
  = Failure "Expression not of the form (if <cexp> <cexp> <cexp>): (#t 1)".
Proof.
  destruct (@parseIfExp_cases L4Reference.lexical) as (_ & Hbad).
  apply (Hbad (Tok "#t") [Tok "1"]). simpl. lia.
Defined.

Lemma special_form_edges_witness :
  parseL4CExp (Arr [Tok "lambda"; Arr [Tok "x"]]) = Ok (ProcExp [makeVarDecl "x"] []).
Proof.
  destruct (@special_form_edges L4Reference.lexical) as (_ & Hlambda & _).
  apply (Hlambda [Tok "x"]). reflexivity.
Defined.

Lemma parseL4Program_cases_witness :
  parseL4Program (Arr [Tok "L4"; Tok "1"; Arr []; Tok "2"])
  = Failure "Exp cannot be an empty list".
Proof.
  destruct (@parseL4Program_cases L4Reference.lexical) as (_ & _ & _ & _ & _ & _ & Hfirst).
  apply (Hfirst [Tok "1"] (Arr []) [Tok "2"]).
  - constructor; [ reflexivity | constructor ].
  - reflexivity.
Defined.

Lemma parseSExp_lists_witness :
  parseSExp (Arr [Tok "a"; Tok "1"; Tok "."; Tok "b"])
  = Ok (CompoundSExp (SymbolSExp "a") (CompoundSExp (SNumber 1) (SymbolSExp "b"))).
Proof.
  destruct (@parseSExp_lists L4Reference.lexical) as (_ & _ & _ & _ & Himproper & _).
  apply (Himproper [Tok "a"] (Tok "1") (Tok "b") [SymbolSExp "a"] (SNumber 1) (SymbolSExp "b")).
  - reflexivity.
  - constructor; [ reflexivity | constructor ].
  - reflexivity.
  - reflexivity.
Defined.

End ParserAtWork.
